(** * simpleARDIY: the per-frame tracking loop and its input surface

    A shallow embedding of [simpleARDIY.cpp].  The process-wide globals of
    the program become one record [State]; every GLUT callback ([Keyboard],
    [mainLoop], [Display], [Reshape]) becomes a function from the state (and
    the answers of the external libraries for that call) to a [Result]: the
    new state, the trace of external calls it made, and the exit code when
    the callback ended the process.

    C scalars are modelled as the program has them: [int] as [Z] with its
    32-bit wrap-around, [float] as IEEE-754 binary32 and [ARdouble] as
    binary64, both through the executable specification [SpecFloat] of the
    standard library (round to nearest even). *)

From Stdlib Require Import ZArith List String Ascii Bool Lia.
From Stdlib Require Import DecimalString.
From Stdlib Require DecimalN.
From Stdlib Require Import Floats.SpecFloat.
Import ListNotations.
Local Open Scope Z_scope.

(* ================================================================== *)
(** ** C scalars *)
(* ================================================================== *)

Module C.

(** [int]: 32-bit two's complement. *)
Definition int_wrap (z : Z) : Z := (z + 2147483648) mod 4294967296 - 2147483648.
Definition int_add (a b : Z) : Z := int_wrap (a + b).
Definition int_sub (a b : Z) : Z := int_wrap (a - b).

(** [long]: 64-bit two's complement (LP64). *)
Definition long_wrap (z : Z) : Z :=
  (z + 9223372036854775808) mod 18446744073709551616 - 9223372036854775808.

Definition TRUE : Z := 1.
Definition FALSE : Z := 0.
Definition NULL : Z := 0.

(** The truth value of an [int] used as a condition, and C's [!]. *)
Definition truth (x : Z) : bool := negb (x =? 0).
Definition lnot (x : Z) : Z := if x =? 0 then 1 else 0.

(** The status a parent process sees for [exit(code)]. *)
Definition exit_status (code : Z) : Z := code mod 256.

End C.

(** [float]: IEEE-754 binary32. *)
Module F32.
Definition prec : Z := 24.
Definition emax : Z := 128.
Definition add : spec_float -> spec_float -> spec_float := SFadd prec emax.
Definition sub : spec_float -> spec_float -> spec_float := SFsub prec emax.
Definition mul : spec_float -> spec_float -> spec_float := SFmul prec emax.
Definition div : spec_float -> spec_float -> spec_float := SFdiv prec emax.
Definition lt (a b : spec_float) : bool := SFltb a b.
Definition gt (a b : spec_float) : bool := SFltb b a.
(** [(float) z] for an integer [z]. *)
Definition of_int (z : Z) : spec_float := binary_normalize prec emax z 0 false.
(** Conversion of a value of another binary format (here: a [double]). *)
Definition of_float (x : spec_float) : spec_float :=
  match x with
  | S754_finite s m e => binary_normalize prec emax (cond_Zopp s (Zpos m)) e s
  | _ => x
  end.
End F32.

(** [double]: IEEE-754 binary64. *)
Module F64.
Definition prec : Z := 53.
Definition emax : Z := 1024.
Definition mul : spec_float -> spec_float -> spec_float := SFmul prec emax.
Definition div : spec_float -> spec_float -> spec_float := SFdiv prec emax.
Definition lt (a b : spec_float) : bool := SFltb a b.
Definition gt (a b : spec_float) : bool := SFltb b a.
Definition of_int (z : Z) : spec_float := binary_normalize prec emax z 0 false.
(** Promotion of a [float] to [double] (exact). *)
Definition of_float (x : spec_float) : spec_float :=
  match x with
  | S754_finite s m e => binary_normalize prec emax (cond_Zopp s (Zpos m)) e s
  | _ => x
  end.
End F64.

Definition ARdouble := spec_float.
Definition is_nan (x : spec_float) : bool :=
  match x with S754_nan => true | _ => false end.

(** The literals of the program. *)
Definition f_45_0 : spec_float := F32.of_int 45.                      (* 45.0f  *)
Definition f_360_0 : spec_float := F32.of_int 360.                    (* 360.0f *)
Definition f_0_001 : spec_float := S754_finite false 8589935 (-33).   (* 0.001f *)
Definition f_0_01 : spec_float := S754_finite false 10737418 (-30).   (* 0.01f  *)
Definition d_1_5 : spec_float := F64.div (F64.of_int 3) (F64.of_int 2). (* 1.5 *)
Definition d_2_0 : spec_float := F64.of_int 2.                        (* 2.0 *)
Definition d_1_0 : spec_float := F64.of_int 1.                        (* 1.0 *)

(* ================================================================== *)
(** ** Constants and globals *)
(* ================================================================== *)

Definition VIEW_SCALEFACTOR : ARdouble := d_1_0.
Definition VIEW_DISTANCE_MIN : ARdouble := F64.of_int 40.
Definition VIEW_DISTANCE_MAX : ARdouble := F64.of_int 10000.

(** [static ARdouble gPatt_width = 80.0;] *)
Definition gPatt_width : ARdouble := F64.of_int 80.
(** [static const float markerSize = 40.0f;] *)
Definition markerSize : spec_float := F32.of_int 40.

(** Enumerators of the ARToolKit headers, which are not part of the sources.
    Modelled from the spec: the threshold ring MANUAL, AUTO_MEDIAN,
    AUTO_OTSU, AUTO_ADAPTIVE; the image-processing modes FRAME and FIELD;
    the draw modes pixel-copy and texture mapping with a full or half image.
    [AR_LABELING_THRESH_MODE_other] stands for any enumerator the program's
    [switch] does not name.  For the [int]-valued modes only the
    distinctness of the values matters. *)
Inductive AR_LABELING_THRESH_MODE : Type :=
| AR_LABELING_THRESH_MODE_MANUAL
| AR_LABELING_THRESH_MODE_AUTO_MEDIAN
| AR_LABELING_THRESH_MODE_AUTO_OTSU
| AR_LABELING_THRESH_MODE_AUTO_ADAPTIVE
| AR_LABELING_THRESH_MODE_other.

Definition AR_IMAGE_PROC_FRAME_IMAGE : Z := 0.
Definition AR_IMAGE_PROC_FIELD_IMAGE : Z := 1.
Definition AR_DRAW_BY_GL_DRAW_PIXELS : Z := 0.
Definition AR_DRAW_BY_TEXTURE_MAPPING : Z := 1.
Definition AR_DRAW_TEXTURE_FULL_IMAGE : Z := 0.
Definition AR_DRAW_TEXTURE_HALF_IMAGE : Z := 1.
Definition AR_DEBUG_DISABLE : Z := 0.
Definition AR_PIXEL_FORMAT_INVALID : Z := -1.

(** One entry of [ARHandle.markerInfo]: a detector hypothesis. *)
Record ARMarkerInfo : Type := {
  marker_id : Z;
  marker_cf : ARdouble;
  marker_vertex : list (ARdouble * ARdouble)
}.

(** [ARdouble [3][4]], row by row. *)
Definition Trans : Type := list (list ARdouble).

(** The fields of [ARHandle] the program reads or sets. *)
Record ARHandle : Type := {
  arDebug : Z;
  arLabelingThresh : Z;
  arLabelingThreshMode : AR_LABELING_THRESH_MODE;
  arImageProcMode : Z;
  xsize : Z;
  ysize : Z;
  arPixelFormat : Z;
  marker_num : Z;
  markerInfo : list ARMarkerInfo
}.

(** The fields behind [ARGL_CONTEXT_SETTINGS_REF]. *)
Record ARGL_CONTEXT_SETTINGS : Type := {
  arglDrawMode : Z;
  arglTexmapMode : Z
}.

(** The globals of the program, with the function-local statics of
    [mainLoop] ([imageNumber], [ms_prev]). *)
Record State : Type := {
  windowWidth : Z;
  windowHeight : Z;
  gARTImage : Z;
  gARTImageSavePlease : Z;
  gARHandle : ARHandle;
  gCallCountMarkerDetect : Z;
  gPatt_trans : Trans;
  gPatt_found : Z;
  gPatt_id : Z;
  gArglSettings : option ARGL_CONTEXT_SETTINGS;
  gShowHelp : Z;
  gShowMode : Z;
  gDrawRotate : Z;
  gDrawRotateAngle : spec_float;
  gObj : Z;
  imageNumber : Z;
  ms_prev : Z
}.

(** External calls, in the order the program makes them. *)
Inductive Event : Type :=
| E_glutGet_ELAPSED_TIME
| E_arVideoGetImage
| E_arVideoSaveImageJPEG (w h pixFormat image : Z) (name : string) (quality flipV : Z)
| E_ARLOGe (msg : string)
| E_arDetectMarker (image : Z)
| E_arGetTransMatSquare (marker : ARMarkerInfo) (width : ARdouble)
| E_glutPostRedisplay
| E_arUtilTimer
| E_arUtilTimerReset
| E_exit (code : Z)
(* cleanup *)
| E_arglCleanup
| E_arPattDetach
| E_arPattDeleteHandle
| E_arVideoCapStop
| E_ar3DDeleteHandle
| E_arDeleteHandle
| E_arParamLTFree
| E_arVideoClose
| E_glmDelete
(* startup *)
| E_glmReadOBJ (name : string)
| E_glmUnitize
| E_glmScale (scale : spec_float)
| E_glutInit
| E_arVideoOpen
| E_arVideoGetSize
| E_ARLOGi (msg : string) (x y : Z)
| E_arVideoGetPixelFormat
| E_arParamLoad (name : string)
| E_ARLOGw (msg : string) (x y : Z)
| E_arParamChangeSize (w h : Z)
| E_arParamLTCreate
| E_arCreateHandle
| E_arSetPixelFormat (pixFormat : Z)
| E_arSetDebugMode (mode : Z)
| E_ar3DCreateHandle
| E_arVideoCapStart
| E_arPattCreateHandle
| E_arPattLoad (name : string)
| E_arPattAttach
| E_glutCreateWindow (w h : Z)
| E_arglSetupForCurrentContext
| E_arglSetupDebugMode
| E_glutMainLoop
(* drawing *)
| E_glDrawBuffer_BACK
| E_glClear
| E_glViewport (x y w h : Z)
| E_arglDispImage (image : Z) (zoom : ARdouble)
| E_arglCameraFrustumRH (near far : ARdouble)
| E_glMatrixMode_PROJECTION
| E_glMatrixMode_MODELVIEW
| E_glLoadMatrix_frustum
| E_glLoadIdentity
| E_glEnable_LIGHTING
| E_glEnable_LIGHT0
| E_glEnable_DEPTH_TEST
| E_arglCameraViewRH (trans : Trans) (scale : ARdouble)
| E_glLoadMatrix_view
| E_glPushMatrix
| E_glRotatef (angle x y z : spec_float)
| E_glTranslatef (x y z : spec_float)
| E_glmDraw_SMOOTH_MATERIAL
| E_glPopMatrix
| E_glOrtho (right top : Z)
| E_glDisable_LIGHTING
| E_glDisable_DEPTH_TEST
| E_printMode
| E_printHelpKeys
| E_glutSwapBuffers.

(** What a callback leaves behind. [exited = Some c]: the callback called
    [exit(c)] and the process is gone. *)
Record Result : Type := {
  final : State;
  trace : list Event;
  exited : option Z
}.

Definition returns (st : State) (tr : list Event) : Result :=
  {| final := st; trace := tr; exited := None |}.
Definition exits (st : State) (tr : list Event) (code : Z) : Result :=
  {| final := st; trace := tr ++ [E_exit code]; exited := Some code |}.

(* ------------------------------------------------------------------ *)
(** *** Field updates *)

Definition set_arDebug (v : Z) (h : ARHandle) : ARHandle :=
  {| arDebug := v; arLabelingThresh := arLabelingThresh h;
     arLabelingThreshMode := arLabelingThreshMode h;
     arImageProcMode := arImageProcMode h; xsize := xsize h; ysize := ysize h;
     arPixelFormat := arPixelFormat h; marker_num := marker_num h;
     markerInfo := markerInfo h |}.
Definition set_arLabelingThresh (v : Z) (h : ARHandle) : ARHandle :=
  {| arDebug := arDebug h; arLabelingThresh := v;
     arLabelingThreshMode := arLabelingThreshMode h;
     arImageProcMode := arImageProcMode h; xsize := xsize h; ysize := ysize h;
     arPixelFormat := arPixelFormat h; marker_num := marker_num h;
     markerInfo := markerInfo h |}.
Definition set_arLabelingThreshMode (v : AR_LABELING_THRESH_MODE) (h : ARHandle) : ARHandle :=
  {| arDebug := arDebug h; arLabelingThresh := arLabelingThresh h;
     arLabelingThreshMode := v;
     arImageProcMode := arImageProcMode h; xsize := xsize h; ysize := ysize h;
     arPixelFormat := arPixelFormat h; marker_num := marker_num h;
     markerInfo := markerInfo h |}.
Definition set_arImageProcMode (v : Z) (h : ARHandle) : ARHandle :=
  {| arDebug := arDebug h; arLabelingThresh := arLabelingThresh h;
     arLabelingThreshMode := arLabelingThreshMode h;
     arImageProcMode := v; xsize := xsize h; ysize := ysize h;
     arPixelFormat := arPixelFormat h; marker_num := marker_num h;
     markerInfo := markerInfo h |}.
Definition set_arPixelFormat (v : Z) (h : ARHandle) : ARHandle :=
  {| arDebug := arDebug h; arLabelingThresh := arLabelingThresh h;
     arLabelingThreshMode := arLabelingThreshMode h;
     arImageProcMode := arImageProcMode h; xsize := xsize h; ysize := ysize h;
     arPixelFormat := v; marker_num := marker_num h;
     markerInfo := markerInfo h |}.
Definition set_markers (l : list ARMarkerInfo) (h : ARHandle) : ARHandle :=
  {| arDebug := arDebug h; arLabelingThresh := arLabelingThresh h;
     arLabelingThreshMode := arLabelingThreshMode h;
     arImageProcMode := arImageProcMode h; xsize := xsize h; ysize := ysize h;
     arPixelFormat := arPixelFormat h; marker_num := Z.of_nat (List.length l);
     markerInfo := l |}.

Definition set_windowSize (w h : Z) (s : State) : State :=
  {| windowWidth := w; windowHeight := h; gARTImage := gARTImage s;
     gARTImageSavePlease := gARTImageSavePlease s; gARHandle := gARHandle s;
     gCallCountMarkerDetect := gCallCountMarkerDetect s;
     gPatt_trans := gPatt_trans s; gPatt_found := gPatt_found s;
     gPatt_id := gPatt_id s; gArglSettings := gArglSettings s;
     gShowHelp := gShowHelp s; gShowMode := gShowMode s;
     gDrawRotate := gDrawRotate s; gDrawRotateAngle := gDrawRotateAngle s;
     gObj := gObj s; imageNumber := imageNumber s; ms_prev := ms_prev s |}.
Definition set_gARTImage (v : Z) (s : State) : State :=
  {| windowWidth := windowWidth s; windowHeight := windowHeight s; gARTImage := v;
     gARTImageSavePlease := gARTImageSavePlease s; gARHandle := gARHandle s;
     gCallCountMarkerDetect := gCallCountMarkerDetect s;
     gPatt_trans := gPatt_trans s; gPatt_found := gPatt_found s;
     gPatt_id := gPatt_id s; gArglSettings := gArglSettings s;
     gShowHelp := gShowHelp s; gShowMode := gShowMode s;
     gDrawRotate := gDrawRotate s; gDrawRotateAngle := gDrawRotateAngle s;
     gObj := gObj s; imageNumber := imageNumber s; ms_prev := ms_prev s |}.
Definition set_gARTImageSavePlease (v : Z) (s : State) : State :=
  {| windowWidth := windowWidth s; windowHeight := windowHeight s;
     gARTImage := gARTImage s;
     gARTImageSavePlease := v; gARHandle := gARHandle s;
     gCallCountMarkerDetect := gCallCountMarkerDetect s;
     gPatt_trans := gPatt_trans s; gPatt_found := gPatt_found s;
     gPatt_id := gPatt_id s; gArglSettings := gArglSettings s;
     gShowHelp := gShowHelp s; gShowMode := gShowMode s;
     gDrawRotate := gDrawRotate s; gDrawRotateAngle := gDrawRotateAngle s;
     gObj := gObj s; imageNumber := imageNumber s; ms_prev := ms_prev s |}.
Definition set_gARHandle (v : ARHandle) (s : State) : State :=
  {| windowWidth := windowWidth s; windowHeight := windowHeight s;
     gARTImage := gARTImage s;
     gARTImageSavePlease := gARTImageSavePlease s; gARHandle := v;
     gCallCountMarkerDetect := gCallCountMarkerDetect s;
     gPatt_trans := gPatt_trans s; gPatt_found := gPatt_found s;
     gPatt_id := gPatt_id s; gArglSettings := gArglSettings s;
     gShowHelp := gShowHelp s; gShowMode := gShowMode s;
     gDrawRotate := gDrawRotate s; gDrawRotateAngle := gDrawRotateAngle s;
     gObj := gObj s; imageNumber := imageNumber s; ms_prev := ms_prev s |}.
Definition set_gCallCountMarkerDetect (v : Z) (s : State) : State :=
  {| windowWidth := windowWidth s; windowHeight := windowHeight s;
     gARTImage := gARTImage s;
     gARTImageSavePlease := gARTImageSavePlease s; gARHandle := gARHandle s;
     gCallCountMarkerDetect := v;
     gPatt_trans := gPatt_trans s; gPatt_found := gPatt_found s;
     gPatt_id := gPatt_id s; gArglSettings := gArglSettings s;
     gShowHelp := gShowHelp s; gShowMode := gShowMode s;
     gDrawRotate := gDrawRotate s; gDrawRotateAngle := gDrawRotateAngle s;
     gObj := gObj s; imageNumber := imageNumber s; ms_prev := ms_prev s |}.
Definition set_gPatt_trans (v : Trans) (s : State) : State :=
  {| windowWidth := windowWidth s; windowHeight := windowHeight s;
     gARTImage := gARTImage s;
     gARTImageSavePlease := gARTImageSavePlease s; gARHandle := gARHandle s;
     gCallCountMarkerDetect := gCallCountMarkerDetect s;
     gPatt_trans := v; gPatt_found := gPatt_found s;
     gPatt_id := gPatt_id s; gArglSettings := gArglSettings s;
     gShowHelp := gShowHelp s; gShowMode := gShowMode s;
     gDrawRotate := gDrawRotate s; gDrawRotateAngle := gDrawRotateAngle s;
     gObj := gObj s; imageNumber := imageNumber s; ms_prev := ms_prev s |}.
Definition set_gPatt_found (v : Z) (s : State) : State :=
  {| windowWidth := windowWidth s; windowHeight := windowHeight s;
     gARTImage := gARTImage s;
     gARTImageSavePlease := gARTImageSavePlease s; gARHandle := gARHandle s;
     gCallCountMarkerDetect := gCallCountMarkerDetect s;
     gPatt_trans := gPatt_trans s; gPatt_found := v;
     gPatt_id := gPatt_id s; gArglSettings := gArglSettings s;
     gShowHelp := gShowHelp s; gShowMode := gShowMode s;
     gDrawRotate := gDrawRotate s; gDrawRotateAngle := gDrawRotateAngle s;
     gObj := gObj s; imageNumber := imageNumber s; ms_prev := ms_prev s |}.
Definition set_gArglSettings (v : option ARGL_CONTEXT_SETTINGS) (s : State) : State :=
  {| windowWidth := windowWidth s; windowHeight := windowHeight s;
     gARTImage := gARTImage s;
     gARTImageSavePlease := gARTImageSavePlease s; gARHandle := gARHandle s;
     gCallCountMarkerDetect := gCallCountMarkerDetect s;
     gPatt_trans := gPatt_trans s; gPatt_found := gPatt_found s;
     gPatt_id := gPatt_id s; gArglSettings := v;
     gShowHelp := gShowHelp s; gShowMode := gShowMode s;
     gDrawRotate := gDrawRotate s; gDrawRotateAngle := gDrawRotateAngle s;
     gObj := gObj s; imageNumber := imageNumber s; ms_prev := ms_prev s |}.
Definition set_gShowHelp (v : Z) (s : State) : State :=
  {| windowWidth := windowWidth s; windowHeight := windowHeight s;
     gARTImage := gARTImage s;
     gARTImageSavePlease := gARTImageSavePlease s; gARHandle := gARHandle s;
     gCallCountMarkerDetect := gCallCountMarkerDetect s;
     gPatt_trans := gPatt_trans s; gPatt_found := gPatt_found s;
     gPatt_id := gPatt_id s; gArglSettings := gArglSettings s;
     gShowHelp := v; gShowMode := gShowMode s;
     gDrawRotate := gDrawRotate s; gDrawRotateAngle := gDrawRotateAngle s;
     gObj := gObj s; imageNumber := imageNumber s; ms_prev := ms_prev s |}.
Definition set_gShowMode (v : Z) (s : State) : State :=
  {| windowWidth := windowWidth s; windowHeight := windowHeight s;
     gARTImage := gARTImage s;
     gARTImageSavePlease := gARTImageSavePlease s; gARHandle := gARHandle s;
     gCallCountMarkerDetect := gCallCountMarkerDetect s;
     gPatt_trans := gPatt_trans s; gPatt_found := gPatt_found s;
     gPatt_id := gPatt_id s; gArglSettings := gArglSettings s;
     gShowHelp := gShowHelp s; gShowMode := v;
     gDrawRotate := gDrawRotate s; gDrawRotateAngle := gDrawRotateAngle s;
     gObj := gObj s; imageNumber := imageNumber s; ms_prev := ms_prev s |}.
Definition set_gDrawRotate (v : Z) (s : State) : State :=
  {| windowWidth := windowWidth s; windowHeight := windowHeight s;
     gARTImage := gARTImage s;
     gARTImageSavePlease := gARTImageSavePlease s; gARHandle := gARHandle s;
     gCallCountMarkerDetect := gCallCountMarkerDetect s;
     gPatt_trans := gPatt_trans s; gPatt_found := gPatt_found s;
     gPatt_id := gPatt_id s; gArglSettings := gArglSettings s;
     gShowHelp := gShowHelp s; gShowMode := gShowMode s;
     gDrawRotate := v; gDrawRotateAngle := gDrawRotateAngle s;
     gObj := gObj s; imageNumber := imageNumber s; ms_prev := ms_prev s |}.
Definition set_gDrawRotateAngle (v : spec_float) (s : State) : State :=
  {| windowWidth := windowWidth s; windowHeight := windowHeight s;
     gARTImage := gARTImage s;
     gARTImageSavePlease := gARTImageSavePlease s; gARHandle := gARHandle s;
     gCallCountMarkerDetect := gCallCountMarkerDetect s;
     gPatt_trans := gPatt_trans s; gPatt_found := gPatt_found s;
     gPatt_id := gPatt_id s; gArglSettings := gArglSettings s;
     gShowHelp := gShowHelp s; gShowMode := gShowMode s;
     gDrawRotate := gDrawRotate s; gDrawRotateAngle := v;
     gObj := gObj s; imageNumber := imageNumber s; ms_prev := ms_prev s |}.
Definition set_gObj (v : Z) (s : State) : State :=
  {| windowWidth := windowWidth s; windowHeight := windowHeight s;
     gARTImage := gARTImage s;
     gARTImageSavePlease := gARTImageSavePlease s; gARHandle := gARHandle s;
     gCallCountMarkerDetect := gCallCountMarkerDetect s;
     gPatt_trans := gPatt_trans s; gPatt_found := gPatt_found s;
     gPatt_id := gPatt_id s; gArglSettings := gArglSettings s;
     gShowHelp := gShowHelp s; gShowMode := gShowMode s;
     gDrawRotate := gDrawRotate s; gDrawRotateAngle := gDrawRotateAngle s;
     gObj := v; imageNumber := imageNumber s; ms_prev := ms_prev s |}.
Definition set_imageNumber (v : Z) (s : State) : State :=
  {| windowWidth := windowWidth s; windowHeight := windowHeight s;
     gARTImage := gARTImage s;
     gARTImageSavePlease := gARTImageSavePlease s; gARHandle := gARHandle s;
     gCallCountMarkerDetect := gCallCountMarkerDetect s;
     gPatt_trans := gPatt_trans s; gPatt_found := gPatt_found s;
     gPatt_id := gPatt_id s; gArglSettings := gArglSettings s;
     gShowHelp := gShowHelp s; gShowMode := gShowMode s;
     gDrawRotate := gDrawRotate s; gDrawRotateAngle := gDrawRotateAngle s;
     gObj := gObj s; imageNumber := v; ms_prev := ms_prev s |}.
Definition set_ms_prev (v : Z) (s : State) : State :=
  {| windowWidth := windowWidth s; windowHeight := windowHeight s;
     gARTImage := gARTImage s;
     gARTImageSavePlease := gARTImageSavePlease s; gARHandle := gARHandle s;
     gCallCountMarkerDetect := gCallCountMarkerDetect s;
     gPatt_trans := gPatt_trans s; gPatt_found := gPatt_found s;
     gPatt_id := gPatt_id s; gArglSettings := gArglSettings s;
     gShowHelp := gShowHelp s; gShowMode := gShowMode s;
     gDrawRotate := gDrawRotate s; gDrawRotateAngle := gDrawRotateAngle s;
     gObj := gObj s; imageNumber := imageNumber s; ms_prev := v |}.

(* ================================================================== *)
(** ** The external libraries, as far as the program observes them *)
(* ================================================================== *)

(** ARToolKit's accessors on [ARHandle].  Modelled from the spec: the
    DetectorState holds the thresholding mode, the manual threshold, the
    image-processing mode and the debug flag; a getter reads the field and a
    setter stores its argument. *)
Definition arGetImageProcMode (h : ARHandle) : Z := arImageProcMode h.
Definition arSetImageProcMode (h : ARHandle) (mode : Z) : ARHandle :=
  set_arImageProcMode mode h.
Definition arGetLabelingThreshMode (h : ARHandle) : AR_LABELING_THRESH_MODE :=
  arLabelingThreshMode h.
Definition arSetLabelingThreshMode (h : ARHandle) (mode : AR_LABELING_THRESH_MODE)
  : ARHandle := set_arLabelingThreshMode mode h.
Definition arGetLabelingThresh (h : ARHandle) : Z := arLabelingThresh h.
Definition arSetLabelingThresh (h : ARHandle) (thresh : Z) : ARHandle :=
  set_arLabelingThresh thresh h.
Definition arGetDebugMode (h : ARHandle) : Z := arDebug h.
Definition arSetDebugMode (h : ARHandle) (mode : Z) : ARHandle :=
  set_arDebug mode h.

(** gsub_lite's accessors on the settings reference; on a NULL reference a
    getter answers -1 and a setter does nothing. *)
Definition arglDrawModeGet (s : option ARGL_CONTEXT_SETTINGS) : Z :=
  match s with Some c => arglDrawMode c | None => -1 end.
Definition arglTexmapModeGet (s : option ARGL_CONTEXT_SETTINGS) : Z :=
  match s with Some c => arglTexmapMode c | None => -1 end.
Definition arglDrawModeSet (s : option ARGL_CONTEXT_SETTINGS) (mode : Z)
  : option ARGL_CONTEXT_SETTINGS :=
  match s with
  | Some c => Some {| arglDrawMode := mode; arglTexmapMode := arglTexmapMode c |}
  | None => None
  end.
Definition arglTexmapModeSet (s : option ARGL_CONTEXT_SETTINGS) (mode : Z)
  : option ARGL_CONTEXT_SETTINGS :=
  match s with
  | Some c => Some {| arglDrawMode := arglDrawMode c; arglTexmapMode := mode |}
  | None => None
  end.

(** What the outside world answers during one call of [mainLoop]. *)
Record TickEnv : Type := {
  (** [glutGet(GLUT_ELAPSED_TIME)] *)
  clock_ms : Z;
  (** [arVideoGetImage()]; [C.NULL] when no frame is ready *)
  video_image : Z;
  (** the return value of [arVideoSaveImageJPEG] *)
  save_result : Z;
  (** the return value of [arDetectMarker] and the hypotheses it leaves in
      [markerInfo] (with [marker_num] their number) *)
  detect_result : Z;
  detected : list ARMarkerInfo;
  (** [arGetTransMatSquare]: the residual it returns and the transform it
      writes, for the marker and the width it is given *)
  pose_solver : ARMarkerInfo -> ARdouble -> ARdouble * Trans
}.

(* ================================================================== *)
(** ** The program *)
(* ================================================================== *)

(** [DrawObj]: the calls it makes. *)
Definition f_zero : spec_float := S754_zero false.          (* 0.0f *)
Definition f_one : spec_float := F32.of_int 1.              (* 1.0f *)

Definition DrawObj (st : State) : list Event :=
  [ E_glPushMatrix;
    E_glRotatef (gDrawRotateAngle st) f_zero f_zero f_one;
    E_glTranslatef f_zero f_zero
      (F32.of_float (F64.div (F64.of_float markerSize) d_2_0));
    E_glmDraw_SMOOTH_MATERIAL;
    E_glPopMatrix ].

(** [DrawObjUpdate(timeDelta)] *)
Definition DrawObjUpdate (timeDelta : spec_float) (st : State) : State :=
  if C.truth (gDrawRotate st) then
    let a := F32.add (gDrawRotateAngle st) (F32.mul timeDelta f_45_0) in
    let a := if F32.gt a f_360_0 then F32.sub a f_360_0 else a in
    set_gDrawRotateAngle a st
  else st.

(** [cleanup()] *)
Definition cleanup_calls (obj : Z) : list Event :=
  [ E_arglCleanup; E_arPattDetach; E_arPattDeleteHandle; E_arVideoCapStop;
    E_ar3DDeleteHandle; E_arDeleteHandle; E_arParamLTFree; E_arVideoClose ]
  ++ (if obj =? C.NULL then [] else [E_glmDelete]).

Definition cleanup (st : State) : Result :=
  let st1 := set_gArglSettings None st in
  let st2 := if gObj st =? C.NULL then st1 else set_gObj C.NULL st1 in
  returns st2 (cleanup_calls (gObj st)).

(** [Keyboard(key, x, y)]: first the [switch], which also fixes
    [threshChange], then the threshold update. *)
Definition Keyboard_switch (key : ascii) (st : State) : Result * Z :=
  match key with
  | "027"%char | "Q"%char | "q"%char =>
      let r := cleanup st in
      (exits (final r) (trace r) 0, 0)
  | " "%char =>
      (returns (set_gDrawRotate (C.lnot (gDrawRotate st)) st) [], 0)
  | "X"%char | "x"%char =>
      let mode := arGetImageProcMode (gARHandle st) in
      let mode :=
        if mode =? AR_IMAGE_PROC_FRAME_IMAGE then AR_IMAGE_PROC_FIELD_IMAGE
        else AR_IMAGE_PROC_FRAME_IMAGE in
      (returns (set_gARHandle (arSetImageProcMode (gARHandle st) mode) st) [], 0)
  | "C"%char | "c"%char =>
      let mode := arglDrawModeGet (gArglSettings st) in
      let s :=
        if mode =? AR_DRAW_BY_GL_DRAW_PIXELS then
          arglTexmapModeSet
            (arglDrawModeSet (gArglSettings st) AR_DRAW_BY_TEXTURE_MAPPING)
            AR_DRAW_TEXTURE_FULL_IMAGE
        else
          let mode := arglTexmapModeGet (gArglSettings st) in
          if mode =? AR_DRAW_TEXTURE_FULL_IMAGE
          then arglTexmapModeSet (gArglSettings st) AR_DRAW_TEXTURE_HALF_IMAGE
          else arglDrawModeSet (gArglSettings st) AR_DRAW_BY_GL_DRAW_PIXELS in
      (returns (set_gCallCountMarkerDetect 0 (set_gArglSettings s st))
         [E_arUtilTimer; E_ARLOGe "*** Camera - %f (frame/sec)"; E_arUtilTimerReset],
       0)
  | "a"%char | "A"%char =>
      let modea := arGetLabelingThreshMode (gARHandle st) in
      let modea :=
        match modea with
        | AR_LABELING_THRESH_MODE_MANUAL => AR_LABELING_THRESH_MODE_AUTO_MEDIAN
        | AR_LABELING_THRESH_MODE_AUTO_MEDIAN => AR_LABELING_THRESH_MODE_AUTO_OTSU
        | AR_LABELING_THRESH_MODE_AUTO_OTSU => AR_LABELING_THRESH_MODE_AUTO_ADAPTIVE
        | AR_LABELING_THRESH_MODE_AUTO_ADAPTIVE
        | _ => AR_LABELING_THRESH_MODE_MANUAL
        end in
      (returns (set_gARHandle (arSetLabelingThreshMode (gARHandle st) modea) st) [], 0)
  | "-"%char => (returns st [], -5)
  | "+"%char | "="%char => (returns st [], 5)
  | "D"%char | "d"%char =>
      let mode := arGetDebugMode (gARHandle st) in
      (returns (set_gARHandle (arSetDebugMode (gARHandle st) (C.lnot mode)) st) [], 0)
  | "s"%char | "S"%char =>
      (returns (if C.truth (C.lnot (gARTImageSavePlease st))
                then set_gARTImageSavePlease C.TRUE st else st) [], 0)
  | "?"%char | "/"%char =>
      let n := C.int_add (gShowHelp st) 1 in
      (returns (set_gShowHelp (if n >? 1 then 0 else n) st) [], 0)
  | "m"%char | "M"%char =>
      (returns (set_gShowMode (C.lnot (gShowMode st)) st) [], 0)
  | _ => (returns st [], 0)
  end.

Definition Keyboard (key : ascii) (x y : Z) (st : State) : Result :=
  let '(r, threshChange) := Keyboard_switch key st in
  match exited r with
  | Some _ => r
  | None =>
      if C.truth threshChange then
        let st := final r in
        let threshhold := arGetLabelingThresh (gARHandle st) in
        let threshhold := C.int_add threshhold threshChange in
        let threshhold := if threshhold <? 0 then 0 else threshhold in
        let threshhold := if threshhold >? 255 then 255 else threshhold in
        returns (set_gARHandle (arSetLabelingThresh (gARHandle st) threshhold) st)
          (trace r)
      else r
  end.

(** The state after a key press. *)
Definition press (key : ascii) (st : State) : State := final (Keyboard key 0 0 st).

(** [sprintf(imageNumberText, "image-%04d.jpg", n)]: the text written.
    [%04d] prints the decimal digits of [n], padded with zeros on the left
    to at least four characters (the sign counts as one). *)
Definition decimal (n : Z) : string :=
  NilEmpty.string_of_uint (N.to_uint (Z.abs_N n)).

Fixpoint zeros (k : nat) : string :=
  match k with
  | O => EmptyString
  | S k' => String "0"%char (zeros k')
  end.

Definition sprintf_04d (n : Z) : string :=
  let d := decimal n in
  if n <? 0
  then String "-"%char (String.append (zeros (3 - String.length d)) d)
  else String.append (zeros (4 - String.length d)) d.

Definition sprintf_image (n : Z) : string :=
  String.append "image-" (String.append (sprintf_04d n) ".jpg").

(** [char imageNumberText[15]]: the text and its terminating NUL fit. *)
Definition fits_imageNumberText (s : string) : bool :=
  (String.length s + 1 <=? 15)%nat.

(** [gARHandle->markerInfo[j]]; outside the list the array holds entries
    the detector did not fill in, read here as a hypothesis of identity -1. *)
Definition no_marker : ARMarkerInfo :=
  {| marker_id := -1; marker_cf := S754_zero false; marker_vertex := [] |}.
Definition markerInfo_at (h : ARHandle) (j : Z) : ARMarkerInfo :=
  if j <? 0 then no_marker else nth (Z.to_nat j) (markerInfo h) no_marker.

(** The selection loop of [mainLoop]:
    [for (j = 0; j < marker_num; j++) ...], with [n] iterations left. *)
Fixpoint select_loop (h : ARHandle) (patt_id : Z) (n : nat) (j k : Z) : Z :=
  match n with
  | O => k
  | S n' =>
      let k' :=
        if marker_id (markerInfo_at h j) =? patt_id then
          if k =? -1 then j
          else if F64.gt (marker_cf (markerInfo_at h j)) (marker_cf (markerInfo_at h k))
               then j else k
        else k in
      select_loop h patt_id n' (j + 1) k'
  end.

Definition select_marker (h : ARHandle) (patt_id : Z) : Z :=
  select_loop h patt_id (Z.to_nat (marker_num h)) 0 (-1).

(** The elapsed time [mainLoop] computes, and its rate gate. *)
Definition s_elapsed_of (ms ms_prev0 : Z) : spec_float :=
  F32.mul (F32.of_int (C.int_sub ms ms_prev0)) f_0_001.

Definition gate_rejects (ms ms_prev0 : Z) : bool :=
  F32.lt (s_elapsed_of ms ms_prev0) f_0_01.

(** The capture block of [mainLoop]: [if (gARTImageSavePlease) { ... }]. *)
Definition save_image (env : TickEnv) (st : State) : State * list Event :=
  if C.truth (gARTImageSavePlease st) then
    let imageNumberText := sprintf_image (imageNumber st) in
    let st := set_imageNumber (C.int_add (imageNumber st) 1) st in
    let tr :=
      [E_arVideoSaveImageJPEG (xsize (gARHandle st)) (ysize (gARHandle st))
         (arPixelFormat (gARHandle st)) (gARTImage st) imageNumberText 75 0] in
    let tr :=
      if save_result env <? 0
      then tr ++ [E_ARLOGe "Error saving video image."] else tr in
    (set_gARTImageSavePlease C.FALSE st, tr)
  else (st, []).

(** The selection and pose block of [mainLoop], after detection. *)
Definition find_pose (env : TickEnv) (st : State) : State * list Event :=
  let k := select_marker (gARHandle st) (gPatt_id st) in
  if negb (k =? -1) then
    let m := markerInfo_at (gARHandle st) k in
    let '(err, trans) := pose_solver env m gPatt_width in
    (set_gPatt_found C.TRUE (set_gPatt_trans trans st),
     [E_arGetTransMatSquare m gPatt_width])
  else (set_gPatt_found C.FALSE st, []).

(** [mainLoop()] *)
Definition mainLoop (env : TickEnv) (st : State) : Result :=
  let ms := clock_ms env in
  let s_elapsed := s_elapsed_of ms (ms_prev st) in
  if F32.lt s_elapsed f_0_01 then returns st [E_glutGet_ELAPSED_TIME]
  else
    let st := set_ms_prev ms st in
    let st := DrawObjUpdate s_elapsed st in
    let image := video_image env in
    let tr := [E_glutGet_ELAPSED_TIME; E_arVideoGetImage] in
    if negb (image =? C.NULL) then
      let st := set_gARTImage image st in
      let '(st, tr_save) := save_image env st in
      let st := set_gCallCountMarkerDetect
                  (C.long_wrap (gCallCountMarkerDetect st + 1)) st in
      let tr := tr ++ tr_save ++ [E_arDetectMarker (gARTImage st)] in
      let st := set_gARHandle (set_markers (detected env) (gARHandle st)) st in
      if detect_result env <? 0 then exits st tr (-1)
      else
        let '(st, tr_pose) := find_pose env st in
        returns st (tr ++ tr_pose ++ [E_glutPostRedisplay])
    else returns st tr.

(** [Reshape(w, h)] *)
Definition Reshape (w h : Z) (st : State) : Result :=
  returns (set_windowSize w h st) [E_glClear; E_glViewport 0 0 w h].

(** [Display()] *)
Definition Display (st : State) : Result :=
  let tr1 :=
    [ E_glDrawBuffer_BACK; E_glClear; E_arglDispImage (gARTImage st) d_1_0 ] in
  let st' := set_gARTImage C.NULL st in
  let tr2 :=
    [ E_arglCameraFrustumRH VIEW_DISTANCE_MIN VIEW_DISTANCE_MAX;
      E_glMatrixMode_PROJECTION; E_glLoadMatrix_frustum;
      E_glMatrixMode_MODELVIEW; E_glLoadIdentity;
      E_glEnable_LIGHTING; E_glEnable_LIGHT0; E_glEnable_DEPTH_TEST ] in
  let tr3 :=
    if C.truth (gPatt_found st') then
      [ E_arglCameraViewRH (gPatt_trans st') VIEW_SCALEFACTOR; E_glLoadMatrix_view ]
      ++ DrawObj st'
    else [] in
  let tr4 :=
    [ E_glMatrixMode_PROJECTION; E_glLoadIdentity;
      E_glOrtho (windowWidth st') (windowHeight st');
      E_glMatrixMode_MODELVIEW; E_glLoadIdentity;
      E_glDisable_LIGHTING; E_glDisable_DEPTH_TEST ] in
  let tr5 := if C.truth (gShowMode st') then [E_printMode] else [] in
  let tr6 :=
    if C.truth (gShowHelp st') then
      if gShowHelp st' =? 1 then [E_printHelpKeys] else []
    else [] in
  returns st' (tr1 ++ tr2 ++ tr3 ++ tr4 ++ tr5 ++ tr6 ++ [E_glutSwapBuffers]).

(* ------------------------------------------------------------------ *)
(** *** Startup *)

(** What the libraries answer during [main]. *)
Record StartEnv : Type := {
  glmReadOBJ_result : Z;
  arVideoOpen_result : Z;
  arVideoGetSize_result : Z;
  video_xsize : Z;
  video_ysize : Z;
  video_pixel_format : Z;
  arParamLoad_result : Z;
  cparam_xsize : Z;
  cparam_ysize : Z;
  arParamLTCreate_result : Z;
  arCreateHandle_result : option ARHandle;
  arSetPixelFormat_result : Z;
  arSetDebugMode_result : Z;
  ar3DCreateHandle_result : Z;
  arVideoCapStart_result : Z;
  arPattCreateHandle_result : Z;
  arPattLoad_result : Z;
  arglSetupForCurrentContext_result : option ARGL_CONTEXT_SETTINGS
}.

(** The setup functions make their calls in sequence and leave at the first
    failure: a computation yields the calls made so far and, unless it
    failed, a value. *)
Definition Setup (A : Type) : Type := (list Event * option A)%type.

Definition ret {A : Type} (a : A) : Setup A := ([], Some a).
Definition fail {A : Type} (tr : list Event) : Setup A := (tr, None).
Definition bind {A B : Type} (m : Setup A) (f : A -> Setup B) : Setup B :=
  match m with
  | (tr, Some a) => let '(tr', b) := f a in (tr ++ tr', b)
  | (tr, None) => (tr, None)
  end.
Definition call (e : Event) : Setup unit := ([e], Some tt).
(** [if (!ok) { ...on_fail...; return (FALSE); }] *)
Definition unless (ok : bool) (on_fail : list Event) : Setup unit :=
  if ok then ret tt else fail on_fail.

Notation "x <- m ;; k" := (bind m (fun x => k))
  (at level 61, m at next level, right associativity).
Notation "m ;; k" := (bind m (fun _ => k))
  (at level 61, right associativity).

(** [setupCamera]: on success the detector handle it created. *)
Definition setupCamera (env : StartEnv) : Setup ARHandle :=
  call E_arVideoOpen ;;
  unless (negb (arVideoOpen_result env <? 0))
    [E_ARLOGe "setupCamera(): Unable to open connection to camera."] ;;
  call E_arVideoGetSize ;;
  unless (negb (arVideoGetSize_result env <? 0))
    [E_ARLOGe "setupCamera(): Unable to determine camera frame size.";
     E_arVideoClose] ;;
  call (E_ARLOGi "Camera image size (x,y) = (%d,%d)"
          (video_xsize env) (video_ysize env)) ;;
  call E_arVideoGetPixelFormat ;;
  unless (negb (video_pixel_format env =? AR_PIXEL_FORMAT_INVALID))
    [E_ARLOGe "setupCamera(): Camera is using unsupported pixel format.";
     E_arVideoClose] ;;
  call (E_arParamLoad "Data/camera_para.dat") ;;
  unless (negb (arParamLoad_result env <? 0))
    [E_ARLOGe "setupCamera(): Error loading parameter file %s for camera.";
     E_arVideoClose] ;;
  (if negb (cparam_xsize env =? video_xsize env)
      || negb (cparam_ysize env =? video_ysize env)
   then call (E_ARLOGw "*** Camera Parameter resized from %d, %d. ***"
                (cparam_xsize env) (cparam_ysize env)) ;;
        call (E_arParamChangeSize (video_xsize env) (video_ysize env))
   else ret tt) ;;
  call E_arParamLTCreate ;;
  unless (negb (arParamLTCreate_result env =? C.NULL))
    [E_ARLOGe "setupCamera(): Error: arParamLTCreate."] ;;
  call E_arCreateHandle ;;
  match arCreateHandle_result env with
  | None => fail [E_ARLOGe "setupCamera(): Error: arCreateHandle."]
  | Some h =>
      call (E_arSetPixelFormat (video_pixel_format env)) ;;
      unless (negb (arSetPixelFormat_result env <? 0))
        [E_ARLOGe "setupCamera(): Error: arSetPixelFormat."] ;;
      call (E_arSetDebugMode AR_DEBUG_DISABLE) ;;
      unless (negb (arSetDebugMode_result env <? 0))
        [E_ARLOGe "setupCamera(): Error: arSetDebugMode."] ;;
      call E_ar3DCreateHandle ;;
      unless (negb (ar3DCreateHandle_result env =? C.NULL))
        [E_ARLOGe "setupCamera(): Error: ar3DCreateHandle."] ;;
      call E_arVideoCapStart ;;
      unless (arVideoCapStart_result env =? 0)
        [E_ARLOGe "setupCamera(): Unable to begin camera data capture."] ;;
      ret (arSetDebugMode
             (set_arPixelFormat (video_pixel_format env) h) AR_DEBUG_DISABLE)
  end.

(** [setupMarker]: on success the identity of the loaded pattern. *)
Definition setupMarker (env : StartEnv) : Setup Z :=
  call E_arPattCreateHandle ;;
  unless (negb (arPattCreateHandle_result env =? C.NULL))
    [E_ARLOGe "setupMarker(): Error: arPattCreateHandle."] ;;
  call (E_arPattLoad "Data/patt.irc") ;;
  unless (negb (arPattLoad_result env <? 0))
    [E_ARLOGe "setupMarker(): Error loading pattern file %s.";
     E_arPattDeleteHandle] ;;
  call E_arPattAttach ;;
  ret (arPattLoad_result env).

(** How [main] ends: in [glutMainLoop] with the globals set up, or by
    [exit]. *)
Inductive Started : Type :=
| Running (st : State)
| Exited (code : Z).

Definition zero_trans : Trans :=
  repeat (repeat (S754_zero false) 4%nat) 3%nat.

(** [main()]; [windowed] is [TRUE] and never assigned. *)
Definition main (env : StartEnv) : list Event * Started :=
  let obj := glmReadOBJ_result env in
  let tr := [E_glmReadOBJ "Data/bunny.obj"] in
  if obj =? C.NULL then
    (tr ++ [E_ARLOGe "main(): Unable to load obj model file."; E_exit (-1)],
     Exited (-1))
  else
    let tr :=
      tr ++ [E_glmUnitize;
             E_glmScale (F32.of_float (F64.mul d_1_5 (F64.of_float markerSize)));
             E_glutInit] in
    match setupCamera env with
    | (trc, None) =>
        (tr ++ trc ++ [E_ARLOGe "main(): Unable to set up AR camera."; E_exit (-1)],
         Exited (-1))
    | (trc, Some h) =>
        let tr := tr ++ trc in
        match setupMarker env with
        | (trm, None) =>
            (tr ++ trm ++ [E_ARLOGe "main(): Unable to set up AR marker."]
                ++ cleanup_calls obj ++ [E_exit (-1)],
             Exited (-1))
        | (trm, Some patt_id) =>
            let tr := tr ++ trm ++ [E_glutCreateWindow 640 480;
                                    E_arVideoGetPixelFormat;
                                    E_arglSetupForCurrentContext] in
            match arglSetupForCurrentContext_result env with
            | None =>
                (tr ++ [E_ARLOGe "main(): arglSetupForCurrentContext() returned error."]
                    ++ cleanup_calls obj ++ [E_exit (-1)],
                 Exited (-1))
            | Some s =>
                (tr ++ [E_arglSetupDebugMode; E_arUtilTimerReset; E_glutMainLoop],
                 Running
                   {| windowWidth := 640; windowHeight := 480;
                      gARTImage := C.NULL; gARTImageSavePlease := C.FALSE;
                      gARHandle := h; gCallCountMarkerDetect := 0;
                      gPatt_trans := zero_trans; gPatt_found := C.FALSE;
                      gPatt_id := patt_id; gArglSettings := Some s;
                      gShowHelp := 1; gShowMode := 1; gDrawRotate := C.TRUE;
                      gDrawRotateAngle := f_zero; gObj := obj;
                      imageNumber := 0; ms_prev := 0 |})
            end
        end
    end.

(* ------------------------------------------------------------------ *)
(** *** Reachable states *)

(** What the libraries guarantee about the handle [arCreateHandle] returns:
    a manual threshold in [0,255], one of the four thresholding modes the
    program names, and full-frame or even-field image processing. *)
Definition in_threshold_ring (m : AR_LABELING_THRESH_MODE) : Prop :=
  m <> AR_LABELING_THRESH_MODE_other.

Record handle_ok (h : ARHandle) : Prop := {
  ok_thresh : 0 <= arLabelingThresh h <= 255;
  ok_thresh_mode : in_threshold_ring (arLabelingThreshMode h);
  ok_image_proc : arImageProcMode h = AR_IMAGE_PROC_FRAME_IMAGE
                  \/ arImageProcMode h = AR_IMAGE_PROC_FIELD_IMAGE
}.

Definition library_contract (env : StartEnv) : Prop :=
  forall h, arCreateHandle_result env = Some h -> handle_ok h.

(** The states the callbacks can run in: the one [main] hands to
    [glutMainLoop], and every state a callback returns to the event loop. *)
Inductive reachable : State -> Prop :=
| reach_main (env : StartEnv) (tr : list Event) (st : State) :
    library_contract env -> main env = (tr, Running st) -> reachable st
| reach_Keyboard (key : ascii) (x y : Z) (st : State) :
    reachable st -> exited (Keyboard key x y st) = None ->
    reachable (final (Keyboard key x y st))
| reach_mainLoop (env : TickEnv) (st : State) :
    reachable st -> exited (mainLoop env st) = None ->
    reachable (final (mainLoop env st))
| reach_Display (st : State) :
    reachable st -> reachable (final (Display st))
| reach_Reshape (w h : Z) (st : State) :
    reachable st -> reachable (final (Reshape w h st)).

(** The invariant of the input surface. *)
Definition is_flag (x : Z) : Prop := x = 0 \/ x = 1.

Record input_inv (st : State) : Prop := {
  inv_help : is_flag (gShowHelp st);
  inv_mode : is_flag (gShowMode st);
  inv_rotate : is_flag (gDrawRotate st);
  inv_handle : handle_ok (gARHandle st)
}.

(* ================================================================== *)
(** ** Comparison of floating-point values *)
(* ================================================================== *)

(** [SFcompare] orders the values that are not NaN like the lexicographic
    order on a class (−∞, negative, zero, positive, +∞), the exponent and the
    mantissa. *)
Module FloatOrder.

Definition key (x : spec_float) : Z * Z * Z :=
  match x with
  | S754_infinity true => (-2, 0, 0)
  | S754_finite true m e => (-1, - e, - Zpos m)
  | S754_zero _ => (0, 0, 0)
  | S754_nan => (0, 0, 0)
  | S754_finite false m e => (1, e, Zpos m)
  | S754_infinity false => (2, 0, 0)
  end.

Definition key_lt (a b : Z * Z * Z) : Prop :=
  let '(c1, e1, m1) := a in
  let '(c2, e2, m2) := b in
  c1 < c2 \/ (c1 = c2 /\ (e1 < e2 \/ (e1 = e2 /\ m1 < m2))).

Definition key_le (a b : Z * Z * Z) : Prop :=
  let '(c1, e1, m1) := a in
  let '(c2, e2, m2) := b in
  c1 < c2 \/ (c1 = c2 /\ (e1 < e2 \/ (e1 = e2 /\ m1 <= m2))).

End FloatOrder.

(* ================================================================== *)
(** ** What the selection loop is to establish *)
(* ================================================================== *)

(** Hypothesis [j] of the handle carries the registered identity. *)
Definition matches (h : ARHandle) (patt_id : Z) (j : Z) : Prop :=
  marker_id (markerInfo_at h j) = patt_id.

Definition cf_at (h : ARHandle) (j : Z) : ARdouble :=
  marker_cf (markerInfo_at h j).

(** [k] is the choice among the first [j] hypotheses: -1 when none of them
    matches, and otherwise a matching one whose confidence no matching one
    exceeds and every earlier matching one falls short of. *)
Definition best (h : ARHandle) (patt_id : Z) (j k : Z) : Prop :=
  (k = -1 /\ forall i, 0 <= i < j -> ~ matches h patt_id i)
  \/ (0 <= k < j /\ matches h patt_id k
      /\ (forall i, 0 <= i < j -> matches h patt_id i ->
           SFleb (cf_at h i) (cf_at h k) = true)
      /\ (forall i, 0 <= i < k -> matches h patt_id i ->
           SFltb (cf_at h i) (cf_at h k) = true)).

(** The handle [mainLoop] selects from: the detector has filled in its
    hypotheses. *)
Definition detected_handle (env : TickEnv) (st : State) : ARHandle :=
  set_markers (detected env) (gARHandle st).

(** A tick that passes the rate gate, gets a frame and a detector result. *)
Definition tick_tracks (env : TickEnv) (st : State) : Prop :=
  gate_rejects (clock_ms env) (ms_prev st) = false
  /\ video_image env <> C.NULL
  /\ 0 <= detect_result env.

(** The draw mode as [printMode] reports it. *)
Definition draw_mode_text (st : State) : string :=
  if arglDrawModeGet (gArglSettings st) =? AR_DRAW_BY_GL_DRAW_PIXELS
  then "GL_DRAW_PIXELS"%string
  else if arglTexmapModeGet (gArglSettings st) =? AR_DRAW_TEXTURE_FULL_IMAGE
       then "texture mapping"%string
       else "texture mapping (even field only)"%string.

(** [n] presses of one key. *)
Fixpoint presses (n : nat) (key : ascii) (st : State) : State :=
  match n with
  | O => st
  | S n' => presses n' key (press key st)
  end.

(* ================================================================== *)
(** ** Sample inputs *)
(* ================================================================== *)

(** A run of [main] in which every library call succeeds. *)
Definition sample_handle : ARHandle :=
  {| arDebug := 0; arLabelingThresh := 100;
     arLabelingThreshMode := AR_LABELING_THRESH_MODE_MANUAL;
     arImageProcMode := AR_IMAGE_PROC_FRAME_IMAGE;
     xsize := 640; ysize := 480; arPixelFormat := 2;
     marker_num := 0; markerInfo := [] |}.

Definition sample_settings : ARGL_CONTEXT_SETTINGS :=
  {| arglDrawMode := AR_DRAW_BY_TEXTURE_MAPPING;
     arglTexmapMode := AR_DRAW_TEXTURE_FULL_IMAGE |}.

Definition sample_start_with (paramLT pattLoad : Z) : StartEnv :=
  {| glmReadOBJ_result := 1;
     arVideoOpen_result := 0;
     arVideoGetSize_result := 0;
     video_xsize := 640; video_ysize := 480;
     video_pixel_format := 2;
     arParamLoad_result := 0;
     cparam_xsize := 640; cparam_ysize := 480;
     arParamLTCreate_result := paramLT;
     arCreateHandle_result := Some sample_handle;
     arSetPixelFormat_result := 0;
     arSetDebugMode_result := 0;
     ar3DCreateHandle_result := 1;
     arVideoCapStart_result := 0;
     arPattCreateHandle_result := 1;
     arPattLoad_result := pattLoad;
     arglSetupForCurrentContext_result := Some sample_settings |}.

Definition sample_start : StartEnv := sample_start_with 1 0.

(** Startups that fail: [arParamLTCreate] answers NULL in [setupCamera];
    [arPattLoad] answers -1 in [setupMarker]. *)
Definition start_camera_fails : StartEnv := sample_start_with C.NULL 0.
Definition start_marker_fails : StartEnv := sample_start_with 1 (-1).

(** The state that run hands to the event loop. *)
Definition sample_state : State :=
  {| windowWidth := 640; windowHeight := 480;
     gARTImage := C.NULL; gARTImageSavePlease := C.FALSE;
     gARHandle := sample_handle; gCallCountMarkerDetect := 0;
     gPatt_trans := zero_trans; gPatt_found := C.FALSE;
     gPatt_id := 0; gArglSettings := Some sample_settings;
     gShowHelp := 1; gShowMode := 1; gDrawRotate := C.TRUE;
     gDrawRotateAngle := f_zero; gObj := 1;
     imageNumber := 0; ms_prev := 0 |}.

(** Three hypotheses: two of the registered identity 0, with confidences
    0.4 and 0.7, and one of another identity with confidence 0.9. *)
Definition tenths (n : Z) : ARdouble := F64.div (F64.of_int n) (F64.of_int 10).

Definition marker_04 : ARMarkerInfo :=
  {| marker_id := 0; marker_cf := tenths 4; marker_vertex := [] |}.
Definition marker_07 : ARMarkerInfo :=
  {| marker_id := 0; marker_cf := tenths 7; marker_vertex := [] |}.
Definition marker_other : ARMarkerInfo :=
  {| marker_id := 3; marker_cf := tenths 9; marker_vertex := [] |}.

(** A solver that answers the residual [err] and a transform that tells the
    hypotheses apart (it carries the confidence of the one it was given). *)
Definition sample_solver (err : ARdouble) (m : ARMarkerInfo) (w : ARdouble)
  : ARdouble * Trans :=
  (err, [[marker_cf m; w]]).


(** A tick [ms] milliseconds after startup: [image] is the answer of the
    frame source, [save] and [detect] the return values of the JPEG writer
    and of the detector, [err] the residual of the solver. *)
Definition sample_tick (ms image save detect : Z) (err : ARdouble) : TickEnv :=
  {| clock_ms := ms; video_image := image; save_result := save;
     detect_result := detect;
     detected := [marker_04; marker_07; marker_other];
     pose_solver := sample_solver err |}.


(** [n] ticks, each [dt] milliseconds after the one before, with no frame. *)
Fixpoint idle_ticks (n : nat) (dt : Z) (st : State) : State :=
  match n with
  | O => st
  | S n' =>
      idle_ticks n' dt
        (final (mainLoop (sample_tick (ms_prev st + dt) C.NULL 0 0 d_1_0) st))
  end.

(** The sign a value carries; NaN carries none. *)
Definition has_sign (s : bool) (x : spec_float) : Prop :=
  match x with
  | S754_zero s' | S754_infinity s' | S754_finite s' _ _ => s' = s
  | S754_nan => False
  end.

(** The number a four-character field [NNNN] spells, if it is one. *)
Definition field_value (s : string) : option Z :=
  if (String.length s =? 4)%nat
  then option_map Z.of_uint (NilEmpty.uint_of_string s)
  else None.

Definition spells_counter (n : Z) : bool :=
  match field_value (sprintf_04d n) with
  | Some v => v =? n
  | None => false
  end.

(** The integers [z, z + 1, ...], [k] of them. *)
Fixpoint zrange (k : nat) (z : Z) : list Z :=
  match k with
  | O => []
  | S k' => z :: zrange k' (z + 1)
  end.

(** The arguments of the calls of one kind in a trace. *)
Definition glmScale_args (tr : list Event) : list spec_float :=
  flat_map (fun e => match e with E_glmScale s => [s] | _ => [] end) tr.

Definition glTranslatef_args (tr : list Event)
  : list (spec_float * spec_float * spec_float) :=
  flat_map (fun e => match e with E_glTranslatef x y z => [(x, y, z)] | _ => [] end) tr.

Definition solver_widths (tr : list Event) : list ARdouble :=
  flat_map (fun e => match e with E_arGetTransMatSquare _ w => [w] | _ => [] end) tr.

(** The sample state with a capture requested ([s] pressed), and with a
    marker found. *)
Definition capture_state : State := press "s"%char sample_state.
Definition found_state : State := set_gPatt_found C.TRUE sample_state.

(** [0 <= a < 360] on [float]s. *)
Definition angle_in_range (a : spec_float) : bool :=
  negb (F32.lt a f_zero) && F32.lt a f_360_0.

(** The clock readings of the accepted ticks in a run of [mainLoop] over the
    answers [envs], up to a tick that exits. *)
Fixpoint accepted_ticks (envs : list TickEnv) (st : State) : list Z :=
  match envs with
  | [] => []
  | env :: envs' =>
      let r := mainLoop env st in
      let here :=
        if gate_rejects (clock_ms env) (ms_prev st) then [] else [clock_ms env] in
      match exited r with
      | Some _ => here
      | None => here ++ accepted_ticks envs' (final r)
      end
  end.

(** Each entry is at least 10 after the one before it (the first after
    [prev]), as the [int] difference the program computes. *)
Fixpoint spaced (prev : Z) (ts : list Z) : Prop :=
  match ts with
  | [] => True
  | t :: ts' => 10 <= C.int_sub t prev /\ spaced t ts'
  end.

(* ================================================================== *)
(** ** Further notions used by the theorems on the rest of the program *)
(* ================================================================== *)

(** A rounded result that did not fall below its input: an infinity of
    sign [s], or a finite value of sign [s] whose exponent is at least
    [D - prec] and whose digits reach position [D]. *)
Definition rounds_up_from (prec : Z) (s : bool) (D : Z) (x : spec_float) : Prop :=
  match x with
  | S754_finite s' m e => s' = s /\ D <= Zdigits2 (Zpos m) + e /\ D - prec <= e
  | S754_infinity s' => s' = s
  | _ => False
  end.

(** The names given to the JPEG writer, and the frames given to the
    detector and to the background blit, in a trace. *)
Definition saved_names (tr : list Event) : list string :=
  flat_map (fun e => match e with
                     | E_arVideoSaveImageJPEG _ _ _ _ name _ _ => [name]
                     | _ => []
                     end) tr.

Definition detected_frames (tr : list Event) : list Z :=
  flat_map (fun e => match e with E_arDetectMarker i => [i] | _ => [] end) tr.

Definition blitted_frames (tr : list Event) : list Z :=
  flat_map (fun e => match e with E_arglDispImage i _ => [i] | _ => [] end) tr.

(** The views installed from a pose in a trace. *)
Definition installed_views (tr : list Event) : list Trans :=
  flat_map (fun e => match e with E_arglCameraViewRH t _ => [t] | _ => [] end) tr.

(** How often a call without arguments occurs in a trace. *)
Definition is_call (c e : Event) : bool :=
  match c, e with
  | E_glPushMatrix, E_glPushMatrix
  | E_glPopMatrix, E_glPopMatrix
  | E_glmDraw_SMOOTH_MATERIAL, E_glmDraw_SMOOTH_MATERIAL
  | E_glmDelete, E_glmDelete
  | E_arVideoOpen, E_arVideoOpen
  | E_arVideoClose, E_arVideoClose
  | E_arPattDeleteHandle, E_arPattDeleteHandle
  | E_arPattCreateHandle, E_arPattCreateHandle
  | E_arPattDetach, E_arPattDetach
  | E_printMode, E_printMode
  | E_printHelpKeys, E_printHelpKeys
  | E_glutSwapBuffers, E_glutSwapBuffers
  | E_glutPostRedisplay, E_glutPostRedisplay
  | E_arVideoGetImage, E_arVideoGetImage
  | E_glutMainLoop, E_glutMainLoop
  | E_arVideoCapStart, E_arVideoCapStart
  | E_arVideoCapStop, E_arVideoCapStop => true
  | _, _ => false
  end.

Definition calls (c : Event) (tr : list Event) : nat :=
  List.length (filter (is_call c) tr).

(** The keys [Keyboard] has a [case] for. *)
Definition bound_keys : list ascii :=
  [ "027"; "Q"; "q"; " "; "X"; "x"; "C"; "c"; "a"; "A"; "-"; "+"; "=";
    "D"; "d"; "s"; "S"; "?"; "/"; "m"; "M" ]%char.

Definition quit_keys : list ascii := [ "027"; "Q"; "q" ]%char.

(** [toupper] of the C library on the letters a to z. *)
Definition toupper (c : ascii) : ascii :=
  let n := nat_of_ascii c in
  if ((97 <=? n) && (n <=? 122))%nat then ascii_of_nat (n - 32) else c.

(** The draw mode that follows the one [printMode] reports. *)
Definition next_draw_mode_text (s : string) : string :=
  if String.eqb s "GL_DRAW_PIXELS" then "texture mapping"%string
  else if String.eqb s "texture mapping"
       then "texture mapping (even field only)"%string
       else "GL_DRAW_PIXELS"%string.

(** The window sizes given to [glOrtho] in a trace. *)
Definition ortho_sizes (tr : list Event) : list (Z * Z) :=
  flat_map (fun e => match e with E_glOrtho w h => [(w, h)] | _ => [] end) tr.

(** What holds besides [input_inv] while the program runs: the debug flag,
    found and the capture request are 0 or 1, and the mesh and the drawing
    settings are there. *)
Record live_inv (st : State) : Prop := {
  live_debug : is_flag (arDebug (gARHandle st));
  live_found : is_flag (gPatt_found st);
  live_save : is_flag (gARTImageSavePlease st);
  live_obj : gObj st <> C.NULL;
  live_settings : gArglSettings st <> None
}.

(** The answers under which the steps of [setupCamera] succeed: first the
    steps on the video path and the parameter file, then the creation of the
    handles and the start of the capture; and those of [setupMarker]. *)
Definition video_steps_ok (env : StartEnv) : bool :=
  negb (arVideoOpen_result env <? 0)
  && negb (arVideoGetSize_result env <? 0)
  && negb (video_pixel_format env =? AR_PIXEL_FORMAT_INVALID)
  && negb (arParamLoad_result env <? 0).

Definition handle_steps_ok (env : StartEnv) : bool :=
  negb (arParamLTCreate_result env =? C.NULL)
  && match arCreateHandle_result env with Some _ => true | None => false end
  && negb (arSetPixelFormat_result env <? 0)
  && negb (arSetDebugMode_result env <? 0)
  && negb (ar3DCreateHandle_result env =? C.NULL)
  && (arVideoCapStart_result env =? 0).

Definition marker_steps_ok (env : StartEnv) : bool :=
  negb (arPattCreateHandle_result env =? C.NULL)
  && negb (arPattLoad_result env <? 0).

Definition startup_ok (env : StartEnv) : bool :=
  negb (glmReadOBJ_result env =? C.NULL)
  && video_steps_ok env && handle_steps_ok env && marker_steps_ok env
  && match arglSetupForCurrentContext_result env with
     | Some _ => true
     | None => false
     end.

(** The error messages in a trace. *)
Definition logged (tr : list Event) : list string :=
  flat_map (fun e => match e with E_ARLOGe msg => [msg] | _ => [] end) tr.

(** The exit codes in a trace. *)
Definition exit_codes (tr : list Event) : list Z :=
  flat_map (fun e => match e with E_exit c => [c] | _ => [] end) tr.

(* ================================================================== *)
(** ** The onscreen text *)
(* ================================================================== *)

Definition f_2_0 : spec_float := F32.of_int 2.                       (* 2.0f  *)
Definition f_10_0 : spec_float := F32.of_int 10.                     (* 10.0f *)
Definition f_12_0 : spec_float := F32.of_int 12.                     (* 12.0f *)
Definition f_0_5 : spec_float := S754_finite false 8388608 (-24).    (* 0.5f  *)
Definition d_100_0 : spec_float := F64.of_int 100.                   (* 100.0 *)

(** The pattern detection modes [printMode] names;
    [AR_PATTERN_DETECTION_MODE_other] stands for any value its [switch]
    does not name. *)
Inductive AR_PATTERN_DETECTION_MODE : Type :=
| AR_TEMPLATE_MATCHING_COLOR
| AR_TEMPLATE_MATCHING_MONO
| AR_MATRIX_CODE_DETECTION
| AR_TEMPLATE_MATCHING_COLOR_AND_MATRIX
| AR_TEMPLATE_MATCHING_MONO_AND_MATRIX
| AR_PATTERN_DETECTION_MODE_other.

(** What the libraries answer while the text is drawn: the width GLUT
    gives for a text in Helvetica 10, the frame size of the video, the two
    settings of the detector that the program reads but never sets, and the
    C library's rendering of a [double] under [%0.1f]. *)
Record HudEnv : Type := {
  glutBitmapLength : string -> Z;
  hud_xsize : Z;
  hud_ysize : Z;
  arGetBorderSize : ARdouble;
  arGetPatternDetectionMode : AR_PATTERN_DETECTION_MODE;
  printf_0_1f : spec_float -> string
}.

(** The calls of [print], [drawBackground], [printHelpKeys] and
    [printMode], in the order they are made. *)
Inductive HudCall : Type :=
| H_glutBitmapLength (text : string)
| H_glRasterPos2f (x y : spec_float)
| H_glutBitmapCharacter (c : ascii)
| H_glLoadIdentity
| H_glBlendFunc_SRC_ALPHA_ONE_MINUS_SRC_ALPHA
| H_glEnable_BLEND
| H_glVertexPointer (vertices : list (spec_float * spec_float))
| H_glEnableClientState_VERTEX_ARRAY
| H_glColor4f (r g b a : spec_float)
| H_glDrawArrays_TRIANGLE_FAN (first count : Z)
| H_glDisableClientState_VERTEX_ARRAY
| H_glDisable_BLEND
| H_glColor3ub (r g b : Z)
| H_arVideoGetSize.

(** [print(text, x, y, calculateXFromRightEdge, calculateYFromTopEdge)];
    [None] is the NULL pointer. *)
Definition print (env : HudEnv) (st : State) (text : option string)
    (x y : spec_float) (calculateXFromRightEdge calculateYFromTopEdge : Z)
  : list HudCall :=
  match text with
  | None => []
  | Some text =>
      let '(tr, x0) :=
        if C.truth calculateXFromRightEdge
        then ([H_glutBitmapLength text],
              F32.sub (F32.sub (F32.of_int (windowWidth st)) x)
                (F32.of_int (glutBitmapLength env text)))
        else ([], x) in
      let y0 :=
        if C.truth calculateYFromTopEdge
        then F32.sub (F32.sub (F32.of_int (windowHeight st)) y) f_10_0
        else y in
      tr ++ H_glRasterPos2f x0 y0
         :: map H_glutBitmapCharacter (list_ascii_of_string text)
  end.

(** [drawBackground(width, height, x, y)] *)
Definition drawBackground (width height x y : spec_float) : list HudCall :=
  let vertices :=
    [ (x, y); (F32.add width x, y); (F32.add width x, F32.add height y);
      (x, F32.add height y) ] in
  [ H_glLoadIdentity; H_glBlendFunc_SRC_ALPHA_ONE_MINUS_SRC_ALPHA; H_glEnable_BLEND;
    H_glVertexPointer vertices; H_glEnableClientState_VERTEX_ARRAY;
    H_glColor4f f_zero f_zero f_zero f_0_5;
    H_glDrawArrays_TRIANGLE_FAN 0 4;
    H_glColor4f f_one f_one f_one f_one;
    H_glDisableClientState_VERTEX_ARRAY; H_glDisable_BLEND ].

(** [helpText]; the first line ends in a line feed. *)
Definition helpText : list string :=
  [ String.append "Keys:" (String "010"%char EmptyString);
    " ? or /        Show/hide this help.";
    " q or [esc]    Quit program.";
    " d             Activate / deactivate debug mode.";
    " m             Toggle display of mode info.";
    " a             Toggle between available threshold modes.";
    " - and +       Switch to manual threshold mode, and adjust threshhold up/down by 5.";
    " x             Change image processing mode.";
    " c             Change arglDrawMode and arglTexmapMode." ]%string.

(** [helpTextLineCount], the number of entries of [helpText] as a
    [size_t]; arithmetic on it is modulo 2^64. *)
Definition helpTextLineCount : Z := Z.of_nat (List.length helpText).
Definition size_t_wrap (z : Z) : Z := z mod 18446744073709551616.

(** The first loop of [printHelpKeys]: the greatest width, from [bw]. *)
Fixpoint widest (env : HudEnv) (lines : list string) (bw : spec_float)
  : spec_float :=
  match lines with
  | [] => bw
  | text :: rest =>
      let w := F32.of_int (glutBitmapLength env text) in
      widest env rest (if F32.gt w bw then w else bw)
  end.

(** Its second loop, from index [i]. *)
Fixpoint print_lines (env : HudEnv) (st : State) (i : Z) (lines : list string)
  : list HudCall :=
  match lines with
  | [] => []
  | text :: rest =>
      print env st (Some text) f_2_0
        (F32.add
           (F32.mul (F32.of_int (size_t_wrap (helpTextLineCount - 1 - i))) f_12_0)
           f_2_0)
        0 0
      ++ print_lines env st (i + 1) rest
  end.

(** [printHelpKeys()] *)
Definition printHelpKeys (env : HudEnv) (st : State) : list HudCall :=
  let bw := widest env helpText f_zero in
  let bh :=
    F32.add (F32.mul (F32.of_int helpTextLineCount) f_10_0)
      (F32.mul (F32.of_int (size_t_wrap (helpTextLineCount - 1))) f_2_0) in
  map H_glutBitmapLength helpText
  ++ drawBackground bw bh f_2_0 f_2_0
  ++ print_lines env st 0 helpText.

(** [char text[256]] and [snprintf(buf, size, ...)]: of the formatted text
    [s] at most [size - 1] characters are stored, then the NUL. *)
Definition sizeof_text : Z := 256.
Definition snprintf (size : Z) (s : string) : string :=
  substring 0 (Z.to_nat (size - 1)) s.
(** [len = strlen(text); snprintf(text + len, sizeof(text) - len, ...)] *)
Definition snprintf_end (text s : string) : string :=
  let len := Z.of_nat (String.length text) in
  String.append text (snprintf (sizeof_text - len) s).

(** [%d] *)
Definition printf_d (n : Z) : string :=
  if n <? 0 then String "-"%char (decimal n) else decimal n.

Definition image_proc_text (mode : Z) : string :=
  if mode =? AR_IMAGE_PROC_FRAME_IMAGE then "full frame"%string
  else "even field only"%string.

Definition thresh_mode_text (threshMode : AR_LABELING_THRESH_MODE) : string :=
  match threshMode with
  | AR_LABELING_THRESH_MODE_MANUAL => "MANUAL"
  | AR_LABELING_THRESH_MODE_AUTO_MEDIAN => "AUTO_MEDIAN, thresh="
  | AR_LABELING_THRESH_MODE_AUTO_OTSU => "AUTO_OTSU, thresh="
  | AR_LABELING_THRESH_MODE_AUTO_ADAPTIVE => "AUTO_ADAPTIVE"
  | AR_LABELING_THRESH_MODE_other => "UNKNOWN"
  end%string.

Definition pattern_mode_text (mode : AR_PATTERN_DETECTION_MODE) : string :=
  match mode with
  | AR_TEMPLATE_MATCHING_COLOR => "Colour template (pattern)"
  | AR_TEMPLATE_MATCHING_MONO => "Mono template (pattern)"
  | AR_MATRIX_CODE_DETECTION => "Matrix (barcode)"
  | AR_TEMPLATE_MATCHING_COLOR_AND_MATRIX =>
      "Colour template + Matrix (2 pass, pattern + barcode)"
  | AR_TEMPLATE_MATCHING_MONO_AND_MATRIX =>
      "Mono template + Matrix (2 pass, pattern + barcode "
  | AR_PATTERN_DETECTION_MODE_other => "UNKNOWN"
  end%string.

(** The four texts of [printMode], as they stand in [text] when printed. *)
Definition size_text (env : HudEnv) (st : State) : string :=
  snprintf sizeof_text
    (String.concat EmptyString
       [ "Processing "; printf_d (hud_xsize env); "x"; printf_d (hud_ysize env);
         " video frames "; image_proc_text (arGetImageProcMode (gARHandle st)) ]%string).

Definition threshold_text (threshMode : AR_LABELING_THRESH_MODE) (thresh : Z)
  : string :=
  let text :=
    snprintf sizeof_text
      (String.append "Threshold mode: "%string (thresh_mode_text threshMode)) in
  match threshMode with
  | AR_LABELING_THRESH_MODE_AUTO_ADAPTIVE => text
  | _ => snprintf_end text (String.append ", thresh="%string (printf_d thresh))
  end.

Definition border_text (env : HudEnv) : string :=
  let text :=
    snprintf sizeof_text
      (String.concat EmptyString
         [ "Border: "; printf_0_1f env (F64.mul (arGetBorderSize env) d_100_0);
           "%" ]%string) in
  snprintf_end text
    (String.append ", Pattern detection mode: "%string
       (pattern_mode_text (arGetPatternDetectionMode env))).

Definition drawing_text (st : State) : string :=
  snprintf sizeof_text
    (String.concat EmptyString
       [ "Drawing using "; draw_mode_text st; " into ";
         printf_d (windowWidth st); "x"; printf_d (windowHeight st);
         " window" ]%string).

(** [(line - 1)*12.0f + 2.0f] *)
Definition line_y (line : Z) : spec_float :=
  F32.add (F32.mul (F32.of_int (C.int_sub line 1)) f_12_0) f_2_0.

(** [printMode()] *)
Definition printMode (env : HudEnv) (st : State) : list HudCall :=
  let h := gARHandle st in
  [ H_glColor3ub 255 255 255; H_arVideoGetSize ]
  ++ print env st (Some (size_text env st)) f_2_0 (line_y 1) 0 1
  ++ print env st
       (Some (threshold_text (arGetLabelingThreshMode h) (arGetLabelingThresh h)))
       f_2_0 (line_y 2) 0 1
  ++ print env st (Some (border_text env)) f_2_0 (line_y 3) 0 1
  ++ print env st (Some (drawing_text st)) f_2_0 (line_y 4) 0 1.

(** The onscreen text of one [Display]: its calls of [printMode] and
    [printHelpKeys], carried out in the state [Display] has then. *)
Definition Display_text (env : HudEnv) (st : State) : list HudCall :=
  flat_map
    (fun e =>
       match e with
       | E_printMode => printMode env (final (Display st))
       | E_printHelpKeys => printHelpKeys env (final (Display st))
       | _ => []
       end)
    (trace (Display st)).

(** The glyphs at the head of a list of calls, and the texts a list of
    calls draws: each [glRasterPos2f] starts one at its position. *)
Fixpoint glyphs (l : list HudCall) : string :=
  match l with
  | H_glutBitmapCharacter c :: rest => String c (glyphs rest)
  | _ => EmptyString
  end.

Fixpoint drawn_texts (l : list HudCall) : list (spec_float * spec_float * string) :=
  match l with
  | [] => []
  | H_glRasterPos2f x y :: rest => (x, y, glyphs rest) :: drawn_texts rest
  | _ :: rest => drawn_texts rest
  end.

Definition text_of (p : spec_float * spec_float * string) : string := snd p.
Definition x_of (p : spec_float * spec_float * string) : spec_float := fst (fst p).
Definition y_of (p : spec_float * spec_float * string) : spec_float := snd (fst p).

(** The quads given to [glVertexPointer]. *)
Definition quads (l : list HudCall) : list (list (spec_float * spec_float)) :=
  flat_map (fun c => match c with H_glVertexPointer v => [v] | _ => [] end) l.

(** The last colour call of a list of calls, if any. *)
Definition last_colour (l : list HudCall) : option HudCall :=
  fold_left
    (fun c e =>
       match e with
       | H_glColor4f _ _ _ _ | H_glColor3ub _ _ _ => Some e
       | _ => c
       end)
    l None.

(** The calls before the first [glRasterPos2f]. *)
Fixpoint before_text (l : list HudCall) : list HudCall :=
  match l with
  | [] => []
  | H_glRasterPos2f _ _ :: _ => []
  | c :: rest => c :: before_text rest
  end.

(* ================================================================== *)
(** ** The event loop *)
(* ================================================================== *)

(** Values of GLUT's header; only that they differ matters. *)
Definition GLUT_NOT_VISIBLE : Z := 0.
Definition GLUT_VISIBLE : Z := 1.

(** The argument of [glutIdleFunc]. *)
Inductive IdleFunc : Type :=
| Idle_NULL
| Idle_mainLoop.

(** [Visibility(visible)]: the idle callback it registers. *)
Definition Visibility (visible : Z) : IdleFunc :=
  if visible =? GLUT_VISIBLE then Idle_mainLoop else Idle_NULL.

(** What [glutMainLoop] delivers to the callbacks [main] registered; an
    idle event comes with the answers of the libraries for that tick. *)
Inductive GlutEvent : Type :=
| Ev_Keyboard (key : ascii) (x y : Z)
| Ev_Idle (env : TickEnv)
| Ev_Reshape (w h : Z)
| Ev_Display
| Ev_Visibility (visible : Z).

(** The program in [glutMainLoop]: its globals, the registered idle
    callback, and the exit code once a callback has called [exit]. *)
Record Loop : Type := {
  globals : State;
  idle : IdleFunc;
  ended : option Z
}.

(** [main] registers no idle callback. *)
Definition enter_loop (st : State) : Loop :=
  {| globals := st; idle := Idle_NULL; ended := None |}.

Definition handled (r : Result) (l : Loop) : Loop * list Event :=
  ({| globals := final r; idle := idle l; ended := exited r |}, trace r).

(** One event: the callback registered for it runs; an idle event runs the
    idle callback if there is one. *)
Definition deliver (ev : GlutEvent) (l : Loop) : Loop * list Event :=
  match ended l with
  | Some _ => (l, [])
  | None =>
      match ev with
      | Ev_Keyboard key x y => handled (Keyboard key x y (globals l)) l
      | Ev_Idle env =>
          match idle l with
          | Idle_NULL => (l, [])
          | Idle_mainLoop => handled (mainLoop env (globals l)) l
          end
      | Ev_Reshape w h => handled (Reshape w h (globals l)) l
      | Ev_Display => handled (Display (globals l)) l
      | Ev_Visibility visible =>
          ({| globals := globals l; idle := Visibility visible; ended := None |}, [])
      end
  end.

Fixpoint run (evs : list GlutEvent) (l : Loop) : Loop * list Event :=
  match evs with
  | [] => (l, [])
  | ev :: rest =>
      let '(l1, tr1) := deliver ev l in
      let '(l2, tr2) := run rest l1 in
      (l2, tr1 ++ tr2)
  end.

(** No event of the list makes the window visible. *)
Definition stays_hidden (evs : list GlutEvent) : bool :=
  forallb
    (fun ev =>
       match ev with
       | Ev_Visibility visible => negb (visible =? GLUT_VISIBLE)
       | _ => true
       end)
    evs.

(** The calls only [mainLoop] makes. *)
Definition is_tick_call (e : Event) : bool :=
  match e with
  | E_glutGet_ELAPSED_TIME | E_arVideoGetImage | E_arDetectMarker _
  | E_arGetTransMatSquare _ _ | E_arVideoSaveImageJPEG _ _ _ _ _ _ _
  | E_glutPostRedisplay => true
  | _ => false
  end.

(** Structural equality of floating-point values. *)
Definition same_float (a b : spec_float) : bool :=
  match a, b with
  | S754_zero s, S754_zero s' | S754_infinity s, S754_infinity s' => Bool.eqb s s'
  | S754_nan, S754_nan => true
  | S754_finite s m e, S754_finite s' m' e' =>
      Bool.eqb s s' && Pos.eqb m m' && Z.eqb e e'
  | _, _ => false
  end.

(** The raster height of line [line] of the mode panel in a window of
    height [h]: [windowHeight - y - 10.0f] with [y = (line - 1)*12.0f + 2.0f]. *)
Definition mode_line_y (h line : Z) : spec_float :=
  F32.sub (F32.sub (F32.of_int h) (line_y line)) f_10_0.

(** The threshold line as it reads on the screen. *)
Definition threshold_line (m : AR_LABELING_THRESH_MODE) (t : Z) : string :=
  String.append "Threshold mode: "
    match m with
    | AR_LABELING_THRESH_MODE_MANUAL =>
        String.append "MANUAL, thresh=" (decimal t)
    | AR_LABELING_THRESH_MODE_AUTO_MEDIAN =>
        String.append "AUTO_MEDIAN, thresh=, thresh=" (decimal t)
    | AR_LABELING_THRESH_MODE_AUTO_OTSU =>
        String.append "AUTO_OTSU, thresh=, thresh=" (decimal t)
    | AR_LABELING_THRESH_MODE_AUTO_ADAPTIVE => "AUTO_ADAPTIVE"
    | AR_LABELING_THRESH_MODE_other =>
        String.append "UNKNOWN, thresh=" (decimal t)
    end.

(** The drawing line as it reads on the screen. *)
Definition drawing_line (mode : string) (w h : Z) : string :=
  String.concat EmptyString
    [ "Drawing using "; mode; " into "; decimal w; "x"; decimal h; " window" ]%string.

(** The texts one [Display] shows, top panel first. *)
Definition shown (env : HudEnv) (st : State) : list string :=
  map text_of (drawn_texts (Display_text env st)).

Definition all_modes : list AR_LABELING_THRESH_MODE :=
  [ AR_LABELING_THRESH_MODE_MANUAL; AR_LABELING_THRESH_MODE_AUTO_MEDIAN;
    AR_LABELING_THRESH_MODE_AUTO_OTSU; AR_LABELING_THRESH_MODE_AUTO_ADAPTIVE;
    AR_LABELING_THRESH_MODE_other ].

(** Answers for the onscreen text: a font six pixels wide, a 640x480
    video, a border of a quarter, colour templates. *)
Definition sample_hud : HudEnv :=
  {| glutBitmapLength := fun text => 6 * Z.of_nat (String.length text);
     hud_xsize := 640; hud_ysize := 480;
     arGetBorderSize := S754_finite false 4503599627370496 (-54);
     arGetPatternDetectionMode := AR_TEMPLATE_MATCHING_COLOR;
     printf_0_1f := fun _ => "25.0"%string |}.

(** What only a tick changes. *)
Definition tick_fields (st : State)
  : Z * spec_float * Z * Trans * Z :=
  (ms_prev st, gDrawRotateAngle st, gPatt_found st, gPatt_trans st,
   imageNumber st).

(** The loop with the window shown. *)
Definition shown_loop (st : State) : Loop :=
  {| globals := st; idle := Idle_mainLoop; ended := None |}.

(** No event of the list is a key press. *)
Definition no_keys (evs : list GlutEvent) : bool :=
  forallb (fun ev => match ev with Ev_Keyboard _ _ _ => false | _ => true end) evs.

(** The information and warning messages in a trace, with their two
    arguments. *)
Definition informed (tr : list Event) : list (string * Z * Z) :=
  flat_map (fun e => match e with E_ARLOGi msg x y => [(msg, x, y)] | _ => [] end) tr.

Definition warned (tr : list Event) : list (string * Z * Z) :=
  flat_map (fun e => match e with E_ARLOGw msg x y => [(msg, x, y)] | _ => [] end) tr.

(** The parameter file was made for another frame size than the video's. *)
Definition size_mismatch (env : StartEnv) : bool :=
  negb (cparam_xsize env =? video_xsize env)
  || negb (cparam_ysize env =? video_ysize env).

(** A startup whose parameter file is for 320x240 frames. *)
Definition start_resized : StartEnv :=
  {| glmReadOBJ_result := 1;
     arVideoOpen_result := 0;
     arVideoGetSize_result := 0;
     video_xsize := 640; video_ysize := 480;
     video_pixel_format := 2;
     arParamLoad_result := 0;
     cparam_xsize := 320; cparam_ysize := 240;
     arParamLTCreate_result := 1;
     arCreateHandle_result := Some sample_handle;
     arSetPixelFormat_result := 0;
     arSetDebugMode_result := 0;
     ar3DCreateHandle_result := 1;
     arVideoCapStart_result := 0;
     arPattCreateHandle_result := 1;
     arPattLoad_result := 0;
     arglSetupForCurrentContext_result := Some sample_settings |}.

(** [n] captures: each time the key s, then a tick 10 ms after the last
    accepted one that gets frame 1, saves it and goes on to detection. *)
Fixpoint captures (n : nat) (st : State) : State :=
  match n with
  | O => st
  | S n' =>
      captures n'
        (final (mainLoop (sample_tick (ms_prev st + 10) 1 0 0 d_1_0)
                  (press "s"%char st)))
  end.

(* ================================================================== *)
(** * Theorems *)
(* ================================================================== *)

Module FloatOrderFacts.
Import FloatOrder.

Ltac by_compare :=
  repeat match goal with
    | |- context [Pos.compare_cont Eq ?m ?n] =>
        change (Pos.compare_cont Eq m n) with (Pos.compare m n);
        destruct (Pos.compare_spec m n)
    | |- context [Z.compare ?m ?n] => destruct (Z.compare_spec m n)
    end;
  cbn; split; intros; try discriminate; try reflexivity; try lia.

Lemma ltb_key (a b : spec_float) :
  is_nan a = false -> is_nan b = false ->
  (SFltb a b = true <-> key_lt (key a) (key b)).
Proof.
  intros Ha Hb.
  destruct a as [sa|sa| |sa ma ea], b as [sb|sb| |sb mb eb];
    try discriminate; try destruct sa; try destruct sb;
    unfold SFltb, SFcompare, key, key_lt; by_compare.
Qed.

Lemma leb_key (a b : spec_float) :
  is_nan a = false -> is_nan b = false ->
  (SFleb a b = true <-> key_le (key a) (key b)).
Proof.
  intros Ha Hb.
  destruct a as [sa|sa| |sa ma ea], b as [sb|sb| |sb mb eb];
    try discriminate; try destruct sa; try destruct sb;
    unfold SFleb, SFcompare, key, key_le; by_compare.
Qed.

Lemma leb_not_nan (a b : spec_float) :
  SFleb a b = true -> is_nan a = false /\ is_nan b = false.
Proof. destruct a, b; cbn; intros H; try discriminate; auto. Qed.

Lemma ltb_not_nan (a b : spec_float) :
  SFltb a b = true -> is_nan a = false /\ is_nan b = false.
Proof. destruct a, b; cbn; intros H; try discriminate; auto. Qed.

Ltac keys a b :=
  destruct (key a) as [[? ?] ?]; destruct (key b) as [[? ?] ?].

Lemma leb_refl (a : spec_float) : is_nan a = false -> SFleb a a = true.
Proof.
  intros Ha. apply leb_key; trivial.
  destruct (key a) as [[? ?] ?]; cbn; lia.
Qed.

Lemma ltb_leb (a b : spec_float) : SFltb a b = true -> SFleb a b = true.
Proof.
  intros H. destruct (ltb_not_nan _ _ H) as [Ha Hb].
  apply leb_key; trivial. apply ltb_key in H; trivial.
  keys a b; cbn in *; lia.
Qed.

Lemma not_ltb_leb (a b : spec_float) :
  is_nan a = false -> is_nan b = false -> SFltb a b = false -> SFleb b a = true.
Proof.
  intros Ha Hb H. apply leb_key; trivial.
  assert (Hn : ~ key_lt (key a) (key b)).
  { intros K. apply ltb_key in K; trivial. congruence. }
  keys a b; cbn in *; lia.
Qed.

Lemma leb_ltb_trans (a b c : spec_float) :
  SFleb a b = true -> SFltb b c = true -> SFltb a c = true.
Proof.
  intros H1 H2.
  destruct (leb_not_nan _ _ H1) as [Ha Hb].
  destruct (ltb_not_nan _ _ H2) as [_ Hc].
  apply ltb_key; trivial.
  apply leb_key in H1; trivial. apply ltb_key in H2; trivial.
  keys a b; destruct (key c) as [[? ?] ?]; cbn in *; lia.
Qed.

Lemma ltb_irrefl (a : spec_float) : SFltb a a = false.
Proof.
  destruct (SFltb a a) eqn:E; trivial.
  destruct (ltb_not_nan _ _ E) as [Ha _].
  apply ltb_key in E; trivial.
  destruct (key a) as [[? ?] ?]; cbn in *; lia.
Qed.

Lemma leb_not_ltb (a b : spec_float) : SFleb a b = true -> SFltb b a = false.
Proof.
  intros H. destruct (SFltb b a) eqn:E; trivial.
  rewrite <- (ltb_irrefl a). symmetry. exact (leb_ltb_trans _ _ _ H E).
Qed.

End FloatOrderFacts.

(* ================================================================== *)
(** ** The literals *)
(* ================================================================== *)

(** [0.001f] and [0.01f] are the binary32 values nearest to 1/1000 and
    1/100; the other literals are integers or halves and exact. *)
Lemma float_literals :
  f_0_001 = F32.div (F32.of_int 1) (F32.of_int 1000)
  /\ f_0_01 = F32.div (F32.of_int 1) (F32.of_int 100)
  /\ F64.mul d_1_5 d_2_0 = F64.of_int 3
  /\ valid_binary F32.prec F32.emax f_0_001 = true
  /\ valid_binary F32.prec F32.emax f_0_01 = true.
Proof. repeat apply conj; vm_compute; reflexivity. Qed.

(* ================================================================== *)
(** ** Selection of the best hypothesis *)
(* ================================================================== *)

Section SelectionLoop.

Variable h : ARHandle.
Variable patt_id : Z.

Import FloatOrderFacts.

(** One iteration of the loop keeps [best]. *)
Lemma best_step (j k : Z) :
  0 <= j ->
  (forall i, 0 <= i <= j -> is_nan (cf_at h i) = false) ->
  best h patt_id j k ->
  best h patt_id (j + 1)
    (if marker_id (markerInfo_at h j) =? patt_id then
       if k =? -1 then j
       else if F64.gt (marker_cf (markerInfo_at h j)) (marker_cf (markerInfo_at h k))
            then j else k
     else k).
Proof.
  intros Hj Hnan Hb.
  fold (cf_at h j). fold (cf_at h k). unfold F64.gt.
  assert (Hlast : forall i, 0 <= i < j + 1 -> i = j \/ 0 <= i < j) by lia.
  destruct (Z.eqb_spec (marker_id (markerInfo_at h j)) patt_id) as [Hm|Hm].
  - destruct (Z.eqb_spec k (-1)) as [Hk|Hk].
    + (* first matching hypothesis *)
      right. destruct Hb as [[_ Hnone]|[Hr _]]; [|lia].
      repeat split; try lia; trivial.
      * intros i Hi Mi. destruct (Hlast i Hi) as [->|Hi'].
        -- apply leb_refl, Hnan; lia.
        -- elim (Hnone i Hi' Mi).
      * intros i Hi Mi. elim (Hnone i Hi Mi).
    + destruct Hb as [[Hk' _]|(Hr & Mk & Hmax & Hfirst)]; [contradiction|].
      destruct (SFltb (cf_at h k) (cf_at h j)) eqn:Hgt.
      * (* a strictly higher confidence *)
        right. repeat split; try lia; trivial.
        -- intros i Hi Mi. destruct (Hlast i Hi) as [->|Hi'].
           ++ apply leb_refl, Hnan; lia.
           ++ apply ltb_leb, (leb_ltb_trans _ (cf_at h k)); auto.
        -- intros i Hi Mi. apply (leb_ltb_trans _ (cf_at h k)); auto.
      * (* not higher: the earlier choice stays *)
        right. repeat split; try lia; trivial.
        intros i Hi Mi. destruct (Hlast i Hi) as [->|Hi']; auto.
        apply not_ltb_leb; trivial; apply Hnan; lia.
  - destruct Hb as [[Hk Hnone]|(Hr & Mk & Hmax & Hfirst)].
    + left. split; trivial. intros i Hi. destruct (Hlast i Hi) as [->|Hi']; auto.
    + right. repeat split; try lia; trivial.
      intros i Hi Mi. destruct (Hlast i Hi) as [->|Hi']; auto.
Qed.

Lemma select_loop_best (n : nat) : forall j k,
  0 <= j ->
  (forall i, 0 <= i < j + Z.of_nat n -> is_nan (cf_at h i) = false) ->
  best h patt_id j k ->
  best h patt_id (j + Z.of_nat n) (select_loop h patt_id n j k).
Proof.
  induction n as [|n IH]; intros j k Hj Hnan Hb.
  - cbn [select_loop]. replace (j + Z.of_nat 0) with j by lia. exact Hb.
  - cbn [select_loop].
    replace (j + Z.of_nat (S n)) with (j + 1 + Z.of_nat n) by lia.
    apply IH; [lia | intros i Hi; apply Hnan; lia |].
    apply best_step; trivial. intros i Hi. apply Hnan. lia.
Qed.

Lemma select_marker_best :
  0 <= marker_num h ->
  (forall i, 0 <= i < marker_num h -> is_nan (cf_at h i) = false) ->
  best h patt_id (marker_num h) (select_marker h patt_id).
Proof.
  intros Hn Hnan. unfold select_marker.
  pose proof (select_loop_best (Z.to_nat (marker_num h)) 0 (-1)) as H.
  rewrite Z2Nat.id in H by trivial. cbn [Z.add] in H.
  apply H; [lia | exact Hnan |].
  left. split; trivial. intros i Hi. lia.
Qed.

End SelectionLoop.

(* ================================================================== *)
(** ** What one tick changes *)
(* ================================================================== *)

(** [DrawObjUpdate] writes the angle and nothing else. *)
Lemma DrawObjUpdate_frame (dt : spec_float) (st : State) :
  DrawObjUpdate dt st
  = set_gDrawRotateAngle (gDrawRotateAngle (DrawObjUpdate dt st)) st.
Proof.
  unfold DrawObjUpdate. destruct (C.truth (gDrawRotate st)).
  - reflexivity.
  - destruct st; reflexivity.
Qed.

(** The capture block writes the request flag and the counter and nothing
    else. *)
Lemma save_image_frame (env : TickEnv) (st : State) :
  fst (save_image env st)
  = set_gARTImageSavePlease (gARTImageSavePlease (fst (save_image env st)))
      (set_imageNumber (imageNumber (fst (save_image env st))) st).
Proof.
  unfold save_image. destruct (C.truth (gARTImageSavePlease st)).
  - reflexivity.
  - destruct st; reflexivity.
Qed.

Lemma save_image_no_solver (env : TickEnv) (st : State) (m : ARMarkerInfo) (w : ARdouble) :
  ~ In (E_arGetTransMatSquare m w) (snd (save_image env st)).
Proof.
  unfold save_image.
  destruct (C.truth (gARTImageSavePlease st)); [|cbn; tauto].
  destruct (save_result env <? 0); cbn; intuition discriminate.
Qed.

(** The state in which [mainLoop] runs its selection, on a tick that passes
    the gate, has a frame and a detector result. *)
Lemma mainLoop_tracks (env : TickEnv) (st : State) :
  tick_tracks env st ->
  exists (st0 : State) (tr0 : list Event),
    gARHandle st0 = detected_handle env st
    /\ gPatt_id st0 = gPatt_id st
    /\ (forall m w, ~ In (E_arGetTransMatSquare m w) tr0)
    /\ mainLoop env st
       = returns (fst (find_pose env st0))
           (tr0 ++ snd (find_pose env st0) ++ [E_glutPostRedisplay]).
Proof.
  intros (Hgate & Himg & Hdet). unfold gate_rejects in Hgate.
  unfold mainLoop. rewrite Hgate.
  destruct (Z.eqb_spec (video_image env) C.NULL) as [E|_]; [contradiction|].
  cbn [negb].
  set (st1 := set_gARTImage _ _).
  pose proof (save_image_frame env st1) as Hframe.
  pose proof (save_image_no_solver env st1) as Hsave.
  destruct (save_image env st1) as [st2 tr2]. cbn [fst snd] in Hframe, Hsave.
  destruct (Z.ltb_spec (detect_result env) 0) as [E|_]; [lia|].
  match goal with
  | |- context [find_pose env ?s] => set (st0 := s)
  end.
  exists st0, ([E_glutGet_ELAPSED_TIME; E_arVideoGetImage]
                 ++ tr2 ++ [E_arDetectMarker (gARTImage st2)]).
  assert (Hh : gARHandle st2 = gARHandle st).
  { rewrite Hframe. subst st1. rewrite DrawObjUpdate_frame. reflexivity. }
  assert (Hp : gPatt_id st2 = gPatt_id st).
  { rewrite Hframe. subst st1. rewrite DrawObjUpdate_frame. reflexivity. }
  repeat split.
  - subst st0. cbn. unfold detected_handle. now rewrite Hh.
  - subst st0. cbn. exact Hp.
  - intros m w Hin. cbn in Hin.
    destruct Hin as [Hin|[Hin|Hin]]; try discriminate.
    apply in_app_or in Hin. destruct Hin as [Hin|Hin].
    + exact (Hsave m w Hin).
    + cbn in Hin. intuition discriminate.
  - destruct (find_pose env st0) as [st3 tr3]. cbn [fst snd].
    now rewrite <- app_assoc.
Qed.

Lemma detected_handle_num (env : TickEnv) (st : State) :
  marker_num (detected_handle env st) = Z.of_nat (List.length (detected env)).
Proof. reflexivity. Qed.

Lemma detected_handle_cf (env : TickEnv) (st : State) :
  (forall m, In m (detected env) -> is_nan (marker_cf m) = false) ->
  forall i, 0 <= i < marker_num (detected_handle env st) ->
  is_nan (cf_at (detected_handle env st) i) = false.
Proof.
  intros Hnan i Hi. rewrite detected_handle_num in Hi.
  unfold cf_at, markerInfo_at.
  destruct (Z.ltb_spec i 0) as [E|_]; [lia|].
  apply Hnan. cbn. apply nth_In. lia.
Qed.

(** C1. On a tick that passes the gate, has a frame and a detector result
    whose confidences are numbers: if some hypothesis carries the registered
    identity, the tick picks a matching hypothesis [k] whose confidence no
    matching hypothesis exceeds and which every earlier matching hypothesis
    falls short of (the first of maximum confidence in the detector's
    order), calls the pose solver on it with the marker width, stores the
    transform it answers and sets found to TRUE; if none carries the
    identity, found is FALSE and the solver is not called. *)
Theorem C1_selects_first_of_maximum_confidence (env : TickEnv) (st : State) :
  tick_tracks env st ->
  (forall m, In m (detected env) -> is_nan (marker_cf m) = false) ->
  let h := detected_handle env st in
  let r := mainLoop env st in
  ((exists j, 0 <= j < marker_num h /\ matches h (gPatt_id st) j) ->
   exists k,
     0 <= k < marker_num h
     /\ matches h (gPatt_id st) k
     /\ (forall i, 0 <= i < marker_num h -> matches h (gPatt_id st) i ->
         SFleb (cf_at h i) (cf_at h k) = true)
     /\ (forall i, 0 <= i < k -> matches h (gPatt_id st) i ->
         SFltb (cf_at h i) (cf_at h k) = true)
     /\ (exists tr0,
           (forall m w, ~ In (E_arGetTransMatSquare m w) tr0)
           /\ trace r = tr0 ++ [E_arGetTransMatSquare (markerInfo_at h k) gPatt_width;
                                E_glutPostRedisplay])
     /\ gPatt_trans (final r) = snd (pose_solver env (markerInfo_at h k) gPatt_width)
     /\ gPatt_found (final r) = C.TRUE
     /\ exited r = None)
  /\ ((forall j, 0 <= j < marker_num h -> ~ matches h (gPatt_id st) j) ->
      gPatt_found (final r) = C.FALSE
      /\ (forall m w, ~ In (E_arGetTransMatSquare m w) (trace r))
      /\ exited r = None).
Proof.
  intros Htick Hnan h r.
  destruct (mainLoop_tracks env st Htick) as (st0 & tr0 & Hh & Hp & Htr0 & Hrun).
  fold h in Hh. subst r. rewrite Hrun. clear Hrun.
  assert (Hbest : best h (gPatt_id st) (marker_num h) (select_marker h (gPatt_id st))).
  { apply select_marker_best.
    - unfold h. rewrite detected_handle_num. lia.
    - apply detected_handle_cf, Hnan. }
  unfold find_pose. rewrite Hh, Hp.
  set (k := select_marker h (gPatt_id st)) in *.
  split.
  - intros (j & Hj & Mj).
    destruct Hbest as [[_ Hnone]|(Hk & Mk & Hmax & Hfirst)];
      [elim (Hnone j Hj Mj)|].
    exists k. repeat split; trivial; try lia.
    + exists tr0. split; trivial.
      destruct (Z.eqb_spec k (-1)) as [E|_]; [lia|]. cbn [negb].
      destruct (pose_solver env (markerInfo_at h k) gPatt_width); reflexivity.
    + destruct (Z.eqb_spec k (-1)) as [E|_]; [lia|]. cbn [negb].
      destruct (pose_solver env (markerInfo_at h k) gPatt_width); reflexivity.
    + destruct (Z.eqb_spec k (-1)) as [E|_]; [lia|]. cbn [negb].
      destruct (pose_solver env (markerInfo_at h k) gPatt_width); reflexivity.
  - intros Hnone.
    destruct Hbest as [[Hk _]|(Hk & Mk & _)]; [|elim (Hnone k Hk Mk)].
    rewrite Hk. cbn. repeat split.
    intros m w Hin. apply in_app_or in Hin.
    destruct Hin as [Hin|Hin]; [exact (Htr0 m w Hin)|].
    cbn in Hin. intuition discriminate.
Qed.

(* ================================================================== *)
(** ** The input surface *)
(* ================================================================== *)

Lemma main_sample : snd (main sample_start) = Running sample_state.
Proof. reflexivity. Qed.

Lemma sample_handle_ok : handle_ok sample_handle.
Proof.
  split; cbn.
  - lia.
  - discriminate.
  - now left.
Qed.

Lemma sample_reachable : reachable sample_state.
Proof.
  apply (reach_main sample_start (fst (main sample_start))).
  - intros h E. injection E as <-. exact sample_handle_ok.
  - reflexivity.
Qed.

(** The state [main] hands over satisfies the invariant. *)
Lemma setupCamera_handle (env : StartEnv) (tr : list Event) (h : ARHandle) :
  library_contract env -> setupCamera env = (tr, Some h) -> handle_ok h.
Proof.
  intros Hlib. unfold setupCamera, bind, unless, call, ret, fail.
  repeat match goal with
    | |- context [if ?c then _ else _] => destruct c; cbn; try discriminate
    end;
  destruct (arCreateHandle_result env) as [h0|] eqn:E; cbn; try discriminate;
  repeat match goal with
    | |- context [if ?c then _ else _] => destruct c; cbn; try discriminate
    end;
  intros [= _ <-]; destruct (Hlib h0 E); split; cbn; trivial.
Qed.

Lemma main_inv (env : StartEnv) (tr : list Event) (st : State) :
  library_contract env -> main env = (tr, Running st) -> input_inv st.
Proof.
  intros Hlib. unfold main.
  destruct (glmReadOBJ_result env =? C.NULL); [discriminate|].
  destruct (setupCamera env) as [trc [h|]] eqn:Ec; [|discriminate].
  destruct (setupMarker env) as [trm [p|]]; [|discriminate].
  destruct (arglSetupForCurrentContext_result env); [|discriminate].
  intros [= _ <-].
  split; cbn; try (now right).
  exact (setupCamera_handle env trc h Hlib Ec).
Qed.

(** [Keyboard] keeps the invariant, whatever the key. *)
Ltac flag_cases :=
  repeat match goal with
    | H : is_flag _ |- _ => destruct H as [H|H]; rewrite H in *
    end.

Lemma threshold_clamped (t d : Z) :
  0 <= t <= 255 -> -5 <= d <= 5 ->
  let t1 := C.int_add t d in
  let t2 := if t1 <? 0 then 0 else t1 in
  0 <= (if t2 >? 255 then 255 else t2) <= 255.
Proof.
  intros Ht Hd. unfold C.int_add, C.int_wrap.
  replace ((t + d + 2147483648) mod 4294967296) with (t + d + 2147483648)
    by (symmetry; apply Z.mod_small; lia).
  cbv zeta.
  destruct (Z.ltb_spec (t + d + 2147483648 - 2147483648) 0);
    [cbn; lia|].
  destruct (Z.gtb_spec (t + d + 2147483648 - 2147483648) 255); lia.
Qed.

Ltac inv_goal :=
  split; [ | | | split]; cbn;
  try assumption;
  try (flag_cases; cbv; auto; fail);
  try (match goal with
       | H : _ \/ _ |- _ => destruct H as [H|H]; rewrite H; cbv; auto
       end; fail).

Lemma Keyboard_inv (key : ascii) (x y : Z) (st : State) :
  input_inv st -> input_inv (final (Keyboard key x y st)).
Proof.
  intros [Hh Hm Hr [Ht Hmo Hi]].
  pose proof (threshold_clamped _ 5 Ht ltac:(lia)) as Hup.
  pose proof (threshold_clamped _ (-5) Ht ltac:(lia)) as Hdown.
  destruct st as [ww wh img sp [dbg th tm ip xs ys pf mn mi]
                    cc tr fd pid gs sh sm dr an ob im mp].
  cbn in *.
  destruct key as [[] [] [] [] [] [] [] []]; cbn;
    try (inv_goal; fail).
  all: try (destruct (ob =? C.NULL); inv_goal; fail).
  all: try (destruct tm; inv_goal; try discriminate; try contradiction; fail).
  all: try (destruct (C.truth (C.lnot sp)); inv_goal; fail).
Qed.

(** The fields of the input surface are not written by [mainLoop]. *)
Lemma mainLoop_input_fields (env : TickEnv) (st : State) :
  let st' := final (mainLoop env st) in
  gShowHelp st' = gShowHelp st
  /\ gShowMode st' = gShowMode st
  /\ gDrawRotate st' = gDrawRotate st
  /\ gArglSettings st' = gArglSettings st
  /\ arLabelingThresh (gARHandle st') = arLabelingThresh (gARHandle st)
  /\ arLabelingThreshMode (gARHandle st') = arLabelingThreshMode (gARHandle st)
  /\ arImageProcMode (gARHandle st') = arImageProcMode (gARHandle st)
  /\ arDebug (gARHandle st') = arDebug (gARHandle st).
Proof.
  unfold mainLoop.
  destruct (F32.lt _ _); [cbn; tauto|].
  rewrite DrawObjUpdate_frame.
  destruct (negb (video_image env =? C.NULL)); [|cbn; tauto].
  match goal with
  | |- context [save_image env ?s] =>
      pose proof (save_image_frame env s) as Hframe;
      destruct (save_image env s) as [st2 tr2]
  end.
  cbn [fst] in Hframe.
  destruct (detect_result env <? 0).
  - cbn. rewrite Hframe. cbn. tauto.
  - unfold find_pose.
    match goal with
    | |- context [select_marker ?a ?b] => destruct (negb (select_marker a b =? -1))
    end.
    + match goal with
      | |- context [pose_solver env ?a ?b] => destruct (pose_solver env a b)
      end.
      cbn. rewrite Hframe. cbn. tauto.
    + cbn. rewrite Hframe. cbn. tauto.
Qed.

Lemma mainLoop_inv (env : TickEnv) (st : State) :
  input_inv st -> input_inv (final (mainLoop env st)).
Proof.
  intros [Hh Hm Hr [Ht Hmo Hi]].
  destruct (mainLoop_input_fields env st) as (E1 & E2 & E3 & _ & E5 & E6 & E7 & _).
  split; [ | | | split]; congruence.
Qed.

Lemma reachable_inv (st : State) : reachable st -> input_inv st.
Proof.
  induction 1 as [env tr st Hlib Hmain | key x y st _ IH _ | env st _ IH _
                 | st _ IH | w h st _ IH].
  - exact (main_inv env tr st Hlib Hmain).
  - now apply Keyboard_inv.
  - now apply mainLoop_inv.
  - destruct IH as [? ? ? []]. split; [ | | | split]; assumption.
  - destruct IH as [? ? ? []]. split; [ | | | split]; assumption.
Qed.

(** C5. With the threshold in [0,255]: '-' takes 5 off and '+' or '=' adds
    5, stopping at 0 and at 255, so the threshold stays in [0,255]; '+' (or
    '=') at 255 and '-' at 0 change nothing; from 253, three '+' give 255. *)
Theorem C5_threshold_keys_clamp (st : State) :
  0 <= arLabelingThresh (gARHandle st) <= 255 ->
  let t := arLabelingThresh (gARHandle st) in
  let after (key : ascii) := arLabelingThresh (gARHandle (press key st)) in
  after "-"%char = Z.max 0 (t - 5)
  /\ after "+"%char = Z.min 255 (t + 5)
  /\ after "="%char = Z.min 255 (t + 5)
  /\ 0 <= after "-"%char <= 255
  /\ 0 <= after "+"%char <= 255
  /\ 0 <= after "="%char <= 255
  /\ (t = 255 -> press "+"%char st = st /\ press "="%char st = st)
  /\ (t = 0 -> press "-"%char st = st)
  /\ (t = 253 -> arLabelingThresh (gARHandle (presses 3 "+"%char st)) = 255).
Proof.
  intros Ht t after. subst t after.
  destruct st as [ww wh img sp [dbg th tm ip xs ys pf mn mi]
                    cc tr fd pid gs sh sm dr an ob im mp].
  cbn in Ht. unfold presses, press, Keyboard. cbn.
  assert (Hup : C.int_add th 5 = th + 5).
  { unfold C.int_add, C.int_wrap. rewrite Z.mod_small; lia. }
  assert (Hdown : C.int_add th (-5) = th - 5).
  { unfold C.int_add, C.int_wrap. rewrite Z.mod_small; lia. }
  rewrite Hup, Hdown.
  assert (Hminus : (if (if th - 5 <? 0 then 0 else th - 5) >? 255 then 255
                    else if th - 5 <? 0 then 0 else th - 5) = Z.max 0 (th - 5)).
  { destruct (Z.ltb_spec (th - 5) 0); [cbn; lia|].
    destruct (Z.gtb_spec (th - 5) 255); lia. }
  assert (Hplus : (if (if th + 5 <? 0 then 0 else th + 5) >? 255 then 255
                   else if th + 5 <? 0 then 0 else th + 5) = Z.min 255 (th + 5)).
  { destruct (Z.ltb_spec (th + 5) 0); [lia|].
    destruct (Z.gtb_spec (th + 5) 255); lia. }
  rewrite Hminus, Hplus.
  repeat apply conj; try lia.
  - intros ->. split; reflexivity.
  - intros ->. reflexivity.
  - intros ->. reflexivity.
Qed.

(** At the threshold 253 of a state the program can be in. *)
Lemma C5_threshold_keys_clamp_witness :
  arLabelingThresh
    (gARHandle (presses 3 "+"%char
                  (set_gARHandle (set_arLabelingThresh 253 sample_handle) sample_state)))
  = 255.
Proof.
  apply (C5_threshold_keys_clamp
           (set_gARHandle (set_arLabelingThresh 253 sample_handle) sample_state)).
  - cbn. lia.
  - reflexivity.
Defined.

(** C8. From a state the program can be in: two presses of '?' or of '/',
    of 'm' and of the space bar give back the state; so do four presses of
    'a' and two of 'x', which bring the threshold mode and the
    image-processing mode back; three presses of 'c' bring back the draw
    mode (pixel copy, full-image texture or half-image texture) that
    [printMode] reports. *)
Theorem C8_toggles_and_rings_return (st : State) :
  reachable st ->
  press "?"%char (press "?"%char st) = st
  /\ press "/"%char (press "/"%char st) = st
  /\ press "m"%char (press "m"%char st) = st
  /\ press " "%char (press " "%char st) = st
  /\ presses 4 "a"%char st = st
  /\ arLabelingThreshMode (gARHandle (presses 4 "a"%char st))
     = arLabelingThreshMode (gARHandle st)
  /\ draw_mode_text (presses 3 "c"%char st) = draw_mode_text st
  /\ presses 2 "x"%char st = st
  /\ arImageProcMode (gARHandle (presses 2 "x"%char st))
     = arImageProcMode (gARHandle st).
Proof.
  intros Hreach. destruct (reachable_inv st Hreach) as [Hh Hm Hr [Ht Hmo Hi]].
  assert (Ha : presses 4 "a"%char st = st).
  { destruct st as [ww wh img sp [dbg th tm ip xs ys pf mn mi]
                      cc tr fd pid gs sh sm dr an ob im mp].
    cbn in Hmo. destruct tm; try reflexivity. now elim Hmo. }
  assert (Hx : presses 2 "x"%char st = st).
  { destruct st as [ww wh img sp [dbg th tm ip xs ys pf mn mi]
                      cc tr fd pid gs sh sm dr an ob im mp].
    cbn in Hi. destruct Hi as [->| ->]; reflexivity. }
  rewrite Ha, Hx.
  repeat split.
  - destruct st; cbn in *. destruct Hh as [->| ->]; reflexivity.
  - destruct st; cbn in *. destruct Hh as [->| ->]; reflexivity.
  - destruct st; cbn in *. destruct Hm as [->| ->]; reflexivity.
  - destruct st; cbn in *. destruct Hr as [->| ->]; reflexivity.
  - destruct st as [ww wh img sp hd cc tr fd pid [[dm tx]|] sh sm dr an ob im mp];
      [|reflexivity].
    unfold draw_mode_text, presses, press, Keyboard. cbn.
    destruct (Z.eqb_spec dm AR_DRAW_BY_GL_DRAW_PIXELS) as [->|Hd]; cbn.
    + reflexivity.
    + destruct (Z.eqb_spec tx AR_DRAW_TEXTURE_FULL_IMAGE) as [->|Hx']; cbn.
      * destruct (Z.eqb_spec dm AR_DRAW_BY_GL_DRAW_PIXELS); [contradiction|].
        reflexivity.
      * destruct (Z.eqb_spec dm AR_DRAW_BY_GL_DRAW_PIXELS); [contradiction|].
        destruct (Z.eqb_spec tx AR_DRAW_TEXTURE_FULL_IMAGE); [contradiction|].
        reflexivity.
Qed.

Lemma C8_toggles_and_rings_return_witness :
  presses 4 "a"%char sample_state = sample_state
  /\ draw_mode_text (presses 3 "c"%char sample_state) = draw_mode_text sample_state.
Proof.
  destruct (C8_toggles_and_rings_return sample_state sample_reachable)
    as (_ & _ & _ & _ & Ha & _ & Hc & _).
  split; [exact Ha | exact Hc].
Defined.

(* ================================================================== *)
(** ** The rate gate *)
(* ================================================================== *)

(** Rounding keeps the sign: the result of [binary_round_aux] on a
    mantissa that is not negative is a zero, a finite value or an infinity
    of the sign it was given. *)
Section RoundingSign.

Variables prec emax : Z.

Lemma shr_1_nonneg (mrs : shr_record) : 0 <= shr_m mrs -> 0 <= shr_m (shr_1 mrs).
Proof.
  destruct mrs as [m r s]. destruct m as [|[p|p|]|p]; cbn; lia.
Qed.

Lemma iter_shr_1_nonneg (p : positive) : forall mrs,
  0 <= shr_m mrs -> 0 <= shr_m (iter_pos shr_1 p mrs).
Proof.
  induction p as [p IH|p IH|]; intros mrs H; cbn.
  - apply IH, IH, shr_1_nonneg, H.
  - apply IH, IH, H.
  - apply shr_1_nonneg, H.
Qed.

Lemma shr_fexp_nonneg (m e : Z) (l : location) :
  0 <= m -> 0 <= shr_m (fst (shr_fexp prec emax m e l)).
Proof.
  intros Hm. unfold shr_fexp, shr.
  assert (H0 : 0 <= shr_m (shr_record_of_loc m l)) by (destruct l as [|[]]; exact Hm).
  destruct (fexp prec emax (Zdigits2 m + e) - e); cbn [fst]; trivial.
  apply iter_shr_1_nonneg, H0.
Qed.

Lemma binary_round_aux_sign (s : bool) (m e : Z) (l : location) :
  0 <= m -> has_sign s (binary_round_aux prec emax s m e l).
Proof.
  intros Hm. unfold binary_round_aux.
  pose proof (shr_fexp_nonneg m e l Hm) as H1.
  destruct (shr_fexp prec emax m e l) as [mrs1 e1]. cbn [fst] in H1.
  assert (H2 : 0 <= round_nearest_even (shr_m mrs1) (loc_of_shr_record mrs1)).
  { destruct (loc_of_shr_record mrs1) as [|[]]; cbn; try lia.
    destruct (Z.even (shr_m mrs1)); lia. }
  pose proof (shr_fexp_nonneg _ e1 loc_Exact H2) as H3.
  destruct (shr_fexp prec emax _ e1 loc_Exact) as [mrs2 e2]. cbn [fst] in H3.
  destruct (shr_m mrs2); cbn.
  - reflexivity.
  - destruct (e2 <=? emax - prec); reflexivity.
  - lia.
Qed.

End RoundingSign.

Lemma of_int_negative (z : Z) : z < 0 -> has_sign true (F32.of_int z).
Proof.
  intros Hz. destruct z as [|p|p]; try lia.
  unfold F32.of_int, binary_normalize, binary_round.
  destruct (shl_align _ _ _) as [mz ez].
  apply binary_round_aux_sign. lia.
Qed.

(** A negative difference is rejected. *)
Lemma negative_elapsed_rejected (d : Z) :
  d < 0 -> F32.lt (F32.mul (F32.of_int d) f_0_001) f_0_01 = true.
Proof.
  intros Hd. pose proof (of_int_negative d Hd) as Hs.
  assert (Hm : has_sign true (F32.mul (F32.of_int d) f_0_001)).
  { destruct (F32.of_int d) as [s|s| |s m e]; cbn in Hs; try contradiction;
      subst s; try reflexivity.
    unfold F32.mul, SFmul, f_0_001. apply binary_round_aux_sign. lia. }
  destruct (F32.mul (F32.of_int d) f_0_001) as [s|s| |s m e];
    cbn in Hm; try contradiction; subst s; reflexivity.
Qed.

(** So is a difference of 0 to 9 milliseconds. *)
Lemma short_elapsed_rejected (d : Z) :
  0 <= d < 10 -> F32.lt (F32.mul (F32.of_int d) f_0_001) f_0_01 = true.
Proof.
  intros Hd.
  assert (H : d = 0 \/ d = 1 \/ d = 2 \/ d = 3 \/ d = 4 \/ d = 5 \/ d = 6
              \/ d = 7 \/ d = 8 \/ d = 9) by lia.
  repeat (destruct H as [->|H]; [vm_compute; reflexivity|]).
  subst d. vm_compute. reflexivity.
Qed.

Lemma gate_rejects_short (ms ms_prev0 : Z) :
  C.int_sub ms ms_prev0 < 10 -> gate_rejects ms ms_prev0 = true.
Proof.
  intros H. unfold gate_rejects, s_elapsed_of.
  destruct (Z.lt_ge_cases (C.int_sub ms ms_prev0) 0).
  - now apply negative_elapsed_rejected.
  - apply short_elapsed_rejected. lia.
Qed.

Lemma mainLoop_rejected (env : TickEnv) (st : State) :
  gate_rejects (clock_ms env) (ms_prev st) = true ->
  mainLoop env st = returns st [E_glutGet_ELAPSED_TIME].
Proof.
  intros H. unfold gate_rejects in H. unfold mainLoop. now rewrite H.
Qed.

Lemma mainLoop_accepted_ms_prev (env : TickEnv) (st : State) :
  gate_rejects (clock_ms env) (ms_prev st) = false ->
  ms_prev (final (mainLoop env st)) = clock_ms env.
Proof.
  intros H. unfold gate_rejects in H. unfold mainLoop. rewrite H.
  rewrite DrawObjUpdate_frame.
  destruct (negb (video_image env =? C.NULL)); [|reflexivity].
  match goal with
  | |- context [save_image env ?s] =>
      pose proof (save_image_frame env s) as Hframe;
      destruct (save_image env s) as [st2 tr2]
  end.
  cbn [fst] in Hframe.
  destruct (detect_result env <? 0).
  - cbn. rewrite Hframe. reflexivity.
  - unfold find_pose.
    match goal with
    | |- context [select_marker ?a ?b] =>
        destruct (negb (select_marker a b =? -1))
    end.
    + match goal with
      | |- context [pose_solver env ?a ?b] => destruct (pose_solver env a b)
      end.
      cbn. rewrite Hframe. reflexivity.
    + cbn. rewrite Hframe. reflexivity.
Qed.

Lemma accepted_gap (ms ms_prev0 : Z) :
  gate_rejects ms ms_prev0 = false -> 10 <= C.int_sub ms ms_prev0.
Proof.
  intros H.
  destruct (Z.lt_ge_cases (C.int_sub ms ms_prev0) 10) as [Hlt|Hge]; [|lia].
  apply gate_rejects_short in Hlt. congruence.
Qed.

Lemma accepted_ticks_spaced (envs : list TickEnv) : forall st,
  spaced (ms_prev st) (accepted_ticks envs st).
Proof.
  induction envs as [|env envs IH]; intros st; cbn [accepted_ticks]; [exact I|].
  destruct (gate_rejects (clock_ms env) (ms_prev st)) eqn:Hgate.
  - rewrite (mainLoop_rejected env st Hgate). cbn. apply IH.
  - pose proof (mainLoop_accepted_ms_prev env st Hgate) as Hprev.
    pose proof (accepted_gap _ _ Hgate) as Hgap.
    destruct (exited (mainLoop env st)); cbn; split; trivial.
    rewrite <- Hprev. apply IH.
Qed.

(** C6. When the difference the tick computes between the clock and the
    time of the last accepted tick is less than 10 ms, the tick reads the
    clock and returns: the state is unchanged and nothing else is called.
    An accepted tick records the clock as the new time and comes at least
    10 ms after the last accepted one, so in every run the accepted tick
    times are at least 10 ms apart; with a clock that does not go back (and
    readings that fit an [int]) the difference is the elapsed time. *)
Theorem C6_rate_gate (env : TickEnv) (st : State) :
  (C.int_sub (clock_ms env) (ms_prev st) < 10 ->
   mainLoop env st = returns st [E_glutGet_ELAPSED_TIME])
  /\ (gate_rejects (clock_ms env) (ms_prev st) = false ->
      ms_prev (final (mainLoop env st)) = clock_ms env
      /\ 10 <= C.int_sub (clock_ms env) (ms_prev st))
  /\ (forall envs, spaced (ms_prev st) (accepted_ticks envs st))
  /\ (0 <= ms_prev st <= clock_ms env /\ clock_ms env < 2147483648 ->
      C.int_sub (clock_ms env) (ms_prev st) = clock_ms env - ms_prev st).
Proof.
  repeat apply conj.
  - intros H. apply mainLoop_rejected. now apply gate_rejects_short.
  - intros H. split.
    + now apply mainLoop_accepted_ms_prev.
    + now apply accepted_gap.
  - intros envs. apply accepted_ticks_spaced.
  - intros (H1 & H2). unfold C.int_sub, C.int_wrap.
    rewrite Z.mod_small; lia.
Qed.

Lemma C6_rate_gate_witness :
  mainLoop (sample_tick 5 1 0 0 d_1_0) sample_state
  = returns sample_state [E_glutGet_ELAPSED_TIME]
  /\ 10 <= C.int_sub 1000 0.
Proof.
  destruct (C6_rate_gate (sample_tick 5 1 0 0 d_1_0) sample_state) as (H1 & _).
  destruct (C6_rate_gate (sample_tick 1000 1 0 0 d_1_0) sample_state) as (_ & H2 & _).
  split.
  - apply H1. vm_compute. reflexivity.
  - apply H2. vm_compute. reflexivity.
Defined.

(** C10. A tick that passes the gate and gets no frame records the clock
    and runs the animation step (with rotation on, the angle becomes the
    old angle plus 45 times the elapsed seconds, less 360 if that exceeds
    360), and it does nothing else: it asks for the frame and returns, so
    found, the pose, the capture request, the capture counter, the
    detection count and the frame are as before and no redraw is posted. *)
Theorem C10_tick_without_frame (env : TickEnv) (st : State) :
  gate_rejects (clock_ms env) (ms_prev st) = false ->
  video_image env = C.NULL ->
  let r := mainLoop env st in
  let dt := s_elapsed_of (clock_ms env) (ms_prev st) in
  final r = DrawObjUpdate dt (set_ms_prev (clock_ms env) st)
  /\ trace r = [E_glutGet_ELAPSED_TIME; E_arVideoGetImage]
  /\ exited r = None
  /\ ms_prev (final r) = clock_ms env
  /\ (C.truth (gDrawRotate st) = true ->
      gDrawRotateAngle (final r)
      = let a := F32.add (gDrawRotateAngle st) (F32.mul dt f_45_0) in
        if F32.gt a f_360_0 then F32.sub a f_360_0 else a)
  /\ (C.truth (gDrawRotate st) = false ->
      gDrawRotateAngle (final r) = gDrawRotateAngle st)
  /\ gPatt_found (final r) = gPatt_found st
  /\ gPatt_trans (final r) = gPatt_trans st
  /\ gARTImageSavePlease (final r) = gARTImageSavePlease st
  /\ imageNumber (final r) = imageNumber st
  /\ gCallCountMarkerDetect (final r) = gCallCountMarkerDetect st
  /\ gARTImage (final r) = gARTImage st
  /\ ~ In E_glutPostRedisplay (trace r).
Proof.
  intros Hgate Himg r dt. subst r dt.
  unfold gate_rejects in Hgate. unfold mainLoop.
  rewrite Hgate, Himg. cbn [Z.eqb C.NULL negb final trace exited returns].
  repeat apply conj; try reflexivity;
    try (rewrite DrawObjUpdate_frame; reflexivity).
  - unfold DrawObjUpdate. cbn. intros ->. reflexivity.
  - unfold DrawObjUpdate. cbn. intros ->. reflexivity.
  - cbn. intuition discriminate.
Qed.

Lemma C10_tick_without_frame_witness :
  trace (mainLoop (sample_tick 1000 C.NULL 0 0 d_1_0) sample_state)
  = [E_glutGet_ELAPSED_TIME; E_arVideoGetImage]
  /\ gDrawRotateAngle (final (mainLoop (sample_tick 1000 C.NULL 0 0 d_1_0) sample_state))
     = F32.of_int 45.
Proof.
  destruct (C10_tick_without_frame (sample_tick 1000 C.NULL 0 0 d_1_0) sample_state)
    as (_ & Htr & _ & _ & Hrot & _).
  - vm_compute. reflexivity.
  - reflexivity.
  - split; [exact Htr|].
    rewrite Hrot by reflexivity. vm_compute. reflexivity.
Defined.

(* ================================================================== *)
(** ** Frame capture *)
(* ================================================================== *)

Lemma in_zrange (k : nat) : forall z n,
  z <= n < z + Z.of_nat k -> In n (zrange k z).
Proof.
  induction k as [|k IH]; intros z n Hn; [lia|].
  cbn [zrange]. destruct (Z.eq_dec z n) as [->|Hne]; [now left|].
  right. apply IH. lia.
Qed.

(** Up to 9999 the field [%04d] is four digits that spell the counter
    (checked for each of the 10000 values). *)
Lemma sprintf_04d_spells (n : Z) :
  0 <= n < 10000 -> field_value (sprintf_04d n) = Some n.
Proof.
  intros Hn.
  assert (Hall : forallb spells_counter (zrange (Z.to_nat 10000) 0) = true)
    by (vm_compute; reflexivity).
  rewrite forallb_forall in Hall.
  specialize (Hall n (in_zrange (Z.to_nat 10000) 0 n ltac:(lia))).
  unfold spells_counter in Hall.
  destruct (field_value (sprintf_04d n)) as [v|]; [|discriminate Hall].
  f_equal. now apply Z.eqb_eq.
Qed.

Lemma sprintf_image_fits (n : Z) :
  0 <= n < 10000 -> fits_imageNumberText (sprintf_image n) = true.
Proof.
  intros Hn. pose proof (sprintf_04d_spells n Hn) as H.
  unfold field_value in H.
  destruct (Nat.eqb_spec (String.length (sprintf_04d n)) 4) as [E|]; [|discriminate].
  unfold fits_imageNumberText, sprintf_image.
  destruct (sprintf_04d n) as [|c0 [|c1 [|c2 [|c3 [|c4 s]]]]]; try discriminate.
  reflexivity.
Qed.

(** No tick lowers the capture counter (below [INT_MAX], where the
    increment does not wrap). *)
Lemma mainLoop_counter (env : TickEnv) (st : State) :
  - 2147483648 <= imageNumber st < 2147483647 ->
  imageNumber st <= imageNumber (final (mainLoop env st)).
Proof.
  intros Hn.
  assert (Hinc : C.int_add (imageNumber st) 1 = imageNumber st + 1).
  { unfold C.int_add, C.int_wrap. rewrite Z.mod_small; lia. }
  unfold mainLoop.
  destruct (F32.lt _ _); [cbn; lia|].
  rewrite DrawObjUpdate_frame.
  set (a := gDrawRotateAngle (DrawObjUpdate _ _)).
  destruct (negb (video_image env =? C.NULL)); [|cbn; lia].
  unfold save_image. cbn.
  destruct (C.truth (gARTImageSavePlease st)).
  - destruct (detect_result env <? 0); [cbn; lia|].
    unfold find_pose.
    match goal with
    | |- context [select_marker ?x ?y] => destruct (negb (select_marker x y =? -1))
    end; [|cbn; lia].
    match goal with
    | |- context [pose_solver env ?x ?y] => destruct (pose_solver env x y)
    end.
    cbn. lia.
  - destruct (detect_result env <? 0); [cbn; lia|].
    unfold find_pose.
    match goal with
    | |- context [select_marker ?x ?y] => destruct (negb (select_marker x y =? -1))
    end; [|cbn; lia].
    match goal with
    | |- context [pose_solver env ?x ?y] => destruct (pose_solver env x y)
    end.
    cbn. lia.
Qed.

(** A capture with the counter [n] below 10000.  On a tick that passes the
    gate and gets a frame while a capture is requested: the tick calls the JPEG
    writer on the frame with quality 75 and the name [image-NNNN.jpg], whose
    four digits spell [n] (the text fits its buffer); when the writer fails
    that is logged; either way the detector is called next, the request is
    cleared and the counter is [n + 1]; and unless the detector fails the
    tick returns.  No tick lowers the counter, and [main] starts it at 0. *)
Lemma capture_below_10000 (env : TickEnv) (st : State) :
  gate_rejects (clock_ms env) (ms_prev st) = false ->
  video_image env <> C.NULL ->
  C.truth (gARTImageSavePlease st) = true ->
  0 <= imageNumber st < 10000 ->
  let r := mainLoop env st in
  let h := gARHandle st in
  (exists field,
      sprintf_image (imageNumber st)
      = String.append "image-" (String.append field ".jpg")
      /\ field_value field = Some (imageNumber st))
  /\ fits_imageNumberText (sprintf_image (imageNumber st)) = true
  /\ (exists rest,
        trace r
        = [E_glutGet_ELAPSED_TIME; E_arVideoGetImage;
           E_arVideoSaveImageJPEG (xsize h) (ysize h) (arPixelFormat h)
             (video_image env) (sprintf_image (imageNumber st)) 75 0]
          ++ (if save_result env <? 0
              then [E_ARLOGe "Error saving video image."] else [])
          ++ [E_arDetectMarker (video_image env)] ++ rest)
  /\ gARTImageSavePlease (final r) = C.FALSE
  /\ imageNumber (final r) = imageNumber st + 1
  /\ (0 <= detect_result env -> exited r = None)
  /\ (forall env' st',
        0 <= imageNumber st' < 10000 ->
        imageNumber st' <= imageNumber (final (mainLoop env' st')))
  /\ (forall senv tr0 st0, main senv = (tr0, Running st0) -> imageNumber st0 = 0).
Proof.
  intros Hgate Himg Hsave Hn r h. subst r h.
  assert (Hinc : C.int_add (imageNumber st) 1 = imageNumber st + 1).
  { unfold C.int_add, C.int_wrap. rewrite Z.mod_small; lia. }
  repeat apply conj.
  - exists (sprintf_04d (imageNumber st)). split; [reflexivity|].
    now apply sprintf_04d_spells.
  - now apply sprintf_image_fits.
  - unfold gate_rejects in Hgate. unfold mainLoop. rewrite Hgate.
    destruct (Z.eqb_spec (video_image env) C.NULL) as [E|_]; [contradiction|].
    cbn [negb]. rewrite DrawObjUpdate_frame.
    set (a := gDrawRotateAngle (DrawObjUpdate _ _)).
    unfold save_image. cbn. rewrite Hsave.
    destruct (detect_result env <? 0).
    + exists [E_exit (-1)]. cbn.
      destruct (save_result env <? 0); reflexivity.
    + unfold find_pose.
      match goal with
      | |- context [select_marker ?x ?y] => destruct (negb (select_marker x y =? -1))
      end.
      * match goal with
        | |- context [pose_solver env ?x ?y] => destruct (pose_solver env x y)
        end.
        eexists. cbn. destruct (save_result env <? 0); reflexivity.
      * eexists. cbn. destruct (save_result env <? 0); reflexivity.
  - unfold gate_rejects in Hgate. unfold mainLoop. rewrite Hgate.
    destruct (Z.eqb_spec (video_image env) C.NULL) as [E|_]; [contradiction|].
    cbn [negb]. rewrite DrawObjUpdate_frame.
    set (a := gDrawRotateAngle (DrawObjUpdate _ _)).
    unfold save_image. cbn. rewrite Hsave.
    destruct (detect_result env <? 0); [reflexivity|].
    unfold find_pose.
    match goal with
    | |- context [select_marker ?x ?y] => destruct (negb (select_marker x y =? -1))
    end; [|reflexivity].
    match goal with
    | |- context [pose_solver env ?x ?y] => destruct (pose_solver env x y)
    end.
    reflexivity.
  - unfold gate_rejects in Hgate. unfold mainLoop. rewrite Hgate.
    destruct (Z.eqb_spec (video_image env) C.NULL) as [E|_]; [contradiction|].
    cbn [negb]. rewrite DrawObjUpdate_frame.
    set (a := gDrawRotateAngle (DrawObjUpdate _ _)).
    unfold save_image. cbn. rewrite Hsave.
    destruct (detect_result env <? 0); [exact Hinc|].
    unfold find_pose.
    match goal with
    | |- context [select_marker ?x ?y] => destruct (negb (select_marker x y =? -1))
    end; [|exact Hinc].
    match goal with
    | |- context [pose_solver env ?x ?y] => destruct (pose_solver env x y)
    end.
    exact Hinc.
  - intros Hdet. unfold gate_rejects in Hgate. unfold mainLoop. rewrite Hgate.
    destruct (Z.eqb_spec (video_image env) C.NULL) as [E|_]; [contradiction|].
    cbn [negb].
    destruct (save_image env _) as [st2 tr2].
    destruct (Z.ltb_spec (detect_result env) 0); [lia|].
    destruct (find_pose env _). reflexivity.
  - intros env' st' Hn'. apply mainLoop_counter. lia.
  - intros senv tr0 st0. unfold main.
    destruct (glmReadOBJ_result senv =? C.NULL); [discriminate|].
    destruct (setupCamera senv) as [trc [hc|]]; [|discriminate].
    destruct (setupMarker senv) as [trm [p|]]; [|discriminate].
    destruct (arglSetupForCurrentContext_result senv); [|discriminate].
    intros [= _ <-]. reflexivity.
Qed.

(* ================================================================== *)
(** ** Selection and pose: instances *)
(* ================================================================== *)

(** Confidences 0.4 and 0.7 for the registered identity: the second
    hypothesis is taken. *)
Lemma C1_selects_first_of_maximum_confidence_witness :
  gPatt_found (final (mainLoop (sample_tick 1000 1 0 0 d_1_0) sample_state)) = C.TRUE
  /\ exists k,
       matches (detected_handle (sample_tick 1000 1 0 0 d_1_0) sample_state) 0 k
       /\ gPatt_trans (final (mainLoop (sample_tick 1000 1 0 0 d_1_0) sample_state))
          = snd (sample_solver d_1_0
                   (markerInfo_at
                      (detected_handle (sample_tick 1000 1 0 0 d_1_0) sample_state) k)
                   gPatt_width).
Proof.
  assert (Htick : tick_tracks (sample_tick 1000 1 0 0 d_1_0) sample_state).
  { repeat split.
    - vm_compute. intros E. discriminate E.
    - cbn. lia. }
  assert (Hnan : forall m, In m (detected (sample_tick 1000 1 0 0 d_1_0)) ->
                           is_nan (marker_cf m) = false).
  { intros m [<-|[<-|[<-|[]]]]; reflexivity. }
  destruct (C1_selects_first_of_maximum_confidence _ _ Htick Hnan) as [Hsome _].
  destruct Hsome as (k & _ & Mk & _ & _ & _ & Htrans & Hfound & _).
  - exists 0. split; [cbn; lia | reflexivity].
  - split; [exact Hfound|]. exists k. split; [exact Mk | exact Htrans].
Defined.





(* ================================================================== *)
(** ** Marker width, mesh scale and mesh placement *)
(* ================================================================== *)

Lemma mesh_scale_value :
  F32.of_float (F64.mul d_1_5 (F64.of_float markerSize)) = F32.of_int 60.
Proof. vm_compute. reflexivity. Qed.

Lemma mesh_offset_value :
  F32.of_float (F64.div (F64.of_float markerSize) d_2_0) = F32.of_int 20.
Proof. vm_compute. reflexivity. Qed.

Lemma DrawObj_calls (st : State) :
  DrawObj st
  = [ E_glPushMatrix;
      E_glRotatef (gDrawRotateAngle st) f_zero f_zero f_one;
      E_glTranslatef f_zero f_zero (F32.of_int 20);
      E_glmDraw_SMOOTH_MATERIAL;
      E_glPopMatrix ].
Proof. unfold DrawObj. now rewrite mesh_offset_value. Qed.

Lemma mainLoop_solver_width (env : TickEnv) (st : State) (w : ARdouble) :
  In w (solver_widths (trace (mainLoop env st))) -> w = gPatt_width.
Proof.
  unfold mainLoop.
  destruct (F32.lt _ _); [cbn; tauto|].
  destruct (negb (video_image env =? C.NULL)); [|cbn; tauto].
  match goal with
  | |- context [save_image env ?s] =>
      assert (Hsave : solver_widths (snd (save_image env s)) = []);
      [ unfold save_image; destruct (C.truth _); [|reflexivity];
        destruct (save_result env <? 0); reflexivity
      | destruct (save_image env s) as [st2 tr2] ]
  end.
  cbn [snd] in Hsave.
  unfold solver_widths in *.
  destruct (detect_result env <? 0).
  - cbn. rewrite !flat_map_app, Hsave. cbn. tauto.
  - unfold find_pose.
    match goal with
    | |- context [select_marker ?x ?y] => destruct (negb (select_marker x y =? -1))
    end.
    + match goal with
      | |- context [pose_solver env ?x ?y] => destruct (pose_solver env x y)
      end.
      cbn. rewrite !flat_map_app, Hsave. cbn. intuition.
    + cbn. rewrite !flat_map_app, Hsave. cbn. tauto.
Qed.

(** C3, as the program has it. The marker width given to the pose solver
    is 80.0. The mesh is scaled by 1.5 times [markerSize], which is 40.0:
    by 60. When found is true, [Display] installs the view of the pose and
    then pushes the matrix, rotates by the angle about the Z axis,
    translates by [markerSize / 2] = 20 along Z, draws the mesh and pops. *)
Theorem C3_marker_width_and_mesh_size :
  gPatt_width = F64.of_int 80
  /\ markerSize = F32.of_int 40
  /\ (forall env st w,
        In w (solver_widths (trace (mainLoop env st))) -> w = F64.of_int 80)
  /\ (forall senv tr st,
        main senv = (tr, Running st) ->
        exists rest,
          tr = [E_glmReadOBJ "Data/bunny.obj"; E_glmUnitize;
                E_glmScale (F32.of_int 60)] ++ rest)
  /\ (forall st,
        C.truth (gPatt_found st) = true ->
        exists before after,
          trace (Display st)
          = before
            ++ [ E_arglCameraViewRH (gPatt_trans st) VIEW_SCALEFACTOR;
                 E_glLoadMatrix_view;
                 E_glPushMatrix;
                 E_glRotatef (gDrawRotateAngle st) f_zero f_zero f_one;
                 E_glTranslatef f_zero f_zero (F32.of_int 20);
                 E_glmDraw_SMOOTH_MATERIAL;
                 E_glPopMatrix ]
            ++ after
          /\ glTranslatef_args before = []
          /\ glTranslatef_args after = []).
Proof.
  repeat apply conj.
  - reflexivity.
  - reflexivity.
  - intros env st w H. exact (mainLoop_solver_width env st w H).
  - intros senv tr st. unfold main.
    destruct (glmReadOBJ_result senv =? C.NULL); [discriminate|].
    rewrite mesh_scale_value.
    destruct (setupCamera senv) as [trc [hc|]]; [|discriminate].
    destruct (setupMarker senv) as [trm [p|]]; [|discriminate].
    destruct (arglSetupForCurrentContext_result senv); [|discriminate].
    intros [= <- _]. eexists. reflexivity.
  - intros st Hfound. unfold Display.
    replace (gPatt_found (set_gARTImage C.NULL st)) with (gPatt_found st)
      by reflexivity.
    rewrite Hfound. rewrite DrawObj_calls.
    exists [ E_glDrawBuffer_BACK; E_glClear; E_arglDispImage (gARTImage st) d_1_0;
             E_arglCameraFrustumRH VIEW_DISTANCE_MIN VIEW_DISTANCE_MAX;
             E_glMatrixMode_PROJECTION; E_glLoadMatrix_frustum;
             E_glMatrixMode_MODELVIEW; E_glLoadIdentity;
             E_glEnable_LIGHTING; E_glEnable_LIGHT0; E_glEnable_DEPTH_TEST ].
    eexists. split; [|split].
    + cbn. reflexivity.
    + reflexivity.
    + destruct (C.truth (gShowMode st)); destruct (C.truth (gShowHelp st));
        try destruct (gShowHelp st =? 1); reflexivity.
Qed.

Lemma C3_marker_width_and_mesh_size_witness :
  glTranslatef_args (trace (Display found_state))
  = [(f_zero, f_zero, F32.of_int 20)].
Proof.
  destruct C3_marker_width_and_mesh_size as (_ & _ & _ & _ & Hdraw).
  destruct (Hdraw found_state) as (before & after & Htr & Hb & Ha).
  - reflexivity.
  - rewrite Htr. unfold glTranslatef_args in *.
    rewrite !flat_map_app, Hb, Ha. reflexivity.
Defined.

(** C3 as stated fails: the mesh is scaled by 60, not by 120, and the draw
    step translates by 20, not by 40. *)
Lemma C3_scale_is_60_offset_is_20 :
  glmScale_args (fst (main sample_start)) = [F32.of_int 60]
  /\ F32.of_int 60 <> F32.of_int 120
  /\ C.truth (gPatt_found found_state) = true
  /\ glTranslatef_args (trace (Display found_state))
     = [(f_zero, f_zero, F32.of_int 20)]
  /\ F32.of_int 20 <> F32.of_int 40.
Proof.
  repeat apply conj.
  - vm_compute. reflexivity.
  - vm_compute. intros E. discriminate E.
  - reflexivity.
  - vm_compute. reflexivity.
  - vm_compute. intros E. discriminate E.
Qed.

(* ================================================================== *)
(** ** The rotation angle *)
(* ================================================================== *)

Lemma idle_ticks_reachable (n : nat) (dt : Z) : forall st,
  reachable st -> reachable (idle_ticks n dt st).
Proof.
  induction n as [|n IH]; intros st Hst; cbn [idle_ticks]; trivial.
  apply IH. apply reach_mainLoop; trivial.
  unfold mainLoop. destruct (F32.lt _ _); reflexivity.
Qed.

(** C4, evaluated. From the state after startup (angle 0, rotation on)
    and with no frame available: one tick 1.000 s after startup leaves the
    angle at 45; eight ticks 1.000 s apart leave it at 360, which is not
    below 360; one tick 20 s after startup leaves it at 540.  These states
    are reachable. *)
Theorem C4_angle_leaves_range :
  gDrawRotateAngle (idle_ticks 1 1000 sample_state) = F32.of_int 45
  /\ reachable (idle_ticks 8 1000 sample_state)
  /\ gDrawRotateAngle (idle_ticks 8 1000 sample_state) = F32.of_int 360
  /\ angle_in_range (gDrawRotateAngle (idle_ticks 8 1000 sample_state)) = false
  /\ reachable (idle_ticks 1 20000 sample_state)
  /\ gDrawRotateAngle (idle_ticks 1 20000 sample_state) = F32.of_int 540
  /\ angle_in_range (gDrawRotateAngle (idle_ticks 1 20000 sample_state)) = false.
Proof.
  repeat apply conj.
  - vm_compute. reflexivity.
  - apply idle_ticks_reachable, sample_reachable.
  - vm_compute. reflexivity.
  - vm_compute. reflexivity.
  - apply idle_ticks_reachable, sample_reachable.
  - vm_compute. reflexivity.
  - vm_compute. reflexivity.
Qed.

(* ================================================================== *)
(** ** Termination and teardown *)
(* ================================================================== *)

(** C9, evaluated. When the detector fails on a tick that passed the gate
    and got a frame, the tick calls [exit(-1)], which the parent sees as
    status 255, and none of the calls of [cleanup] is made before it.  The
    quit key, in contrast, makes them all before [exit(0)]; so does [main]
    when the pattern cannot be loaded, but not when the camera setup
    fails. *)
Theorem C9_detector_failure_skips_teardown (env : TickEnv) (st : State) :
  gate_rejects (clock_ms env) (ms_prev st) = false ->
  video_image env <> C.NULL ->
  detect_result env < 0 ->
  let r := mainLoop env st in
  exited r = Some (-1)
  /\ C.exit_status (-1) = 255
  /\ (forall e, In e (cleanup_calls (gObj st)) -> ~ In e (trace r))
  /\ trace (Keyboard "q"%char 0 0 st) = cleanup_calls (gObj st) ++ [E_exit 0]
  /\ (exists before,
        fst (main start_marker_fails) = before ++ cleanup_calls 1 ++ [E_exit (-1)])
  /\ snd (main start_camera_fails) = Exited (-1)
  /\ (forall e, In e (cleanup_calls 1) -> ~ In e (fst (main start_camera_fails))).
Proof.
  intros Hgate Himg Hdet r. subst r.
  unfold gate_rejects in Hgate.
  repeat apply conj.
  - unfold mainLoop. rewrite Hgate.
    destruct (Z.eqb_spec (video_image env) C.NULL) as [E|_]; [contradiction|].
    cbn [negb]. destruct (save_image env _) as [st2 tr2].
    destruct (Z.ltb_spec (detect_result env) 0); [reflexivity|lia].
  - reflexivity.
  - intros e He. unfold mainLoop. rewrite Hgate.
    destruct (Z.eqb_spec (video_image env) C.NULL) as [E|_]; [contradiction|].
    cbn [negb].
    match goal with
    | |- context [save_image env ?s] =>
        assert (Hsave : forall e', In e' (snd (save_image env s)) ->
                  (exists a b c d n q f, e' = E_arVideoSaveImageJPEG a b c d n q f)
                  \/ (exists msg, e' = E_ARLOGe msg));
        [ unfold save_image; destruct (C.truth _); [|cbn; tauto];
          destruct (save_result env <? 0); cbn;
          intros e' [<-|H]; try (destruct H as [<-|[]]); eauto 10;
          try contradiction
        | destruct (save_image env s) as [st2 tr2] ]
    end.
    cbn [snd] in Hsave.
    destruct (Z.ltb_spec (detect_result env) 0); [|lia].
    cbn. intros Hin.
    assert (Hcases : e = E_glutGet_ELAPSED_TIME \/ e = E_arVideoGetImage
                     \/ In e tr2 \/ (exists i, e = E_arDetectMarker i)
                     \/ e = E_exit (-1)).
    { destruct Hin as [<-|[<-|Hin]]; auto.
      apply in_app_or in Hin. destruct Hin as [Hin|Hin].
      - apply in_app_or in Hin. destruct Hin as [Hin|[<-|[]]]; eauto 10.
      - destruct Hin as [<-|[]]. auto 10. }
    unfold cleanup_calls in He. apply in_app_or in He.
    assert (Hclean : In e [E_arglCleanup; E_arPattDetach; E_arPattDeleteHandle;
                            E_arVideoCapStop; E_ar3DDeleteHandle; E_arDeleteHandle;
                            E_arParamLTFree; E_arVideoClose; E_glmDelete]).
    { destruct He as [He|He].
      - cbn in He |- *. intuition.
      - destruct (gObj st =? C.NULL); cbn in He |- *; intuition. }
    clear He Hin.
    destruct Hcases as [E|[E|[Hin|[[i E]|E]]]];
      try (rewrite E in Hclean; cbn in Hclean; intuition discriminate).
    destruct (Hsave e Hin) as [(a & b & c & d & n & q & f & E)|(msg & E)];
      rewrite E in Hclean; cbn in Hclean; intuition discriminate.
  - reflexivity.
  - exists (firstn 20 (fst (main start_marker_fails))). vm_compute. reflexivity.
  - reflexivity.
  - intros e He Hin. vm_compute in He, Hin.
    intuition (subst; discriminate).
Qed.

Lemma C9_detector_failure_skips_teardown_witness :
  trace (mainLoop (sample_tick 1000 1 0 (-1) d_1_0) sample_state)
  = [E_glutGet_ELAPSED_TIME; E_arVideoGetImage; E_arDetectMarker 1; E_exit (-1)]
  /\ exited (mainLoop (sample_tick 1000 1 0 (-1) d_1_0) sample_state) = Some (-1).
Proof.
  destruct (C9_detector_failure_skips_teardown
              (sample_tick 1000 1 0 (-1) d_1_0) sample_state)
    as (Hexit & _).
  - vm_compute. reflexivity.
  - intros E. discriminate E.
  - cbn. lia.
  - split; [vm_compute; reflexivity | exact Hexit].
Defined.

(* ================================================================== *)
(** ** The rate gate, exactly *)
(* ================================================================== *)

(** Rounding does not take a value below the power of two under it: with
    the input in the normal range, the result is not zero and its exponent
    is bounded from below. *)
Lemma digits2_pos_size (p : positive) : digits2_pos p = Pos.size p.
Proof. induction p; cbn; congruence. Qed.

Lemma Zdigits2_log2 (z : Z) : 0 < z -> Zdigits2 z = Z.log2 z + 1.
Proof.
  destruct z as [|p|p]; try lia. intros _. cbn [Zdigits2].
  rewrite digits2_pos_size. destruct p; cbn; lia.
Qed.

Lemma Zdigits2_nonneg (z : Z) : 0 <= Zdigits2 z.
Proof. destruct z; cbn; lia. Qed.

Lemma Zdigits2_pos (z : Z) : 0 < z -> 0 < Zdigits2 z.
Proof. destruct z; cbn; lia. Qed.

Lemma Zdigits2_mono (a b : Z) : 0 <= a <= b -> Zdigits2 a <= Zdigits2 b.
Proof.
  intros [Ha Hab]. destruct (Z.eq_dec a 0) as [->|Hn].
  - apply Zdigits2_nonneg.
  - rewrite !Zdigits2_log2 by lia.
    pose proof (Z.log2_le_mono a b Hab). lia.
Qed.

Lemma Zdigits2_mul (a b : Z) :
  0 < a -> 0 < b -> Zdigits2 a + Zdigits2 b - 1 <= Zdigits2 (a * b).
Proof.
  intros Ha Hb. rewrite !Zdigits2_log2 by nia.
  pose proof (Z.log2_mul_below a b Ha Hb). lia.
Qed.

Lemma shr_1_digits (mrs : shr_record) :
  0 <= shr_m mrs ->
  Zdigits2 (shr_m (shr_1 mrs)) = Z.max 0 (Zdigits2 (shr_m mrs) - 1).
Proof.
  destruct mrs as [m r s]. cbn [shr_m]. intros H.
  destruct m as [|[p|p|]|p]; cbn [shr_1 shr_m Zdigits2 digits2_pos]; lia.
Qed.

Lemma iter_shr_1_digits (p : positive) : forall mrs,
  0 <= shr_m mrs ->
  Zdigits2 (shr_m (iter_pos shr_1 p mrs))
  = Z.max 0 (Zdigits2 (shr_m mrs) - Zpos p).
Proof.
  induction p as [p IH|p IH|]; intros mrs H; cbn [iter_pos].
  - rewrite IH by (apply iter_shr_1_nonneg, shr_1_nonneg, H).
    rewrite IH by (apply shr_1_nonneg, H).
    rewrite shr_1_digits by exact H. lia.
  - rewrite IH by (apply iter_shr_1_nonneg, H).
    rewrite IH by exact H. lia.
  - apply shr_1_digits, H.
Qed.

Section Round.
Variables prec emax : Z.
Hypothesis prec_pos : 0 < prec.

Lemma shr_fexp_facts (m e : Z) (l : location) :
  0 < m ->
  emin prec emax + prec <= Zdigits2 m + e ->
  let r := shr_fexp prec emax m e l in
  0 < shr_m (fst r)
  /\ Zdigits2 m + e <= Zdigits2 (shr_m (fst r)) + snd r
  /\ Zdigits2 m + e - prec <= snd r
  /\ Zdigits2 (shr_m (fst r)) <= Z.max prec (Zdigits2 m) .
Proof.
  intros Hm Hrange. unfold shr_fexp, shr, fexp.
  assert (H0 : shr_m (shr_record_of_loc m l) = m) by (destruct l as [|[]]; reflexivity).
  pose proof (Zdigits2_pos m Hm) as Hd.
  rewrite Z.max_l by lia.
  destruct (Zdigits2 m + e - prec - e) as [|n|n] eqn:En; cbn [fst snd].
  - rewrite H0. repeat split; lia.
  - assert (Hdig := iter_shr_1_digits n (shr_record_of_loc m l)).
    rewrite H0 in Hdig. specialize (Hdig ltac:(lia)).
    assert (Hnn := iter_shr_1_nonneg n (shr_record_of_loc m l)).
    rewrite H0 in Hnn. specialize (Hnn ltac:(lia)).
    assert (Hpos : 0 < Zdigits2 (shr_m (iter_pos shr_1 n (shr_record_of_loc m l)))) by lia.
    repeat split; try lia.
    destruct (shr_m (iter_pos shr_1 n (shr_record_of_loc m l))); cbn in *; lia.
  - rewrite H0. repeat split; lia.
Qed.

End Round.

Section Round2.
Variables prec emax : Z.
Hypothesis prec_pos : 0 < prec.

Lemma binary_round_aux_normal (s : bool) (mx ex : Z) (l : location) :
  0 < mx ->
  emin prec emax + prec <= Zdigits2 mx + ex ->
  rounds_up_from prec s (Zdigits2 mx + ex) (binary_round_aux prec emax s mx ex l).
Proof.
  intros Hm Hrange. unfold binary_round_aux.
  pose proof (shr_fexp_facts prec emax prec_pos mx ex l Hm Hrange) as H1.
  destruct (shr_fexp prec emax mx ex l) as [mrs1 e1]. cbn [fst snd] in H1.
  destruct H1 as (Hpos1 & Hd1 & He1 & _).
  set (m1 := round_nearest_even (shr_m mrs1) (loc_of_shr_record mrs1)).
  assert (Hr : shr_m mrs1 <= m1).
  { subst m1. destruct (loc_of_shr_record mrs1) as [|[]]; cbn; try lia.
    destruct (Z.even (shr_m mrs1)); lia. }
  assert (Hdm : Zdigits2 (shr_m mrs1) <= Zdigits2 m1)
    by (apply Zdigits2_mono; lia).
  assert (Hm1 : 0 < m1) by lia.
  assert (Hrange1 : emin prec emax + prec <= Zdigits2 m1 + e1) by lia.
  pose proof (shr_fexp_facts prec emax prec_pos m1 e1 loc_Exact Hm1 Hrange1) as H2.
  destruct (shr_fexp prec emax m1 e1 loc_Exact) as [mrs2 e2]. cbn [fst snd] in H2.
  destruct H2 as (Hpos2 & Hd2 & He2 & _).
  destruct (shr_m mrs2) as [|m|m]; try lia.
  destruct (e2 <=? emax - prec); cbn [rounds_up_from].
  - repeat split; lia.
  - reflexivity.
Qed.

End Round2.

Lemma iter_xO_digits (k p : positive) :
  Zpos (digits2_pos (Pos.iter xO p k)) = Zpos (digits2_pos p) + Zpos k.
Proof.
  induction k as [|k IH] using Pos.peano_ind.
  - cbn. lia.
  - rewrite Pos.iter_succ. cbn [digits2_pos]. lia.
Qed.

Lemma of_int_positive (d : Z) :
  0 < d -> rounds_up_from F32.prec false (Zdigits2 d) (F32.of_int d).
Proof.
  intros Hd. destruct d as [|p|p]; try lia.
  unfold F32.of_int, binary_normalize, binary_round.
  assert (Hal : let r := shl_align p 0 (fexp F32.prec F32.emax (Zpos (digits2_pos p) + 0)) in
                Zdigits2 (Zpos (fst r)) + snd r = Zdigits2 (Zpos p)).
  { unfold shl_align.
    destruct (fexp F32.prec F32.emax (Zpos (digits2_pos p) + 0) - 0) as [|k|k] eqn:E;
      cbn [fst snd Zdigits2]; try lia.
    rewrite iter_xO_digits. lia. }
  destruct (shl_align _ _ _) as [mz ez]. cbn [fst snd] in Hal.
  rewrite <- Hal.
  apply binary_round_aux_normal; try (unfold F32.prec; lia).
  rewrite Hal. pose proof (Zdigits2_pos (Zpos p) ltac:(lia)).
  unfold emin, F32.emax, F32.prec. lia.
Qed.

Lemma long_elapsed_accepted (d : Z) :
  16 <= d -> F32.lt (F32.mul (F32.of_int d) f_0_001) f_0_01 = false.
Proof.
  intros Hd.
  pose proof (of_int_positive d ltac:(lia)) as Hof.
  assert (H5 : 5 <= Zdigits2 d).
  { change 5 with (Zdigits2 16). apply Zdigits2_mono. lia. }
  destruct (F32.of_int d) as [s|s| |s m e]; cbn [rounds_up_from] in Hof;
    try contradiction.
  - subst s. reflexivity.
  - destruct Hof as (-> & Hdig & He).
    unfold F32.mul, SFmul, f_0_001. cbn [xorb].
    pose proof (binary_round_aux_normal F32.prec F32.emax ltac:(unfold F32.prec; lia)
                  false (Zpos (m * 8589935)) (e + -33) loc_Exact ltac:(lia)) as Hr.
    pose proof (Zdigits2_mul (Zpos m) 8589935 ltac:(lia) ltac:(lia)) as Hmul.
    change (Zdigits2 8589935) with 24 in Hmul.
    change (Zpos m * 8589935) with (Zpos (m * 8589935)) in Hmul.
    specialize (Hr ltac:(unfold emin, F32.emax, F32.prec; lia)).
    destruct (binary_round_aux F32.prec F32.emax false (Zpos (m * 8589935)) (e + -33) loc_Exact)
      as [s'|s'| |s' m' e']; cbn [rounds_up_from] in Hr; try contradiction.
    + subst s'. reflexivity.
    + destruct Hr as (-> & _ & He').
      unfold F32.lt, SFltb, SFcompare, f_0_01.
      assert (Hc : (e' ?= -30) = Gt) by (apply Z.compare_gt_iff; unfold F32.prec in *; lia).
      now rewrite Hc.
Qed.

Lemma gate_exact (ms ms_prev0 : Z) :
  gate_rejects ms ms_prev0 = (C.int_sub ms ms_prev0 <? 10).
Proof.
  destruct (Z.ltb_spec (C.int_sub ms ms_prev0) 10) as [Hlt|Hge].
  - now apply gate_rejects_short.
  - unfold gate_rejects, s_elapsed_of.
    destruct (Z.lt_ge_cases (C.int_sub ms ms_prev0) 16) as [Hs|Hl].
    + assert (H : C.int_sub ms ms_prev0 = 10 \/ C.int_sub ms ms_prev0 = 11
                  \/ C.int_sub ms ms_prev0 = 12 \/ C.int_sub ms ms_prev0 = 13
                  \/ C.int_sub ms ms_prev0 = 14 \/ C.int_sub ms ms_prev0 = 15) by lia.
      destruct H as [->|[->|[->|[->|[->| ->]]]]]; vm_compute; reflexivity.
    + now apply long_elapsed_accepted.
Qed.

(** X1. The rate gate is exact: a tick is rejected exactly when the [int]
    difference between the clock and the time of the last accepted tick is
    below 10; every tick at 10 ms or more is accepted, records the clock
    and goes on to ask for a frame. *)
Theorem X1_gate_is_exact (env : TickEnv) (st : State) :
  gate_rejects (clock_ms env) (ms_prev st)
  = (C.int_sub (clock_ms env) (ms_prev st) <? 10)
  /\ (10 <= C.int_sub (clock_ms env) (ms_prev st) ->
      ms_prev (final (mainLoop env st)) = clock_ms env
      /\ exists rest,
           trace (mainLoop env st)
           = E_glutGet_ELAPSED_TIME :: E_arVideoGetImage :: rest).
Proof.
  split; [apply gate_exact|].
  intros Hd.
  assert (Hgate : gate_rejects (clock_ms env) (ms_prev st) = false).
  { rewrite gate_exact. apply Z.ltb_ge. exact Hd. }
  split; [now apply mainLoop_accepted_ms_prev|].
  unfold gate_rejects in Hgate. unfold mainLoop. rewrite Hgate.
  destruct (negb (video_image env =? C.NULL)); [|eexists; reflexivity].
  destruct (save_image env _) as [st2 tr2].
  destruct (detect_result env <? 0); [eexists; reflexivity|].
  destruct (find_pose env _) as [st3 tr3]. eexists. reflexivity.
Qed.

Lemma X1_gate_is_exact_witness :
  ms_prev (final (mainLoop (sample_tick 10 C.NULL 0 0 d_1_0) sample_state)) = 10.
Proof.
  destruct (X1_gate_is_exact (sample_tick 10 C.NULL 0 0 d_1_0) sample_state)
    as (_ & H).
  destruct H as (Hprev & _).
  - vm_compute. intros E. discriminate E.
  - exact Hprev.
Defined.

(** Selection never leaves the array, whatever the confidences. *)
Lemma select_loop_in_range (h : ARHandle) (patt_id : Z) (n : nat) : forall j k,
  0 <= j ->
  (k = -1 \/ (0 <= k < j /\ matches h patt_id k)) ->
  let k' := select_loop h patt_id n j k in
  k' = -1 \/ (0 <= k' < j + Z.of_nat n /\ matches h patt_id k').
Proof.
  induction n as [|n IH]; intros j k Hj Hk; cbn [select_loop].
  - replace (j + Z.of_nat 0) with j by lia. exact Hk.
  - replace (j + Z.of_nat (S n)) with (j + 1 + Z.of_nat n) by lia.
    apply IH; [lia|].
    destruct (Z.eqb_spec (marker_id (markerInfo_at h j)) patt_id) as [Hm|Hm].
    + destruct (k =? -1).
      * right. split; [lia | exact Hm].
      * destruct (F64.gt _ _).
        -- right. split; [lia | exact Hm].
        -- destruct Hk as [Hk|[Hk Mk]]; [now left | right; split; [lia|exact Mk]].
    + destruct Hk as [Hk|[Hk Mk]]; [now left | right; split; [lia|exact Mk]].
Qed.

(** X2. Whatever the detector returns (any confidences, NaN included),
    the index the selection loop ends with is -1 or the index of one of the
    returned hypotheses, one that carries the registered identity; so the
    pose solver is only ever called on a returned hypothesis of the
    registered identity. *)
Theorem X2_selected_index_in_bounds (env : TickEnv) (st : State) :
  let h := detected_handle env st in
  let k := select_marker h (gPatt_id st) in
  (k = -1 \/ (0 <= k < Z.of_nat (List.length (detected env))
              /\ In (markerInfo_at h k) (detected env)
              /\ marker_id (markerInfo_at h k) = gPatt_id st))
  /\ (forall m w, In (E_arGetTransMatSquare m w) (trace (mainLoop env st)) ->
      In m (detected env) /\ marker_id m = gPatt_id st).
Proof.
  intros h k.
  assert (Hk : k = -1 \/ (0 <= k < Z.of_nat (List.length (detected env))
                          /\ matches h (gPatt_id st) k)).
  { subst k h. unfold select_marker.
    pose proof (select_loop_in_range (detected_handle env st) (gPatt_id st)
                  (Z.to_nat (marker_num (detected_handle env st))) 0 (-1)
                  ltac:(lia) ltac:(now left)) as H.
    cbv zeta in H. rewrite detected_handle_num in *.
    rewrite Nat2Z.id in *. exact H. }
  assert (Hin : 0 <= k < Z.of_nat (List.length (detected env)) ->
                In (markerInfo_at h k) (detected env)).
  { intros Hr. unfold markerInfo_at.
    destruct (Z.ltb_spec k 0); [lia|]. cbn. apply nth_In. lia. }
  split.
  - destruct Hk as [Hk|[Hr Mk]]; [now left|]. right. auto.
  - intros m w. unfold mainLoop.
    destruct (F32.lt _ _); [cbn; intuition discriminate|].
    destruct (negb (video_image env =? C.NULL)); [|cbn; intuition discriminate].
    match goal with
    | |- context [save_image env ?s] =>
        pose proof (save_image_no_solver env s m w) as Hsave;
        pose proof (save_image_frame env s) as Hframe;
        destruct (save_image env s) as [st2 tr2]
    end.
    cbn [fst snd] in Hsave, Hframe.
    assert (Hh : gARHandle st2 = gARHandle st).
    { rewrite Hframe. cbn. rewrite DrawObjUpdate_frame. reflexivity. }
    assert (Hp : gPatt_id st2 = gPatt_id st).
    { rewrite Hframe. cbn. rewrite DrawObjUpdate_frame. reflexivity. }
    destruct (detect_result env <? 0).
    + cbn. intros Hin'.
      destruct Hin' as [E|[E|Hin']]; try discriminate.
      apply in_app_or in Hin'. destruct Hin' as [Hin'|[E|[]]]; [|discriminate].
      apply in_app_or in Hin'. destruct Hin' as [Hin'|[E|[]]]; [|discriminate].
      contradiction.
    + unfold find_pose. cbn [gARHandle gPatt_id set_gARHandle set_gCallCountMarkerDetect].
      rewrite Hh, Hp. fold (detected_handle env st). fold h. fold k.
      destruct (Z.eqb_spec k (-1)) as [E|Hne]; cbn [negb].
      * cbn. intros Hin'.
        destruct Hin' as [E'|[E'|Hin']]; try discriminate.
        apply in_app_or in Hin'. destruct Hin' as [Hin'|Hin'].
        -- apply in_app_or in Hin'. destruct Hin' as [Hin'|[E'|[]]]; [|discriminate].
           contradiction.
        -- cbn in Hin'. intuition discriminate.
      * destruct (pose_solver env (markerInfo_at h k) gPatt_width) as [e t].
        cbn. intros Hin'.
        destruct Hin' as [E'|[E'|Hin']]; try discriminate.
        apply in_app_or in Hin'. destruct Hin' as [Hin'|Hin'].
        -- apply in_app_or in Hin'. destruct Hin' as [Hin'|[E'|[]]]; [|discriminate].
           contradiction.
        -- cbn in Hin'. destruct Hin' as [E'|[E'|[]]]; try discriminate.
           injection E' as <- _.
           destruct Hk as [Hk|[Hr Mk]]; [contradiction|]. auto.
Qed.


(* ================================================================== *)
(** ** A tick that gets a frame *)
(* ================================================================== *)

(** The fields a tick leaves behind when it passed the gate and got a
    frame. *)
Lemma mainLoop_frame_tick (env : TickEnv) (st : State) :
  gate_rejects (clock_ms env) (ms_prev st) = false ->
  video_image env <> C.NULL ->
  let r := mainLoop env st in
  let k := select_marker (detected_handle env st) (gPatt_id st) in
  let m := markerInfo_at (detected_handle env st) k in
  gARTImage (final r) = video_image env
  /\ gCallCountMarkerDetect (final r)
     = C.long_wrap (gCallCountMarkerDetect st + 1)
  /\ gARHandle (final r) = detected_handle env st
  /\ detected_frames (trace r) = [video_image env]
  /\ saved_names (trace r)
     = (if C.truth (gARTImageSavePlease st)
        then [sprintf_image (imageNumber st)] else [])
  /\ gARTImageSavePlease (final r)
     = (if C.truth (gARTImageSavePlease st) then C.FALSE
        else gARTImageSavePlease st)
  /\ (detect_result env < 0 \/ k = -1 -> gPatt_trans (final r) = gPatt_trans st)
  /\ (detect_result env < 0 -> gPatt_found (final r) = gPatt_found st)
  /\ (0 <= detect_result env -> k = -1 -> gPatt_found (final r) = C.FALSE)
  /\ (0 <= detect_result env -> k <> -1 ->
      gPatt_found (final r) = C.TRUE
      /\ gPatt_trans (final r) = snd (pose_solver env m gPatt_width)).
Proof.
  intros Hgate Himg r k m. subst r.
  unfold gate_rejects in Hgate. unfold mainLoop. rewrite Hgate.
  destruct (Z.eqb_spec (video_image env) C.NULL) as [E|_]; [contradiction|].
  cbn [negb]. rewrite DrawObjUpdate_frame.
  set (a := gDrawRotateAngle (DrawObjUpdate _ _)).
  unfold save_image.
  cbn [gARTImageSavePlease set_gARTImage set_gDrawRotateAngle set_ms_prev].
  destruct (C.truth (gARTImageSavePlease st)).
  - destruct (Z.ltb_spec (detect_result env) 0) as [Hd|Hd].
    + cbn. destruct (save_result env <? 0); cbn;
        repeat apply conj; try reflexivity; try (intros; lia).
    + unfold find_pose.
      cbn [gARHandle gPatt_id set_gARHandle set_gCallCountMarkerDetect
           set_gARTImageSavePlease set_imageNumber set_gARTImage
           set_gDrawRotateAngle set_ms_prev].
      fold (detected_handle env st). fold k.
      destruct (Z.eqb_spec k (-1)) as [Hk|Hk]; cbn [negb].
      * cbn. destruct (save_result env <? 0); cbn;
          repeat apply conj; try reflexivity; try (intros; lia);
          try (intros; contradiction).
      * fold m. destruct (pose_solver env m gPatt_width) as [e t].
        cbn. destruct (save_result env <? 0); cbn;
          repeat apply conj; try reflexivity; try (intros; lia);
          try (intros; contradiction); try (intros; split; reflexivity);
          intros [H|H]; (lia || contradiction).
  - destruct (Z.ltb_spec (detect_result env) 0) as [Hd|Hd].
    + cbn. repeat apply conj; try reflexivity; try (intros; lia).
    + unfold find_pose.
      cbn [gARHandle gPatt_id set_gARHandle set_gCallCountMarkerDetect
           set_gARTImageSavePlease set_imageNumber set_gARTImage
           set_gDrawRotateAngle set_ms_prev].
      fold (detected_handle env st). fold k.
      destruct (Z.eqb_spec k (-1)) as [Hk|Hk]; cbn [negb].
      * cbn. repeat apply conj; try reflexivity; try (intros; lia);
          try (intros; contradiction).
      * fold m. destruct (pose_solver env m gPatt_width) as [e t].
        cbn. repeat apply conj; try reflexivity; try (intros; lia);
          try (intros; contradiction); try (intros; split; reflexivity);
          intros [H|H]; (lia || contradiction).
Qed.

(** What [Display] shows, read off its trace. *)
Lemma Display_observed (st : State) :
  final (Display st) = set_gARTImage C.NULL st
  /\ exited (Display st) = None
  /\ blitted_frames (trace (Display st)) = [gARTImage st]
  /\ installed_views (trace (Display st))
     = (if C.truth (gPatt_found st) then [gPatt_trans st] else [])
  /\ calls E_glmDraw_SMOOTH_MATERIAL (trace (Display st))
     = (if C.truth (gPatt_found st) then 1%nat else 0%nat)
  /\ calls E_glPushMatrix (trace (Display st))
     = calls E_glPopMatrix (trace (Display st))
  /\ calls E_printMode (trace (Display st))
     = (if C.truth (gShowMode st) then 1%nat else 0%nat)
  /\ calls E_printHelpKeys (trace (Display st))
     = (if gShowHelp st =? 1 then 1%nat else 0%nat)
  /\ calls E_glutSwapBuffers (trace (Display st)) = 1%nat
  /\ last (trace (Display st)) E_glClear = E_glutSwapBuffers.
Proof.
  unfold Display, calls, blitted_frames, installed_views.
  cbn [final trace exited returns gPatt_found gPatt_trans gShowMode gShowHelp
       windowWidth windowHeight set_gARTImage].
  rewrite DrawObj_calls.
  destruct (Z.eqb_spec (gShowHelp st) 1) as [E|E].
  - rewrite E. destruct (C.truth (gPatt_found st)), (C.truth (gShowMode st));
      cbn; repeat apply conj; reflexivity.
  - destruct (C.truth (gPatt_found st)), (C.truth (gShowMode st)),
      (C.truth (gShowHelp st)); cbn; repeat apply conj; reflexivity.
Qed.

(** X3 (mainLoop, Display).  A frame is drawn once.  A tick that passes
    the gate and gets a frame stores the frame pointer and hands that same
    frame to the detector; the next [Display] blits exactly that frame
    with arglDispImage and clears the pointer, so a second [Display]
    without a new tick blits NULL. *)
Theorem X3_frame_is_blitted_once (env : TickEnv) (st : State) :
  gate_rejects (clock_ms env) (ms_prev st) = false ->
  video_image env <> C.NULL ->
  let st1 := final (mainLoop env st) in
  gARTImage st1 = video_image env
  /\ detected_frames (trace (mainLoop env st)) = [video_image env]
  /\ blitted_frames (trace (Display st1)) = [video_image env]
  /\ gARTImage (final (Display st1)) = C.NULL
  /\ blitted_frames (trace (Display (final (Display st1)))) = [C.NULL].
Proof.
  intros Hgate Himg st1.
  destruct (mainLoop_frame_tick env st Hgate Himg) as (Himage & _ & _ & Hdet & _).
  fold st1 in Himage.
  destruct (Display_observed st1) as (Hfin & _ & Hblit & _).
  destruct (Display_observed (final (Display st1))) as (_ & _ & Hblit2 & _).
  repeat apply conj; trivial.
  rewrite Hblit, Himage. reflexivity.
Qed.

Lemma X3_frame_is_blitted_once_witness :
  blitted_frames
    (trace (Display (final (mainLoop (sample_tick 1000 7 0 0 d_1_0) sample_state))))
  = [7].
Proof.
  destruct (X3_frame_is_blitted_once (sample_tick 1000 7 0 0 d_1_0) sample_state)
    as (_ & _ & H & _).
  - vm_compute. reflexivity.
  - intros E. discriminate E.
  - exact H.
Defined.

(** X4 (mainLoop, Display).  The view installed by [Display] is the one
    the tick found.  After a tick that reaches selection, [Display] loads
    the transform the solver returned for the selected marker and draws
    the mesh once when a marker matched; when none matched it loads no
    view, draws no mesh, and the stored transform is the old one. *)
Theorem X4_draw_follows_selection (env : TickEnv) (st : State) :
  tick_tracks env st ->
  let st1 := final (mainLoop env st) in
  let k := select_marker (detected_handle env st) (gPatt_id st) in
  let m := markerInfo_at (detected_handle env st) k in
  (k <> -1 ->
   installed_views (trace (Display st1)) = [snd (pose_solver env m gPatt_width)]
   /\ calls E_glmDraw_SMOOTH_MATERIAL (trace (Display st1)) = 1%nat)
  /\ (k = -1 ->
      installed_views (trace (Display st1)) = []
      /\ calls E_glmDraw_SMOOTH_MATERIAL (trace (Display st1)) = 0%nat
      /\ gPatt_trans st1 = gPatt_trans st).
Proof.
  intros (Hgate & Himg & Hdet) st1 k m.
  destruct (mainLoop_frame_tick env st Hgate Himg)
    as (_ & _ & _ & _ & _ & _ & Hkeep & _ & Hnone & Hsome).
  fold st1 k m in Hkeep, Hnone, Hsome.
  destruct (Display_observed st1) as (_ & _ & _ & Hview & Hdraw & _).
  split.
  - intros Hk. destruct (Hsome Hdet Hk) as (Hf & Ht).
    rewrite Hview, Hdraw, Hf, Ht. split; reflexivity.
  - intros Hk. rewrite Hview, Hdraw, (Hnone Hdet Hk).
    repeat split. apply Hkeep. now right.
Qed.

Lemma X4_draw_follows_selection_witness :
  calls E_glmDraw_SMOOTH_MATERIAL
    (trace (Display (final (mainLoop (sample_tick 1000 1 0 0 d_1_0) sample_state))))
  = 1%nat.
Proof.
  destruct (X4_draw_follows_selection (sample_tick 1000 1 0 0 d_1_0) sample_state)
    as (Hsome & _).
  - repeat split.
    + vm_compute. intros E. discriminate E.
    + cbn. lia.
  - destruct Hsome as (_ & H).
    + vm_compute. intros E. discriminate E.
    + exact H.
Defined.

(** [mainLoop] leaves the detection count alone unless it got a frame. *)
Lemma mainLoop_count_kept (env : TickEnv) (st : State) :
  gate_rejects (clock_ms env) (ms_prev st) = true \/ video_image env = C.NULL ->
  gCallCountMarkerDetect (final (mainLoop env st)) = gCallCountMarkerDetect st.
Proof.
  intros H. unfold mainLoop.
  destruct (F32.lt _ _) eqn:Hg; [reflexivity|].
  destruct H as [H|H]; [unfold gate_rejects in H; congruence|].
  rewrite H. cbn [Z.eqb C.NULL negb]. rewrite DrawObjUpdate_frame. reflexivity.
Qed.

(** X5 (mainLoop, Keyboard).  The detection counter counts frames.  It
    goes up by one on a tick that got a frame (below LONG_MAX), is left
    alone by a tick that was gated or got no frame, and the key c (or C)
    sets it to 0 after reading the timer and logging the frame rate. *)
Theorem X5_detection_count (env : TickEnv) (st : State) :
  (gate_rejects (clock_ms env) (ms_prev st) = false ->
   video_image env <> C.NULL ->
   0 <= gCallCountMarkerDetect st < 9223372036854775807 ->
   gCallCountMarkerDetect (final (mainLoop env st)) = gCallCountMarkerDetect st + 1)
  /\ (gate_rejects (clock_ms env) (ms_prev st) = true \/ video_image env = C.NULL ->
      gCallCountMarkerDetect (final (mainLoop env st)) = gCallCountMarkerDetect st)
  /\ gCallCountMarkerDetect (press "c"%char st) = 0
  /\ gCallCountMarkerDetect (press "C"%char st) = 0
  /\ trace (Keyboard "c"%char 0 0 st)
     = [E_arUtilTimer; E_ARLOGe "*** Camera - %f (frame/sec)"; E_arUtilTimerReset].
Proof.
  repeat apply conj; try reflexivity.
  - intros Hgate Himg Hc.
    destruct (mainLoop_frame_tick env st Hgate Himg) as (_ & Hcount & _).
    rewrite Hcount. unfold C.long_wrap. rewrite Z.mod_small; lia.
  - apply mainLoop_count_kept.
Qed.

Lemma X5_detection_count_witness :
  gCallCountMarkerDetect (final (mainLoop (sample_tick 1000 1 0 0 d_1_0) sample_state))
  = 1.
Proof.
  destruct (X5_detection_count (sample_tick 1000 1 0 0 d_1_0) sample_state)
    as (H & _).
  apply H.
  - vm_compute. reflexivity.
  - intros E. discriminate E.
  - cbn. lia.
Defined.

(** X6 (mainLoop).  The only way [mainLoop] ends the process: it exits
    with code c exactly when c = -1, the gate passed, a frame arrived and
    arDetectMarker returned a negative value. *)
Theorem X6_mainLoop_exits_only_on_detector_failure
  (env : TickEnv) (st : State) (c : Z) :
  exited (mainLoop env st) = Some c
  <-> (c = -1
       /\ gate_rejects (clock_ms env) (ms_prev st) = false
       /\ video_image env <> C.NULL
       /\ detect_result env < 0).
Proof.
  unfold gate_rejects, mainLoop.
  destruct (F32.lt _ _).
  - cbn. split; [discriminate | intros (_ & H & _); discriminate].
  - destruct (Z.eqb_spec (video_image env) C.NULL) as [E|E]; cbn [negb].
    + cbn. split; [discriminate | intros (_ & _ & H & _); contradiction].
    + destruct (save_image env _) as [st2 tr2].
      destruct (Z.ltb_spec (detect_result env) 0) as [Hd|Hd].
      * cbn. split.
        -- intros [= <-]. auto.
        -- intros (-> & _). reflexivity.
      * destruct (find_pose env _) as [st3 tr3]. cbn.
        split; [discriminate | intros (_ & _ & _ & H); lia].
Qed.


(* ================================================================== *)
(** ** More on the input surface *)
(* ================================================================== *)

Ltac in_list :=
  cbn [In]; repeat (first [left; reflexivity | right]).

(** X7 (Keyboard).  A key that is not one of the bound keys does
    nothing: the state is unchanged, no library call is made and the
    process goes on. *)
Theorem X7_unbound_keys_are_ignored (key : ascii) (x y : Z) (st : State) :
  ~ In key bound_keys -> Keyboard key x y st = returns st [].
Proof.
  intros Hkey.
  destruct key as [[] [] [] [] [] [] [] []];
    try reflexivity; exfalso; apply Hkey; unfold bound_keys; in_list.
Qed.

Lemma X7_unbound_keys_are_ignored_witness :
  Keyboard "z"%char 10 20 sample_state = returns sample_state [].
Proof.
  apply X7_unbound_keys_are_ignored.
  unfold bound_keys. cbn [In]. intros H.
  repeat (destruct H as [H|H]; [discriminate H|]). exact H.
Defined.

(** X8 (Keyboard).  Every binding ignores the case of a letter and the
    mouse position: the upper-case form of a key acts exactly as the key
    itself, and x and y play no part. *)
Theorem X8_letters_are_case_insensitive (key : ascii) (x y : Z) (st : State) :
  Keyboard (toupper key) x y st = Keyboard key x y st
  /\ Keyboard key x y st = Keyboard key 0 0 st.
Proof.
  split; [|reflexivity].
  destruct key as [[] [] [] [] [] [] [] []]; reflexivity.
Qed.

(** X9 (Keyboard, cleanup).  Only Esc, Q and q end the process, with
    code 0, after the whole of [cleanup]; the trace is then the calls of
    [cleanup] followed by exit(0), with the argl settings and the mesh
    pointer cleared.  Every other key returns, and makes none of the
    calls of [cleanup]. *)
Theorem X9_only_quit_keys_exit (key : ascii) (x y : Z) (st : State) (c : Z) :
  (exited (Keyboard key x y st) = Some c <-> c = 0 /\ In key quit_keys)
  /\ (In key quit_keys ->
      trace (Keyboard key x y st) = cleanup_calls (gObj st) ++ [E_exit 0]
      /\ gArglSettings (final (Keyboard key x y st)) = None
      /\ gObj (final (Keyboard key x y st)) = C.NULL)
  /\ (~ In key quit_keys ->
      exited (Keyboard key x y st) = None
      /\ forall e, In e (cleanup_calls (gObj st)) ->
                   ~ In e (trace (Keyboard key x y st))).
Proof.
  assert (Hquit : In key quit_keys ->
                  Keyboard key x y st
                  = exits (final (cleanup st)) (trace (cleanup st)) 0).
  { unfold quit_keys. cbn [In].
    intros [<-|[<-|[<-|[]]]]; reflexivity. }
  assert (Hother : ~ In key quit_keys ->
                   exited (Keyboard key x y st) = None
                   /\ (trace (Keyboard key x y st) = []
                       \/ trace (Keyboard key x y st)
                          = [E_arUtilTimer; E_ARLOGe "*** Camera - %f (frame/sec)";
                             E_arUtilTimerReset])).
  { intros Hkey.
    destruct key as [[] [] [] [] [] [] [] []];
      try (split; [reflexivity | first [left; reflexivity | right; reflexivity]]);
      try (unfold Keyboard; cbn;
           split; [reflexivity | first [left; reflexivity | right; reflexivity]]);
      exfalso; apply Hkey; unfold quit_keys; in_list. }
  repeat apply conj.
  - intros Hex. destruct (in_dec ascii_dec key quit_keys) as [Hin|Hnin].
    + rewrite (Hquit Hin) in Hex. cbn in Hex. injection Hex as <-. auto.
    + destruct (Hother Hnin) as [Hnone _]. congruence.
  - intros (-> & Hin). rewrite (Hquit Hin). reflexivity.
  - intros Hin. rewrite (Hquit Hin). cbn [trace exits cleanup returns final].
    repeat apply conj; try reflexivity.
    + destruct (gObj st =? C.NULL); reflexivity.
    + destruct (Z.eqb_spec (gObj st) C.NULL) as [E|E]; [exact E | reflexivity].
  - intros Hnin. destruct (Hother Hnin) as [Hnone Htr]. split; [exact Hnone|].
    intros e He Hin. destruct Htr as [Htr|Htr]; rewrite Htr in Hin; [exact Hin|].
    unfold cleanup_calls in He. apply in_app_or in He.
    destruct He as [He|He].
    + cbn in He, Hin. intuition (subst; discriminate).
    + destruct (gObj st =? C.NULL); cbn in He, Hin; intuition (subst; discriminate).
Qed.

Lemma X9_only_quit_keys_exit_witness :
  trace (Keyboard "q"%char 0 0 sample_state) = cleanup_calls 1 ++ [E_exit 0].
Proof.
  destruct (X9_only_quit_keys_exit "q"%char 0 0 sample_state 0) as (_ & H & _).
  destruct H as (Htr & _).
  - unfold quit_keys. cbn [In]. right. right. left. reflexivity.
  - exact Htr.
Defined.

(** X10 (cleanup).  [cleanup] releases the mesh once only.  It deletes
    the mesh when the pointer is not NULL and clears the pointer and the
    argl settings; a second [cleanup] leaves the state as it is and does
    not call glmDelete, but calls the eight library teardown functions
    again (among them arPattDeleteHandle and arVideoClose), which are not
    guarded. *)
Theorem X10_cleanup_twice (st : State) :
  let st1 := final (cleanup st) in
  final (cleanup st1) = st1
  /\ calls E_glmDelete (trace (cleanup st))
     = (if gObj st =? C.NULL then 0%nat else 1%nat)
  /\ calls E_glmDelete (trace (cleanup st1)) = 0%nat
  /\ calls E_arPattDeleteHandle (trace (cleanup st1)) = 1%nat
  /\ calls E_arVideoClose (trace (cleanup st1)) = 1%nat
  /\ gObj st1 = C.NULL
  /\ gArglSettings st1 = None
  /\ exists rest,
       trace (cleanup st)
       = [ E_arglCleanup; E_arPattDetach; E_arPattDeleteHandle; E_arVideoCapStop;
           E_ar3DDeleteHandle; E_arDeleteHandle; E_arParamLTFree; E_arVideoClose ]
         ++ rest.
Proof.
  unfold cleanup, cleanup_calls, calls. cbn [final trace returns].
  replace (gObj (set_gArglSettings None st)) with (gObj st) by reflexivity.
  destruct (Z.eqb_spec (gObj st) C.NULL) as [Hobj|Hobj].
  - replace (gObj (set_gArglSettings None st)) with (gObj st) by reflexivity.
    destruct (Z.eqb_spec (gObj st) C.NULL) as [_|Hn]; [|contradiction].
    repeat apply conj; try reflexivity; trivial.
    eexists. reflexivity.
  - cbn. repeat apply conj; try reflexivity.
    eexists. reflexivity.
Qed.

(** X11 (Keyboard).  No key touches the tracking state: found flag,
    pose, pattern id, frame pointer, capture counter, gate clock, rotation
    angle, window size and the detected markers are as before; the
    detection counter changes only for c and C. *)
Theorem X11_Keyboard_leaves_tracking_alone (key : ascii) (x y : Z) (st : State) :
  let st' := final (Keyboard key x y st) in
  gPatt_found st' = gPatt_found st
  /\ gPatt_trans st' = gPatt_trans st
  /\ gPatt_id st' = gPatt_id st
  /\ gARTImage st' = gARTImage st
  /\ imageNumber st' = imageNumber st
  /\ ms_prev st' = ms_prev st
  /\ gDrawRotateAngle st' = gDrawRotateAngle st
  /\ windowWidth st' = windowWidth st
  /\ windowHeight st' = windowHeight st
  /\ markerInfo (gARHandle st') = markerInfo (gARHandle st)
  /\ marker_num (gARHandle st') = marker_num (gARHandle st)
  /\ (key <> "c"%char -> key <> "C"%char ->
      gCallCountMarkerDetect st' = gCallCountMarkerDetect st).
Proof.
  destruct st as [ww wh img sp [dbg th tm ip xs ys pf mn mi]
                    cc tr fd pid gs sh sm dr an ob im mp].
  destruct key as [[] [] [] [] [] [] [] []]; cbn;
    try (repeat apply conj; try reflexivity; intros; congruence).
  all: try (destruct (ob =? C.NULL); cbn;
            repeat apply conj; try reflexivity; intros; congruence).
  all: try (destruct (C.truth (C.lnot sp)); cbn;
            repeat apply conj; try reflexivity; intros; congruence).
  all: try (destruct (arglDrawModeGet gs =? AR_DRAW_BY_GL_DRAW_PIXELS);
            try destruct (arglTexmapModeGet gs =? AR_DRAW_TEXTURE_FULL_IMAGE);
            cbn; repeat apply conj; try reflexivity; intros; congruence).
Qed.

(** X12 (Keyboard, mainLoop).  One capture per request.  After the key s
    (or S) the capture flag is set and further presses of s change
    nothing; the next tick with a frame saves one image under the name of
    the current counter and clears the flag, and the tick after that
    saves nothing. *)
Theorem X12_capture_request (env env2 : TickEnv) (st : State) :
  gate_rejects (clock_ms env) (ms_prev (press "s"%char st)) = false ->
  video_image env <> C.NULL ->
  let st1 := press "s"%char st in
  let r := mainLoop env st1 in
  C.truth (gARTImageSavePlease st1) = true
  /\ press "s"%char st1 = st1
  /\ press "S"%char st = st1
  /\ saved_names (trace r) = [sprintf_image (imageNumber st)]
  /\ gARTImageSavePlease (final r) = C.FALSE
  /\ saved_names (trace (mainLoop env2 (final r))) = [].
Proof.
  intros Hgate Himg st1 r.
  assert (Hflag : C.truth (gARTImageSavePlease st1) = true).
  { subst st1. unfold press, Keyboard. cbn. unfold C.truth, C.lnot.
    destruct (Z.eqb_spec (gARTImageSavePlease st) 0) as [E|E]; cbn.
    - reflexivity.
    - destruct (Z.eqb_spec (gARTImageSavePlease st) 0); [contradiction|reflexivity]. }
  assert (Hnum : imageNumber st1 = imageNumber st).
  { subst st1. unfold press, Keyboard. cbn.
    destruct (C.truth (C.lnot (gARTImageSavePlease st))); reflexivity. }
  destruct (mainLoop_frame_tick env st1 Hgate Himg)
    as (_ & _ & _ & _ & Hnames & Hclear & _).
  fold r in Hnames, Hclear. rewrite Hflag in Hnames, Hclear. rewrite Hnum in Hnames.
  repeat apply conj; trivial.
  - subst st1. unfold press, Keyboard. cbn. unfold C.truth, C.lnot.
    destruct (Z.eqb_spec (gARTImageSavePlease st) 0) as [E|E]; cbn.
    + destruct st; reflexivity.
    + destruct (Z.eqb_spec (gARTImageSavePlease st) 0); [contradiction|]. cbn.
      destruct (Z.eqb_spec (gARTImageSavePlease st) 0); [contradiction|]. cbn.
      reflexivity.
  - unfold mainLoop.
    destruct (F32.lt _ _); [reflexivity|].
    rewrite DrawObjUpdate_frame.
    destruct (negb (video_image env2 =? C.NULL)); [|reflexivity].
    unfold save_image.
    cbn [gARTImageSavePlease set_gARTImage set_gDrawRotateAngle set_ms_prev].
    rewrite Hclear. cbn [C.truth C.FALSE Z.eqb negb].
    destruct (detect_result env2 <? 0); [reflexivity|].
    unfold find_pose.
    match goal with
    | |- context [select_marker ?a ?b] => destruct (negb (select_marker a b =? -1))
    end; [|reflexivity].
    match goal with
    | |- context [pose_solver env2 ?a ?b] => destruct (pose_solver env2 a b)
    end.
    reflexivity.
Qed.

Lemma X12_capture_request_witness :
  saved_names
    (trace (mainLoop (sample_tick 1000 1 0 0 d_1_0) (press "s"%char sample_state)))
  = ["image-0000.jpg"%string].
Proof.
  destruct (X12_capture_request (sample_tick 1000 1 0 0 d_1_0)
              (sample_tick 2000 1 0 0 d_1_0) sample_state)
    as (_ & _ & _ & H & _).
  - vm_compute. reflexivity.
  - intros E. discriminate E.
  - exact H.
Defined.

(** X13 (Keyboard).  The key c steps the draw mode as printMode words
    it: GL_DRAW_PIXELS to texture mapping, to texture mapping (even field
    only), and back to GL_DRAW_PIXELS.  C acts as c; leaving pixel copy
    sets the texmap mode to the full image. *)
Theorem X13_draw_mode_order (st : State) :
  gArglSettings st <> None ->
  draw_mode_text (press "c"%char st) = next_draw_mode_text (draw_mode_text st)
  /\ press "C"%char st = press "c"%char st
  /\ (draw_mode_text st = "GL_DRAW_PIXELS"%string ->
      gArglSettings (press "c"%char st)
      = Some {| arglDrawMode := AR_DRAW_BY_TEXTURE_MAPPING;
                arglTexmapMode := AR_DRAW_TEXTURE_FULL_IMAGE |}).
Proof.
  intros Hs.
  destruct st as [ww wh img sp hd cc tr fd pid [[dm tx]|] sh sm dr an ob im mp];
    [|now elim Hs].
  unfold draw_mode_text, press, Keyboard. cbn.
  destruct (Z.eqb_spec dm AR_DRAW_BY_GL_DRAW_PIXELS) as [->|Hd]; cbn.
  - repeat apply conj; reflexivity.
  - destruct (Z.eqb_spec tx AR_DRAW_TEXTURE_FULL_IMAGE) as [->|Hx]; cbn.
    + destruct (Z.eqb_spec dm AR_DRAW_BY_GL_DRAW_PIXELS); [contradiction|].
      repeat apply conj; try reflexivity. discriminate.
    + repeat apply conj; try reflexivity. discriminate.
Qed.

Lemma X13_draw_mode_order_witness :
  draw_mode_text (press "c"%char sample_state)
  = "texture mapping (even field only)"%string.
Proof.
  destruct (X13_draw_mode_order sample_state) as (H & _).
  - discriminate.
  - exact H.
Defined.

(** X14 (Reshape, Display).  [Reshape] records the new size, clears and
    sets the viewport to it, and the next [Display] sets up its
    orthographic overlay with exactly that size.  Only the last [Reshape]
    counts, and it changes nothing but the two size fields. *)
Theorem X14_reshape_then_display (w h w2 h2 : Z) (st : State) :
  let st1 := final (Reshape w h st) in
  windowWidth st1 = w /\ windowHeight st1 = h
  /\ trace (Reshape w h st) = [E_glClear; E_glViewport 0 0 w h]
  /\ ortho_sizes (trace (Display st1)) = [(w, h)]
  /\ ortho_sizes (trace (Display st)) = [(windowWidth st, windowHeight st)]
  /\ final (Reshape w2 h2 st1) = final (Reshape w2 h2 st)
  /\ set_windowSize (windowWidth st) (windowHeight st) st1 = st.
Proof.
  assert (Hortho : forall s,
            ortho_sizes (trace (Display s)) = [(windowWidth s, windowHeight s)]).
  { intros s. unfold Display, ortho_sizes.
    cbn [final trace exited returns gPatt_found gPatt_trans gShowMode gShowHelp
         windowWidth windowHeight set_gARTImage].
    rewrite DrawObj_calls.
    destruct (C.truth (gPatt_found s)), (C.truth (gShowMode s)),
      (C.truth (gShowHelp s)), (gShowHelp s =? 1); reflexivity. }
  cbv zeta. repeat apply conj; try reflexivity.
  - rewrite Hortho. reflexivity.
  - apply Hortho.
  - destruct st; reflexivity.
Qed.


(* ================================================================== *)
(** ** Invariants of the running program *)
(* ================================================================== *)

Lemma main_live (env : StartEnv) (tr : list Event) (st : State) :
  main env = (tr, Running st) -> live_inv st.
Proof.
  unfold main.
  destruct (Z.eqb_spec (glmReadOBJ_result env) C.NULL) as [E|Hobj]; [discriminate|].
  assert (Hdbg : forall trc h, setupCamera env = (trc, Some h) -> arDebug h = 0).
  { intros trc h. unfold setupCamera, bind, unless, call, ret, fail.
    repeat match goal with
      | |- context [if ?c then _ else _] => destruct c; cbn; try discriminate
      end;
    destruct (arCreateHandle_result env) as [h0|]; cbn; try discriminate;
    repeat match goal with
      | |- context [if ?c then _ else _] => destruct c; cbn; try discriminate
      end;
    intros [= _ <-]; reflexivity. }
  destruct (setupCamera env) as [trc [h|]] eqn:Ec; [|discriminate].
  destruct (setupMarker env) as [trm [p|]]; [|discriminate].
  destruct (arglSetupForCurrentContext_result env); [|discriminate].
  intros [= _ <-].
  split; cbn; try (now left); try discriminate; trivial.
  rewrite (Hdbg trc h eq_refl). now left.
Qed.

Ltac live_goal :=
  split; cbn; try assumption; try discriminate;
  try (flag_cases; cbv; auto; fail).

Lemma Keyboard_live (key : ascii) (x y : Z) (st : State) :
  live_inv st -> exited (Keyboard key x y st) = None ->
  live_inv (final (Keyboard key x y st)).
Proof.
  intros [Hd Hf Hs Ho Hg].
  destruct st as [ww wh img sp [dbg th tm ip xs ys pf mn mi]
                    cc tr fd pid gs sh sm dr an ob im mp].
  cbn in *.
  destruct key as [[] [] [] [] [] [] [] []]; cbn;
    try discriminate; intros _;
    try (live_goal; fail).
  all: try (destruct (C.truth (C.lnot sp)); live_goal; fail).
  all: destruct gs as [[dm tx]|]; [|now elim Hg]; cbn;
       destruct (dm =? AR_DRAW_BY_GL_DRAW_PIXELS);
       try destruct (tx =? AR_DRAW_TEXTURE_FULL_IMAGE); live_goal.
Qed.

Lemma mainLoop_live (env : TickEnv) (st : State) :
  live_inv st -> live_inv (final (mainLoop env st)).
Proof.
  intros [Hd Hf Hs Ho Hg].
  destruct (mainLoop_input_fields env st) as (_ & _ & _ & Es & _ & _ & _ & Ed).
  assert (Hobj : gObj (final (mainLoop env st)) = gObj st
                 /\ is_flag (gPatt_found (final (mainLoop env st)))
                 /\ is_flag (gARTImageSavePlease (final (mainLoop env st)))).
  { unfold mainLoop.
    destruct (F32.lt _ _); [cbn; auto|].
    rewrite DrawObjUpdate_frame.
    destruct (negb (video_image env =? C.NULL)); [|cbn; auto].
    unfold save_image.
    cbn [gARTImageSavePlease set_gARTImage set_gDrawRotateAngle set_ms_prev].
    destruct (C.truth (gARTImageSavePlease st));
      (destruct (detect_result env <? 0);
       [ cbn; repeat split; trivial; now left
       | unfold find_pose;
         match goal with
         | |- context [select_marker ?a ?b] =>
             destruct (negb (select_marker a b =? -1))
         end;
         [ match goal with
           | |- context [pose_solver env ?a ?b] => destruct (pose_solver env a b)
           end |];
         cbn; repeat split; trivial;
         first [now left | now right] ]). }
  destruct Hobj as (Eo & Hf' & Hs').
  split; trivial; congruence.
Qed.

Lemma reachable_live (st : State) : reachable st -> live_inv st.
Proof.
  induction 1 as [env tr st Hlib Hmain | key x y st _ IH Hex | env st _ IH _
                 | st _ IH | w h st _ IH].
  - exact (main_live env tr st Hmain).
  - now apply Keyboard_live.
  - now apply mainLoop_live.
  - destruct IH. split; assumption.
  - destruct IH. split; assumption.
Qed.

(** X15 (main, Keyboard, mainLoop, Reshape, Display).  In every state
    the running program can reach: the threshold is in 0..255, the
    threshold mode is one of the four named ones, the image-processing
    mode is frame or field, the five flags (help, mode, rotate, debug,
    found) and the capture flag are 0 or 1, and neither the mesh pointer
    nor the argl settings are NULL. *)
Theorem X15_reachable_invariants (st : State) :
  reachable st ->
  0 <= arLabelingThresh (gARHandle st) <= 255
  /\ arLabelingThreshMode (gARHandle st) <> AR_LABELING_THRESH_MODE_other
  /\ (arImageProcMode (gARHandle st) = AR_IMAGE_PROC_FRAME_IMAGE
      \/ arImageProcMode (gARHandle st) = AR_IMAGE_PROC_FIELD_IMAGE)
  /\ is_flag (gShowHelp st) /\ is_flag (gShowMode st) /\ is_flag (gDrawRotate st)
  /\ is_flag (arDebug (gARHandle st))
  /\ is_flag (gPatt_found st) /\ is_flag (gARTImageSavePlease st)
  /\ gObj st <> C.NULL
  /\ gArglSettings st <> None.
Proof.
  intros Hr.
  destruct (reachable_inv st Hr) as [Hh Hm Hro [Ht Hmo Hi]].
  destruct (reachable_live st Hr) as [Hd Hf Hs Ho Hg].
  repeat apply conj; try assumption; try lia.
Qed.

Lemma X15_reachable_invariants_witness :
  0 <= arLabelingThresh (gARHandle (presses 40 "+"%char sample_state)) <= 255.
Proof.
  destruct (X15_reachable_invariants (presses 40 "+"%char sample_state)) as (H & _).
  - assert (Hn : forall n st, reachable st -> reachable (presses n "+"%char st)).
    { induction n as [|n IH]; intros st Hst; cbn [presses]; trivial.
      apply IH. apply (reach_Keyboard "+"%char 0 0); trivial. }
    apply Hn, sample_reachable.
  - exact H.
Defined.

(** X16 (Keyboard).  In a reachable state the key d (or D) flips the
    debug mode of the detector between 0 and 1, and two presses give the
    state back. *)
Theorem X16_debug_toggle (st : State) :
  reachable st ->
  press "d"%char (press "d"%char st) = st
  /\ press "D"%char st = press "d"%char st
  /\ arDebug (gARHandle (press "d"%char st)) = 1 - arDebug (gARHandle st).
Proof.
  intros Hr. destruct (reachable_live st Hr) as [Hd _ _ _ _].
  destruct st as [ww wh img sp [dbg th tm ip xs ys pf mn mi]
                    cc tr fd pid gs sh sm dr an ob im mp].
  cbn in Hd. destruct Hd as [->| ->]; repeat split.
Qed.

Lemma X16_debug_toggle_witness :
  arDebug (gARHandle (press "d"%char sample_state)) = 1.
Proof.
  destruct (X16_debug_toggle sample_state sample_reachable) as (_ & _ & H).
  exact H.
Defined.

(** X17 (Keyboard, Display, main).  The two overlays follow their
    toggles: of the [Display] before and the [Display] after a press of ?
    exactly one draws the help panel, likewise for m and the mode panel;
    the first [Display] after startup draws both and no mesh. *)
Theorem X17_panels_follow_toggles (st : State) :
  reachable st ->
  (calls E_printHelpKeys (trace (Display (press "?"%char st)))
   + calls E_printHelpKeys (trace (Display st)) = 1)%nat
  /\ (calls E_printMode (trace (Display (press "m"%char st)))
      + calls E_printMode (trace (Display st)) = 1)%nat
  /\ (forall senv tr0 st0,
        main senv = (tr0, Running st0) ->
        calls E_printHelpKeys (trace (Display st0)) = 1%nat
        /\ calls E_printMode (trace (Display st0)) = 1%nat
        /\ calls E_glmDraw_SMOOTH_MATERIAL (trace (Display st0)) = 0%nat).
Proof.
  intros Hr. destruct (reachable_inv st Hr) as [Hh Hm _ _].
  repeat apply conj.
  - destruct (Display_observed st) as (_ & _ & _ & _ & _ & _ & _ & H1 & _).
    destruct (Display_observed (press "?"%char st))
      as (_ & _ & _ & _ & _ & _ & _ & H2 & _).
    rewrite H1, H2. destruct st; cbn in *. destruct Hh as [->| ->]; reflexivity.
  - destruct (Display_observed st) as (_ & _ & _ & _ & _ & _ & H1 & _).
    destruct (Display_observed (press "m"%char st))
      as (_ & _ & _ & _ & _ & _ & H2 & _).
    rewrite H1, H2. destruct st; cbn in *. destruct Hm as [->| ->]; reflexivity.
  - intros senv tr0 st0. unfold main.
    destruct (glmReadOBJ_result senv =? C.NULL); [discriminate|].
    destruct (setupCamera senv) as [trc [hc|]]; [|discriminate].
    destruct (setupMarker senv) as [trm [p|]]; [|discriminate].
    destruct (arglSetupForCurrentContext_result senv); [|discriminate].
    intros [= _ <-].
    destruct (Display_observed
                {| windowWidth := 640; windowHeight := 480; gARTImage := C.NULL;
                   gARTImageSavePlease := C.FALSE; gARHandle := hc;
                   gCallCountMarkerDetect := 0; gPatt_trans := zero_trans;
                   gPatt_found := C.FALSE; gPatt_id := p; gArglSettings := Some a;
                   gShowHelp := 1; gShowMode := 1; gDrawRotate := C.TRUE;
                   gDrawRotateAngle := f_zero; gObj := glmReadOBJ_result senv;
                   imageNumber := 0; ms_prev := 0 |})
      as (_ & _ & _ & _ & Hdraw & _ & Hmode & Hhelp & _).
    rewrite Hdraw, Hmode, Hhelp. repeat split.
Qed.

Lemma X17_panels_follow_toggles_witness :
  (calls E_printHelpKeys (trace (Display (press "?"%char sample_state)))
   + calls E_printHelpKeys (trace (Display sample_state)) = 1)%nat.
Proof.
  destruct (X17_panels_follow_toggles sample_state sample_reachable) as (H & _).
  exact H.
Defined.

(** X18 (mainLoop).  Capture file names do not collide: for counters in
    0..9999 different counters give different names image-NNNN.jpg. *)
Theorem X18_capture_names_are_distinct (n m : Z) :
  0 <= n < 10000 -> 0 <= m < 10000 ->
  sprintf_image n = sprintf_image m -> n = m.
Proof.
  intros Hn Hm E.
  pose proof (sprintf_04d_spells n Hn) as Sn.
  pose proof (sprintf_04d_spells m Hm) as Sm.
  unfold sprintf_image in E. cbn [String.append] in E.
  injection E as E.
  assert (E4 : sprintf_04d n = sprintf_04d m).
  { unfold field_value in Sn, Sm.
    destruct (Nat.eqb_spec (String.length (sprintf_04d n)) 4) as [Ln|]; [|discriminate].
    destruct (Nat.eqb_spec (String.length (sprintf_04d m)) 4) as [Lm|]; [|discriminate].
    destruct (sprintf_04d n) as [|a0 [|a1 [|a2 [|a3 [|a4 s]]]]]; try discriminate.
    destruct (sprintf_04d m) as [|b0 [|b1 [|b2 [|b3 [|b4 t]]]]]; try discriminate.
    cbn in E. injection E as -> -> -> ->. reflexivity. }
  rewrite E4 in Sn. congruence.
Qed.

Lemma X18_capture_names_are_distinct_witness :
  sprintf_image 7 <> sprintf_image 8.
Proof.
  intros E. apply X18_capture_names_are_distinct in E; lia.
Defined.


(* ================================================================== *)
(** ** Startup *)
(* ================================================================== *)

(** Take the next test of a setup function both ways; most branches end
    at once. *)
Ltac next_test tac :=
  match goal with
  | |- context [if ?c then _ else _] =>
      destruct c eqn:?; cbn [negb andb orb]; try (tac; fail)
  | |- context [match arCreateHandle_result ?e with _ => _ end] =>
      destruct (arCreateHandle_result e) eqn:?; cbn [negb andb orb]; try (tac; fail)
  end.

Ltac settle :=
  cbn; repeat apply conj; intros; repeat apply conj;
  try discriminate; try reflexivity; try congruence;
  try (eexists; repeat apply conj; reflexivity).

(** X19 (setupCamera).  Either every step succeeds, and the handle is
    the created one with the video's pixel format and debug mode off, no
    error logged, capture started and the video left open; or the first
    failing step logs one error and the function fails.  The frame size is
    logged as information once arVideoGetSize has succeeded, and a warning
    is logged exactly when the parameter file is loaded and is for another
    frame size.  The video is closed again only when arVideoGetSize, the
    pixel-format query or arParamLoad fails: a later failure leaves the
    video open. *)
Theorem X19_setupCamera_outcome (env : StartEnv) :
  let r := setupCamera env in
  (video_steps_ok env && handle_steps_ok env = true ->
   exists h0,
     arCreateHandle_result env = Some h0
     /\ snd r = Some (arSetDebugMode
                        (set_arPixelFormat (video_pixel_format env) h0)
                        AR_DEBUG_DISABLE)
     /\ logged (fst r) = []
     /\ calls E_arVideoCapStart (fst r) = 1%nat
     /\ calls E_arVideoClose (fst r) = 0%nat)
  /\ (video_steps_ok env && handle_steps_ok env = false ->
      snd r = None /\ List.length (logged (fst r)) = 1%nat)
  /\ (video_steps_ok env = false ->
      calls E_arVideoClose (fst r)
      = (if arVideoOpen_result env <? 0 then 0%nat else 1%nat))
  /\ (video_steps_ok env = true -> handle_steps_ok env = false ->
      calls E_arVideoOpen (fst r) = 1%nat
      /\ calls E_arVideoClose (fst r) = 0%nat)
  /\ informed (fst r)
     = (if negb (arVideoOpen_result env <? 0)
           && negb (arVideoGetSize_result env <? 0)
        then [("Camera image size (x,y) = (%d,%d)"%string,
               video_xsize env, video_ysize env)]
        else [])
  /\ warned (fst r)
     = (if video_steps_ok env && size_mismatch env
        then [("*** Camera Parameter resized from %d, %d. ***"%string,
               cparam_xsize env, cparam_ysize env)]
        else []).
Proof.
  unfold setupCamera, video_steps_ok, handle_steps_ok, size_mismatch,
    bind, unless, call, ret, fail, calls, logged, informed, warned.
  cbv zeta.
  repeat next_test settle.
Qed.

Lemma X19_setupCamera_outcome_witness :
  (calls E_arVideoOpen (fst (setupCamera start_camera_fails)) = 1%nat
   /\ calls E_arVideoClose (fst (setupCamera start_camera_fails)) = 0%nat)
  /\ warned (fst (setupCamera start_resized))
     = [("*** Camera Parameter resized from %d, %d. ***"%string, 320, 240)].
Proof.
  split.
  - destruct (X19_setupCamera_outcome start_camera_fails) as (_ & _ & _ & H & _).
    apply H; reflexivity.
  - destruct (X19_setupCamera_outcome start_resized) as (_ & _ & _ & _ & _ & H).
    exact H.
Defined.

(** The messages of the two setup functions when they succeed. *)
Lemma setup_messages (env : StartEnv) :
  (video_steps_ok env && handle_steps_ok env = true ->
   informed (fst (setupCamera env))
   = [("Camera image size (x,y) = (%d,%d)"%string,
       video_xsize env, video_ysize env)]
   /\ warned (fst (setupCamera env))
      = (if size_mismatch env
         then [("*** Camera Parameter resized from %d, %d. ***"%string,
                cparam_xsize env, cparam_ysize env)]
         else []))
  /\ informed (fst (setupMarker env)) = []
  /\ warned (fst (setupMarker env)) = [].
Proof.
  unfold setupCamera, setupMarker, video_steps_ok, handle_steps_ok, size_mismatch,
    bind, unless, call, ret, fail, informed, warned.
  repeat next_test settle.
Qed.

Lemma informed_app (l1 l2 : list Event) :
  informed (l1 ++ l2) = informed l1 ++ informed l2.
Proof. apply flat_map_app. Qed.

Lemma warned_app (l1 l2 : list Event) :
  warned (l1 ++ l2) = warned l1 ++ warned l2.
Proof. apply flat_map_app. Qed.

(** What [main] needs to know of the two setup functions. *)
Lemma setupCamera_summary (env : StartEnv) :
  let r := setupCamera env in
  exit_codes (fst r) = []
  /\ calls E_glutMainLoop (fst r) = 0%nat
  /\ calls E_arPattDeleteHandle (fst r) = 0%nat
  /\ calls E_arPattCreateHandle (fst r) = 0%nat
  /\ calls E_arPattDetach (fst r) = 0%nat
  /\ calls E_glmDelete (fst r) = 0%nat
  /\ (video_steps_ok env && handle_steps_ok env = true ->
      snd r <> None /\ logged (fst r) = []
      /\ calls E_arVideoClose (fst r) = 0%nat
      /\ calls E_arVideoOpen (fst r) = 1%nat)
  /\ (video_steps_ok env && handle_steps_ok env = false ->
      snd r = None /\ List.length (logged (fst r)) = 1%nat).
Proof.
  unfold setupCamera, video_steps_ok, handle_steps_ok, bind, unless, call, ret, fail,
    calls, logged, exit_codes.
  cbv zeta.
  repeat next_test settle.
Qed.

Lemma setupMarker_summary (env : StartEnv) :
  let r := setupMarker env in
  exit_codes (fst r) = []
  /\ calls E_glutMainLoop (fst r) = 0%nat
  /\ calls E_arVideoClose (fst r) = 0%nat
  /\ calls E_arVideoOpen (fst r) = 0%nat
  /\ calls E_glmDelete (fst r) = 0%nat
  /\ calls E_arPattDetach (fst r) = 0%nat
  /\ calls E_arPattCreateHandle (fst r) = 1%nat
  /\ (marker_steps_ok env = true ->
      snd r = Some (arPattLoad_result env) /\ logged (fst r) = []
      /\ calls E_arPattDeleteHandle (fst r) = 0%nat)
  /\ (marker_steps_ok env = false ->
      snd r = None /\ List.length (logged (fst r)) = 1%nat
      /\ calls E_arPattDeleteHandle (fst r)
         = (if arPattCreateHandle_result env =? C.NULL then 0%nat else 1%nat)).
Proof.
  unfold setupMarker, marker_steps_ok, bind, unless, call, ret, fail,
    calls, logged, exit_codes.
  cbv zeta.
  repeat next_test settle.
Qed.

Lemma calls_app (c : Event) (l1 l2 : list Event) :
  calls c (l1 ++ l2) = (calls c l1 + calls c l2)%nat.
Proof. unfold calls. now rewrite filter_app, length_app. Qed.

Lemma calls_cleanup (c : Event) (obj : Z) :
  obj <> C.NULL ->
  calls c (cleanup_calls obj)
  = calls c [E_arglCleanup; E_arPattDetach; E_arPattDeleteHandle; E_arVideoCapStop;
             E_ar3DDeleteHandle; E_arDeleteHandle; E_arParamLTFree; E_arVideoClose;
             E_glmDelete].
Proof.
  intros H. unfold cleanup_calls.
  destruct (Z.eqb_spec obj C.NULL); [contradiction | reflexivity].
Qed.

Lemma exit_codes_app (l1 l2 : list Event) :
  exit_codes (l1 ++ l2) = exit_codes l1 ++ exit_codes l2.
Proof. apply flat_map_app. Qed.

Lemma logged_app (l1 l2 : list Event) :
  logged (l1 ++ l2) = logged l1 ++ logged l2.
Proof. apply flat_map_app. Qed.

Lemma exit_codes_cleanup (obj : Z) : exit_codes (cleanup_calls obj) = [].
Proof. unfold cleanup_calls. destruct (obj =? C.NULL); reflexivity. Qed.

Lemma logged_cleanup (obj : Z) : logged (cleanup_calls obj) = [].
Proof. unfold cleanup_calls. destruct (obj =? C.NULL); reflexivity. Qed.

Lemma calls_cleanup_mainloop (obj : Z) : calls E_glutMainLoop (cleanup_calls obj) = 0%nat.
Proof. unfold cleanup_calls. destruct (obj =? C.NULL); reflexivity. Qed.

(** X20 (main).  [main] either reaches glutMainLoop, as its last call,
    with no error logged, no exit and the state initialised from the
    library's answers (pattern id, mesh, argl settings; found and capture
    flag FALSE, rotation on, gate clock 0), having logged the frame size as
    information and, if the parameter file was for another frame size, one
    warning; or, when the mesh, the camera, the marker or the argl setup
    fails, it logs an error and ends with exit(-1) as its last call,
    without entering the main loop. *)
Theorem X20_main_outcome (env : StartEnv) :
  (startup_ok env = true ->
   exists st,
     snd (main env) = Running st
     /\ (exists pre, fst (main env) = pre ++ [E_glutMainLoop])
     /\ exit_codes (fst (main env)) = []
     /\ logged (fst (main env)) = []
     /\ informed (fst (main env))
        = [("Camera image size (x,y) = (%d,%d)"%string,
            video_xsize env, video_ysize env)]
     /\ warned (fst (main env))
        = (if size_mismatch env
           then [("*** Camera Parameter resized from %d, %d. ***"%string,
                  cparam_xsize env, cparam_ysize env)]
           else [])
     /\ gPatt_id st = arPattLoad_result env
     /\ gObj st = glmReadOBJ_result env
     /\ gArglSettings st = arglSetupForCurrentContext_result env
     /\ gPatt_found st = C.FALSE
     /\ gARTImageSavePlease st = C.FALSE
     /\ gDrawRotate st = C.TRUE
     /\ ms_prev st = 0)
  /\ (startup_ok env = false ->
      snd (main env) = Exited (-1)
      /\ (exists pre, fst (main env) = pre ++ [E_exit (-1)])
      /\ exit_codes (fst (main env)) = [-1]
      /\ calls E_glutMainLoop (fst (main env)) = 0%nat
      /\ logged (fst (main env)) <> []).
Proof.
  unfold startup_ok, main.
  destruct (setupCamera_summary env) as (Cx & Cl & _ & _ & _ & _ & Cok & Cbad).
  destruct (setupMarker_summary env) as (Mx & Ml & _ & _ & _ & _ & _ & Mok & Mbad).
  destruct (setup_messages env) as (Cmsg & Minfo & Mwarn).
  destruct (glmReadOBJ_result env =? C.NULL) eqn:Eobj; cbn [negb andb].
  - split; [discriminate|]. intros _. cbn [fst snd].
    repeat apply conj; try reflexivity; try discriminate.
    exists [E_glmReadOBJ "Data/bunny.obj";
            E_ARLOGe "main(): Unable to load obj model file."]. reflexivity.
  - destruct (video_steps_ok env && handle_steps_ok env) eqn:Ecam.
    + destruct (Cok eq_refl) as (Hsome & Clog & _).
      destruct (Cmsg eq_refl) as (Cinfo & Cwarn).
      destruct (setupCamera env) as [trc [h|]]; [|now elim Hsome].
      cbn [fst snd] in *.
      replace (video_steps_ok env && handle_steps_ok env && marker_steps_ok env)
        with (marker_steps_ok env)
        by (rewrite Ecam; reflexivity).
      destruct (marker_steps_ok env) eqn:Emark; cbn [andb].
      * destruct (Mok eq_refl) as (Hres & Mlog & _).
        destruct (setupMarker env) as [trm [p|]]; [|discriminate].
        cbn [fst snd] in *. injection Hres as ->.
        destruct (arglSetupForCurrentContext_result env) as [s|].
        -- split; [|discriminate]. intros _.
           eexists. cbn [fst snd].
           repeat apply conj; try reflexivity.
           ++ eexists.
              change [E_arglSetupDebugMode; E_arUtilTimerReset; E_glutMainLoop]
                with ([E_arglSetupDebugMode; E_arUtilTimerReset] ++ [E_glutMainLoop]).
              rewrite !app_assoc. reflexivity.
           ++ rewrite !exit_codes_app, Cx, Mx. reflexivity.
           ++ rewrite !logged_app, Clog, Mlog. reflexivity.
           ++ rewrite !informed_app, Cinfo, Minfo. reflexivity.
           ++ rewrite !warned_app, Cwarn, Mwarn.
              destruct (size_mismatch env); reflexivity.
        -- split; [discriminate|]. intros _. cbn [fst snd].
           repeat apply conj; try reflexivity.
           ++ eexists. rewrite !app_assoc. reflexivity.
           ++ rewrite !exit_codes_app, Cx, Mx, exit_codes_cleanup. reflexivity.
           ++ rewrite !calls_app, Cl, Ml, calls_cleanup_mainloop. reflexivity.
           ++ rewrite !logged_app, Clog, Mlog, logged_cleanup. discriminate.
      * destruct (Mbad eq_refl) as (Hres & Mlog & _).
        destruct (setupMarker env) as [trm [p|]]; [discriminate|].
        cbn [fst snd] in *.
        split; [discriminate|]. intros _. cbn [fst snd].
        repeat apply conj; try reflexivity.
        -- eexists. rewrite !app_assoc. reflexivity.
        -- rewrite !exit_codes_app, Cx, Mx, exit_codes_cleanup. reflexivity.
        -- rewrite !calls_app, Cl, Ml, calls_cleanup_mainloop. reflexivity.
        -- rewrite !logged_app, Clog, logged_cleanup.
           intros E. apply (f_equal (@List.length string)) in E.
           rewrite !length_app in E. cbn in E. lia.
    + destruct (Cbad eq_refl) as (Hres & Clog).
      destruct (setupCamera env) as [trc [h|]]; [discriminate|].
      cbn [fst snd] in *.
      split; [discriminate|]. intros _. cbn [fst snd].
      repeat apply conj; try reflexivity.
      * exists ([E_glmReadOBJ "Data/bunny.obj"; E_glmUnitize;
                 E_glmScale (F32.of_float (F64.mul d_1_5 (F64.of_float markerSize)));
                 E_glutInit] ++ trc
                ++ [E_ARLOGe "main(): Unable to set up AR camera."]).
        rewrite <- !app_assoc. reflexivity.
      * rewrite !exit_codes_app, Cx. reflexivity.
      * rewrite !calls_app, Cl. reflexivity.
      * rewrite !logged_app.
        intros E. apply (f_equal (@List.length string)) in E.
        rewrite !length_app in E. cbn in E. lia.
Qed.

Lemma X20_main_outcome_witness :
  snd (main start_marker_fails) = Exited (-1)
  /\ exit_codes (fst (main start_marker_fails)) = [-1].
Proof.
  destruct (X20_main_outcome start_marker_fails) as (_ & H).
  destruct H as (H1 & _ & H2 & _).
  - reflexivity.
  - split; [exact H1 | exact H2].
Defined.

(** X21 (main, setupMarker, cleanup).  When the mesh and the camera are
    set up and arPattLoad fails, the pattern handle is deleted twice:
    once by [setupMarker] and once more by the [cleanup] that [main] runs
    before exit(-1) (once only if the handle was NULL, in which case
    [setupMarker] had returned before loading).  In that run the video is
    opened and closed once and the mesh deleted once. *)
Theorem X21_pattern_handle_deleted_twice (env : StartEnv) :
  glmReadOBJ_result env <> C.NULL ->
  video_steps_ok env && handle_steps_ok env = true ->
  arPattLoad_result env < 0 ->
  snd (main env) = Exited (-1)
  /\ calls E_arPattCreateHandle (fst (main env)) = 1%nat
  /\ calls E_arPattDeleteHandle (fst (main env))
     = (if arPattCreateHandle_result env =? C.NULL then 1%nat else 2%nat)
  /\ calls E_arPattDetach (fst (main env)) = 1%nat
  /\ calls E_arVideoOpen (fst (main env)) = 1%nat
  /\ calls E_arVideoClose (fst (main env)) = 1%nat
  /\ calls E_glmDelete (fst (main env)) = 1%nat.
Proof.
  intros Hobj Hcam Hload. unfold main.
  destruct (Z.eqb_spec (glmReadOBJ_result env) C.NULL) as [E|_]; [contradiction|].
  destruct (setupCamera_summary env)
    as (_ & _ & Cdel & Ccre & Cdet & Cglm & Cok & _).
  destruct (Cok Hcam) as (Hsome & _ & Cclose & Copen).
  destruct (setupCamera env) as [trc [h|]]; [|now elim Hsome].
  cbn [fst snd] in *.
  assert (Hbad : marker_steps_ok env = false).
  { unfold marker_steps_ok. destruct (Z.ltb_spec (arPattLoad_result env) 0); [|lia].
    now rewrite andb_false_r. }
  destruct (setupMarker_summary env)
    as (_ & _ & Mclose & Mopen & Mglm & Mdet & Mcre & _ & Mbad).
  destruct (Mbad Hbad) as (Hres & _ & Mdel).
  destruct (setupMarker env) as [trm [p|]]; [discriminate|].
  cbn [fst snd] in *.
  repeat apply conj; try reflexivity;
    rewrite !calls_app, ?(calls_cleanup _ _ Hobj);
    rewrite ?Cdel, ?Ccre, ?Cdet, ?Cglm, ?Cclose, ?Copen,
      ?Mclose, ?Mopen, ?Mglm, ?Mdet, ?Mcre, ?Mdel;
    try reflexivity.
  destruct (arPattCreateHandle_result env =? C.NULL); reflexivity.
Qed.

Lemma X21_pattern_handle_deleted_twice_witness :
  calls E_arPattDeleteHandle (fst (main start_marker_fails)) = 2%nat.
Proof.
  destruct (X21_pattern_handle_deleted_twice start_marker_fails) as (_ & _ & H & _).
  - intros E. discriminate E.
  - reflexivity.
  - cbn. lia.
  - exact H.
Defined.

(* ================================================================== *)
(** ** The onscreen text *)
(* ================================================================== *)

Lemma has_sign_not_nan (s : bool) (x : spec_float) :
  has_sign s x -> is_nan x = false.
Proof. destruct x; cbn; trivial. contradiction. Qed.

Lemma of_int_not_nan (z : Z) : is_nan (F32.of_int z) = false.
Proof.
  unfold F32.of_int, binary_normalize.
  destruct z as [|p|p]; [reflexivity| |]; unfold binary_round;
    destruct (shl_align _ _ _) as [mz ez];
    eapply has_sign_not_nan; apply binary_round_aux_sign; lia.
Qed.

Lemma leb_trans (a b c : spec_float) :
  SFleb a b = true -> SFleb b c = true -> SFleb a c = true.
Proof.
  intros H1 H2.
  destruct (FloatOrderFacts.leb_not_nan _ _ H1) as [Ha Hb].
  destruct (FloatOrderFacts.leb_not_nan _ _ H2) as [_ Hc].
  apply FloatOrderFacts.leb_key; trivial.
  apply FloatOrderFacts.leb_key in H1; trivial.
  apply FloatOrderFacts.leb_key in H2; trivial.
  destruct (FloatOrder.key a) as [[? ?] ?], (FloatOrder.key b) as [[? ?] ?],
    (FloatOrder.key c) as [[? ?] ?]; cbn in *; lia.
Qed.

(** The first loop of [printHelpKeys] ends with the greatest of [bw] and
    the widths of the lines. *)
Lemma widest_spec (env : HudEnv) (lines : list string) : forall bw,
  is_nan bw = false ->
  SFleb bw (widest env lines bw) = true
  /\ (forall text, In text lines ->
        SFleb (F32.of_int (glutBitmapLength env text)) (widest env lines bw) = true)
  /\ (widest env lines bw = bw
      \/ exists text, In text lines
           /\ widest env lines bw = F32.of_int (glutBitmapLength env text)).
Proof.
  induction lines as [|text rest IH]; intros bw Hbw; cbn [widest].
  - repeat apply conj.
    + now apply FloatOrderFacts.leb_refl.
    + intros text [].
    + now left.
  - set (w := F32.of_int (glutBitmapLength env text)).
    assert (Hw : is_nan w = false) by apply of_int_not_nan.
    unfold F32.gt.
    destruct (SFltb bw w) eqn:E.
    + destruct (IH w Hw) as (H1 & H2 & H3).
      repeat apply conj.
      * apply leb_trans with w; trivial. now apply FloatOrderFacts.ltb_leb.
      * intros t [<-|Hin]; [exact H1 | now apply H2].
      * right. destruct H3 as [-> | (t & Hin & ->)].
        -- exists text. split; [now left | reflexivity].
        -- exists t. split; [now right | reflexivity].
    + destruct (IH bw Hbw) as (H1 & H2 & H3).
      repeat apply conj; trivial.
      * intros t [<-|Hin]; [|now apply H2].
        apply leb_trans with bw; trivial.
        now apply FloatOrderFacts.not_ltb_leb.
      * destruct H3 as [-> | (t & Hin & ->)]; [now left|].
        right. exists t. split; [now right | reflexivity].
Qed.

Lemma glyphs_text (text : string) (rest : list HudCall) :
  glyphs rest = EmptyString ->
  glyphs (map H_glutBitmapCharacter (list_ascii_of_string text) ++ rest) = text.
Proof.
  intros Hrest. induction text as [|c text IH]; cbn; [exact Hrest|].
  now rewrite IH.
Qed.

Lemma drawn_texts_glyphs (l : list ascii) (rest : list HudCall) :
  drawn_texts (map H_glutBitmapCharacter l ++ rest) = drawn_texts rest.
Proof. induction l as [|c l IH]; cbn; trivial. Qed.

(** What one left-aligned [print] draws. *)
Lemma drawn_texts_print (env : HudEnv) (st : State) (text : string)
    (x y : spec_float) (top : Z) (rest : list HudCall) :
  glyphs rest = EmptyString ->
  drawn_texts (print env st (Some text) x y 0 top ++ rest)
  = (x,
     (if C.truth top
      then F32.sub (F32.sub (F32.of_int (windowHeight st)) y) f_10_0 else y),
     text) :: drawn_texts rest.
Proof.
  intros Hrest. unfold print. change (C.truth 0) with false.
  cbv beta iota. rewrite app_nil_l, <- app_comm_cons. cbn [drawn_texts].
  rewrite glyphs_text by exact Hrest.
  now rewrite drawn_texts_glyphs.
Qed.

Lemma glyphs_app (l rest : list HudCall) :
  glyphs rest = EmptyString -> glyphs (l ++ rest) = glyphs l.
Proof.
  intros Hrest. induction l as [|c l IH]; cbn; [exact Hrest|].
  destruct c; trivial. now rewrite IH.
Qed.

Lemma drawn_texts_app (l rest : list HudCall) :
  glyphs rest = EmptyString ->
  drawn_texts (l ++ rest) = drawn_texts l ++ drawn_texts rest.
Proof.
  intros Hrest. induction l as [|c l IH]; cbn; trivial.
  destruct c; trivial. cbn. now rewrite IH, glyphs_app.
Qed.

(** X22 (printHelpKeys, drawBackground, print).  The help panel holds
    its text, whatever widths the font reports.  Its one quad spans from
    (2, 2) to (bw + 2, 108), where bw is the greatest width of a line (or
    0, if no line is wider): no line is wider than bw.  The nine lines are
    drawn in order at x = 2 and y = 98, 86, ..., 2, so each 10-pixel line
    lies between the lower edge 2 and the upper edge 108 of the quad; the
    colour in force when the text starts is the opaque white that
    [drawBackground] sets after the quad. *)
Theorem X22_help_panel_holds_its_text (env : HudEnv) (st : State) :
  let bw := widest env helpText f_zero in
  let panel := printHelpKeys env st in
  quads panel
  = [[ (f_2_0, f_2_0); (F32.add bw f_2_0, f_2_0);
       (F32.add bw f_2_0, F32.of_int 108); (f_2_0, F32.of_int 108) ]]
  /\ (forall text, In text helpText ->
        SFleb (F32.of_int (glutBitmapLength env text)) bw = true)
  /\ (bw = f_zero
      \/ exists text, In text helpText
           /\ bw = F32.of_int (glutBitmapLength env text))
  /\ drawn_texts panel
     = combine (map (fun i => (f_2_0, F32.of_int (98 - 12 * i))) (zrange 9 0))
         helpText
  /\ Forall (fun p => SFleb f_2_0 (y_of p) = true
                      /\ SFleb (F32.add (y_of p) f_10_0) (F32.of_int 108) = true)
       (drawn_texts panel)
  /\ last_colour (before_text panel) = Some (H_glColor4f f_one f_one f_one f_one).
Proof.
  intros bw panel.
  destruct (widest_spec env helpText f_zero eq_refl) as (_ & Hle & Heq).
  assert (Htexts : drawn_texts panel
                   = combine (map (fun i => (f_2_0, F32.of_int (98 - 12 * i)))
                                (zrange 9 0)) helpText).
  { subst panel. unfold printHelpKeys.
    rewrite drawn_texts_app by reflexivity.
    rewrite drawn_texts_app by reflexivity.
    cbn [helpText print_lines].
    repeat (rewrite drawn_texts_print by reflexivity).
    reflexivity. }
  repeat apply conj; trivial.
  - rewrite Htexts. repeat constructor.
Qed.

Lemma same_float_eq (a b : spec_float) : same_float a b = true -> a = b.
Proof.
  destruct a as [s|s| |s m e], b as [s'|s'| |s' m' e']; cbn; try discriminate;
    trivial.
  - intros H. apply Bool.eqb_prop in H. now subst.
  - intros H. apply Bool.eqb_prop in H. now subst.
  - intros H. apply andb_prop in H. destruct H as [H He].
    apply andb_prop in H. destruct H as [Hs Hm].
    apply Bool.eqb_prop in Hs. apply Pos.eqb_eq in Hm. apply Z.eqb_eq in He.
    now subst.
Qed.

Lemma mode_line_y_exact (h : Z) :
  0 <= h <= 8192 ->
  mode_line_y h 1 = F32.of_int (h - 12)
  /\ mode_line_y h 2 = F32.of_int (h - 24)
  /\ mode_line_y h 3 = F32.of_int (h - 36)
  /\ mode_line_y h 4 = F32.of_int (h - 48).
Proof.
  intros Hh.
  assert (Hall : forallb
                   (fun h => same_float (mode_line_y h 1) (F32.of_int (h - 12))
                             && same_float (mode_line_y h 2) (F32.of_int (h - 24))
                             && same_float (mode_line_y h 3) (F32.of_int (h - 36))
                             && same_float (mode_line_y h 4) (F32.of_int (h - 48)))
                   (zrange (Z.to_nat 8193) 0) = true)
    by (vm_compute; reflexivity).
  rewrite forallb_forall in Hall.
  specialize (Hall h (in_zrange (Z.to_nat 8193) 0 h ltac:(lia))).
  repeat (apply andb_prop in Hall; destruct Hall as [Hall ?]).
  repeat apply conj; now apply same_float_eq.
Qed.

Lemma str_length_append (a b : string) :
  String.length (String.append a b) = (String.length a + String.length b)%nat.
Proof. induction a as [|c a IH]; cbn; [reflexivity | now rewrite IH]. Qed.

Lemma substring_length_le (n : nat) : forall s,
  (String.length (substring 0 n s) <= n)%nat.
Proof.
  induction n as [|n IH]; intros [|c s]; cbn; try lia.
  specialize (IH s). lia.
Qed.

Lemma substring_whole (n : nat) : forall s,
  (String.length s <= n)%nat -> substring 0 n s = s.
Proof.
  induction n as [|n IH]; intros [|c s]; cbn; intros H; try reflexivity; try lia.
  rewrite IH; [reflexivity | lia].
Qed.

(** The buffer [text] never overflows: what [snprintf] leaves in it has at
    most 255 characters, also after the second [snprintf] at its end. *)
Lemma snprintf_length (s : string) :
  (String.length (snprintf sizeof_text s) <= 255)%nat.
Proof. unfold snprintf, sizeof_text. apply (substring_length_le 255). Qed.

Lemma snprintf_end_length (text s : string) :
  (String.length text <= 255)%nat ->
  (String.length (snprintf_end text s) <= 255)%nat.
Proof.
  intros H. unfold snprintf_end, snprintf, sizeof_text.
  rewrite str_length_append.
  pose proof (substring_length_le
                (Z.to_nat (256 - Z.of_nat (String.length text) - 1)) s).
  lia.
Qed.

Lemma snprintf_fits (s : string) :
  (String.length s <= 255)%nat -> snprintf sizeof_text s = s.
Proof. intros H. unfold snprintf, sizeof_text. now apply (substring_whole 255). Qed.

Lemma snprintf_end_fits (text s : string) :
  (String.length text + String.length s <= 255)%nat ->
  snprintf_end text s = String.append text s.
Proof.
  intros H. unfold snprintf_end, snprintf, sizeof_text.
  rewrite substring_whole; [reflexivity | lia].
Qed.

(** The texts [printMode] draws and where. *)
Lemma printMode_texts (env : HudEnv) (st : State) :
  drawn_texts (printMode env st)
  = [ (f_2_0, mode_line_y (windowHeight st) 1, size_text env st);
      (f_2_0, mode_line_y (windowHeight st) 2,
       threshold_text (arLabelingThreshMode (gARHandle st))
         (arLabelingThresh (gARHandle st)));
      (f_2_0, mode_line_y (windowHeight st) 3, border_text env);
      (f_2_0, mode_line_y (windowHeight st) 4, drawing_text st) ].
Proof.
  unfold printMode. cbv zeta.
  do 2 rewrite <- app_comm_cons. rewrite app_nil_l. cbn [drawn_texts].
  rewrite <- (app_nil_r (print env st (Some (drawing_text st)) _ _ _ _)).
  repeat (rewrite drawn_texts_print by reflexivity).
  reflexivity.
Qed.

Lemma printMode_frame (env : HudEnv) (v : Z) (st : State) :
  printMode env (set_gARTImage v st) = printMode env st.
Proof. reflexivity. Qed.

Lemma printHelpKeys_frame (env : HudEnv) (v : Z) (st : State) :
  printHelpKeys env (set_gARTImage v st) = printHelpKeys env st.
Proof. reflexivity. Qed.

(** The onscreen text of a [Display]: the mode panel if it is on, then the
    help panel if it is on. *)
Lemma Display_text_panels (env : HudEnv) (st : State) :
  Display_text env st
  = (if C.truth (gShowMode st) then printMode env st else [])
    ++ (if gShowHelp st =? 1 then printHelpKeys env st else []).
Proof.
  unfold Display_text.
  replace (final (Display st)) with (set_gARTImage C.NULL st) by reflexivity.
  rewrite printMode_frame, printHelpKeys_frame.
  generalize (printMode env st) (printHelpKeys env st). intros pm ph.
  unfold Display.
  cbn [final trace exited returns gPatt_found gPatt_trans gShowMode gShowHelp
       windowWidth windowHeight set_gARTImage].
  rewrite DrawObj_calls.
  destruct (Z.eqb_spec (gShowHelp st) 1) as [E|E].
  - rewrite E. destruct (C.truth (gPatt_found st)), (C.truth (gShowMode st));
      cbn; rewrite ?app_nil_r; reflexivity.
  - destruct (C.truth (gPatt_found st)), (C.truth (gShowMode st)),
      (C.truth (gShowHelp st)); cbn; rewrite ?app_nil_r; reflexivity.
Qed.

Lemma help_texts (env : HudEnv) (st : State) :
  map text_of (drawn_texts (printHelpKeys env st)) = helpText.
Proof.
  unfold printHelpKeys.
  rewrite drawn_texts_app by reflexivity.
  rewrite drawn_texts_app by reflexivity.
  cbn [helpText print_lines].
  repeat (rewrite drawn_texts_print by reflexivity).
  reflexivity.
Qed.

Lemma shown_panels (env : HudEnv) (st : State) :
  shown env st
  = (if C.truth (gShowMode st)
     then [ size_text env st;
            threshold_text (arLabelingThreshMode (gARHandle st))
              (arLabelingThresh (gARHandle st));
            border_text env; drawing_text st ]
     else [])
    ++ (if gShowHelp st =? 1 then helpText else []).
Proof.
  unfold shown. rewrite Display_text_panels.
  assert (Hh : glyphs (if gShowHelp st =? 1 then printHelpKeys env st else [])
               = EmptyString) by (destruct (gShowHelp st =? 1); reflexivity).
  rewrite drawn_texts_app by exact Hh. rewrite map_app.
  f_equal.
  - destruct (C.truth (gShowMode st)); [|reflexivity].
    rewrite printMode_texts. reflexivity.
  - destruct (gShowHelp st =? 1); [apply help_texts | reflexivity].
Qed.

(** With a threshold in 0..255 nothing of the threshold text is cut off
    (checked for each mode and threshold). *)
Lemma threshold_text_line (m : AR_LABELING_THRESH_MODE) (t : Z) :
  0 <= t <= 255 -> threshold_text m t = threshold_line m t.
Proof.
  intros Ht.
  assert (Hall : forallb
                   (fun t => forallb
                      (fun m => String.eqb (threshold_text m t) (threshold_line m t))
                      all_modes)
                   (zrange 256 0) = true)
    by (vm_compute; reflexivity).
  rewrite forallb_forall in Hall.
  specialize (Hall t (in_zrange 256 0 t ltac:(lia))).
  rewrite forallb_forall in Hall.
  apply String.eqb_eq, Hall.
  unfold all_modes. destruct m; cbn; auto 10.
Qed.

(** The keys - and + on a threshold in 0..255. *)
Lemma press_threshold_keys (st : State) :
  0 <= arLabelingThresh (gARHandle st) <= 255 ->
  let t := arLabelingThresh (gARHandle st) in
  press "-"%char st
  = set_gARHandle (set_arLabelingThresh (Z.max 0 (t - 5)) (gARHandle st)) st
  /\ press "+"%char st
     = set_gARHandle (set_arLabelingThresh (Z.min 255 (t + 5)) (gARHandle st)) st.
Proof.
  intros Ht t. subst t.
  destruct st as [ww wh img sp [dbg th tm ip xs ys pf mn mi]
                    cc tr fd pid gs sh sm dr an ob im mp].
  cbn in Ht. unfold press, Keyboard. cbn.
  assert (Hup : C.int_add th 5 = th + 5).
  { unfold C.int_add, C.int_wrap. rewrite Z.mod_small; lia. }
  assert (Hdown : C.int_add th (-5) = th - 5).
  { unfold C.int_add, C.int_wrap. rewrite Z.mod_small; lia. }
  rewrite Hup, Hdown.
  assert (Hminus : (if (if th - 5 <? 0 then 0 else th - 5) >? 255 then 255
                    else if th - 5 <? 0 then 0 else th - 5) = Z.max 0 (th - 5)).
  { destruct (Z.ltb_spec (th - 5) 0); [cbn; lia|].
    destruct (Z.gtb_spec (th - 5) 255); lia. }
  assert (Hplus : (if (if th + 5 <? 0 then 0 else th + 5) >? 255 then 255
                   else if th + 5 <? 0 then 0 else th + 5) = Z.min 255 (th + 5)).
  { destruct (Z.ltb_spec (th + 5) 0); [lia|].
    destruct (Z.gtb_spec (th + 5) 255); lia. }
  rewrite Hminus, Hplus. split; reflexivity.
Qed.

(** X23 (printMode, print, Display, Keyboard).  The threshold line of the
    mode panel in a reachable state with the panel on.  It reads
    Threshold mode: MANUAL, thresh=N in manual mode; in the two automatic
    modes with a threshold the label comes twice (AUTO_MEDIAN, thresh=,
    thresh=N); in AUTO_ADAPTIVE no number is shown.  After the key - the
    next [Display] shows the threshold lowered by 5 (not below 0), after +
    raised by 5 (not above 255), in the same mode; in AUTO_ADAPTIVE the
    line does not change. *)
Theorem X23_threshold_line_on_screen (env : HudEnv) (st : State) :
  reachable st ->
  gShowMode st = 1 ->
  let m := arLabelingThreshMode (gARHandle st) in
  let t := arLabelingThresh (gARHandle st) in
  nth 1 (shown env st) EmptyString = threshold_line m t
  /\ nth 1 (shown env (press "-"%char st)) EmptyString
     = threshold_line m (Z.max 0 (t - 5))
  /\ nth 1 (shown env (press "+"%char st)) EmptyString
     = threshold_line m (Z.min 255 (t + 5))
  /\ m <> AR_LABELING_THRESH_MODE_other
  /\ (m = AR_LABELING_THRESH_MODE_AUTO_ADAPTIVE ->
      nth 1 (shown env (press "-"%char st)) EmptyString
      = nth 1 (shown env st) EmptyString).
Proof.
  intros Hr Hmode m t.
  destruct (reachable_inv st Hr) as [_ _ _ [Ht Hm _]].
  destruct (press_threshold_keys st Ht) as [Hminus Hplus].
  fold t in Hminus, Hplus.
  assert (Hshown : forall s, gShowMode s = 1 ->
            nth 1 (shown env s) EmptyString
            = threshold_text (arLabelingThreshMode (gARHandle s))
                (arLabelingThresh (gARHandle s))).
  { intros s Hs. rewrite shown_panels. unfold C.truth. rewrite Hs. reflexivity. }
  assert (E1 : nth 1 (shown env st) EmptyString = threshold_line m t).
  { rewrite (Hshown st Hmode). now apply threshold_text_line. }
  assert (E2 : nth 1 (shown env (press "-"%char st)) EmptyString
               = threshold_line m (Z.max 0 (t - 5))).
  { rewrite Hminus, Hshown by exact Hmode.
    cbn [gARHandle set_gARHandle arLabelingThreshMode arLabelingThresh
         set_arLabelingThresh].
    apply threshold_text_line. lia. }
  repeat apply conj; trivial.
  - rewrite Hplus, Hshown by exact Hmode.
    cbn [gARHandle set_gARHandle arLabelingThreshMode arLabelingThresh
         set_arLabelingThresh].
    apply threshold_text_line. lia.
  - intros Ha. rewrite E1, E2. fold m. rewrite Ha. reflexivity.
Qed.

Lemma X23_threshold_line_on_screen_witness :
  nth 1 (shown sample_hud (press "-"%char sample_state)) EmptyString
  = "Threshold mode: MANUAL, thresh=95"%string.
Proof.
  destruct (X23_threshold_line_on_screen sample_hud sample_state sample_reachable)
    as (_ & H & _).
  - reflexivity.
  - exact H.
Defined.

(** X24 (printMode, print).  The mode panel is four lines at x = 2, drawn
    in white.  Whatever the libraries answer, each text has at most 255
    characters, so [text] with its terminating NUL never overflows its 256
    bytes.  For a window height h in 0..8192 the lines are at the raster
    heights h - 12, h - 24, h - 36 and h - 48 exactly: 12 pixels apart,
    counted from the top edge. *)
Theorem X24_mode_panel_layout (env : HudEnv) (st : State) :
  let texts := drawn_texts (printMode env st) in
  List.length texts = 4%nat
  /\ Forall (fun p => x_of p = f_2_0
                      /\ (String.length (text_of p) <= 255)%nat) texts
  /\ (0 <= windowHeight st <= 8192 ->
      map y_of texts
      = map (fun k => F32.of_int (windowHeight st - k)) [12; 24; 36; 48])
  /\ last_colour (before_text (printMode env st))
     = Some (H_glColor3ub 255 255 255).
Proof.
  cbv zeta. rewrite printMode_texts.
  repeat apply conj; try reflexivity.
  - apply Forall_cons; [split; [reflexivity | apply snprintf_length]|].
    apply Forall_cons; [split; [reflexivity|]|].
    { cbn [text_of snd]. unfold threshold_text.
      destruct (arLabelingThreshMode (gARHandle st));
        try (apply snprintf_end_length); apply snprintf_length. }
    apply Forall_cons; [split; [reflexivity|]|].
    { cbn [text_of snd]. unfold border_text.
      apply snprintf_end_length, snprintf_length. }
    apply Forall_cons; [split; [reflexivity | apply snprintf_length]|].
    apply Forall_nil.
  - intros Hh. destruct (mode_line_y_exact (windowHeight st) Hh)
      as (E1 & E2 & E3 & E4).
    cbn [map y_of fst snd]. now rewrite E1, E2, E3, E4.
Qed.

Lemma X24_mode_panel_layout_witness :
  map y_of (drawn_texts (printMode sample_hud sample_state))
  = map (fun k => F32.of_int (480 - k)) [12; 24; 36; 48].
Proof.
  destruct (X24_mode_panel_layout sample_hud sample_state) as (_ & _ & H & _).
  apply H. cbn. lia.
Defined.

(** A size up to 8192 prints as at most four digits (checked for each). *)
Lemma printf_d_small (n : Z) :
  0 <= n <= 8192 ->
  printf_d n = decimal n /\ (String.length (decimal n) <= 4)%nat.
Proof.
  intros Hn. split.
  - unfold printf_d. destruct (Z.ltb_spec n 0); [lia | reflexivity].
  - assert (Hall : forallb (fun n => (String.length (decimal n) <=? 4)%nat)
                     (zrange (Z.to_nat 8193) 0) = true)
      by (vm_compute; reflexivity).
    rewrite forallb_forall in Hall.
    apply Nat.leb_le, Hall, in_zrange. lia.
Qed.

Lemma draw_mode_text_short (st : State) :
  (String.length (draw_mode_text st) <= 33)%nat.
Proof.
  unfold draw_mode_text.
  destruct (arglDrawModeGet (gArglSettings st) =? AR_DRAW_BY_GL_DRAW_PIXELS);
    [cbn; lia|].
  destruct (arglTexmapModeGet (gArglSettings st) =? AR_DRAW_TEXTURE_FULL_IMAGE);
    cbn; lia.
Qed.

(** With a window up to 8192 by 8192 nothing of the drawing text is cut
    off. *)
Lemma drawing_text_line (st : State) :
  0 <= windowWidth st <= 8192 -> 0 <= windowHeight st <= 8192 ->
  drawing_text st
  = drawing_line (draw_mode_text st) (windowWidth st) (windowHeight st).
Proof.
  intros Hw Hh.
  destruct (printf_d_small _ Hw) as [Ew Lw].
  destruct (printf_d_small _ Hh) as [Eh Lh].
  unfold drawing_text, drawing_line. rewrite Ew, Eh.
  apply snprintf_fits.
  pose proof (draw_mode_text_short st) as Lm.
  cbn [String.concat]. rewrite !str_length_append.
  cbn [String.length]. lia.
Qed.

(** The key c steps the draw mode text. *)
Lemma press_c_draw_mode (st : State) :
  gArglSettings st <> None ->
  draw_mode_text (press "c"%char st) = next_draw_mode_text (draw_mode_text st)
  /\ windowWidth (press "c"%char st) = windowWidth st
  /\ windowHeight (press "c"%char st) = windowHeight st
  /\ gShowMode (press "c"%char st) = gShowMode st.
Proof.
  intros Hs.
  destruct st as [ww wh img sp hd cc tr fd pid [[dm tx]|] sh sm dr an ob im mp];
    [|now elim Hs].
  unfold draw_mode_text, press, Keyboard. cbn.
  destruct (Z.eqb_spec dm AR_DRAW_BY_GL_DRAW_PIXELS) as [->|Hd]; cbn.
  - repeat apply conj; reflexivity.
  - destruct (Z.eqb_spec tx AR_DRAW_TEXTURE_FULL_IMAGE) as [->|Hx]; cbn.
    + destruct (Z.eqb_spec dm AR_DRAW_BY_GL_DRAW_PIXELS); [contradiction|].
      repeat apply conj; reflexivity.
    + repeat apply conj; reflexivity.
Qed.

(** X25 (printMode, Display, Reshape, Keyboard).  The last line of the
    mode panel reports the window.  After [Reshape] to w by h (both in
    0..8192) the next [Display] with the panel on shows
    Drawing using MODE into WxH window with the draw mode of the state;
    after the key c it shows the next draw mode and the same size. *)
Theorem X25_drawing_line_on_screen (env : HudEnv) (w h : Z) (st : State) :
  0 <= w <= 8192 -> 0 <= h <= 8192 -> gShowMode st = 1 ->
  let st1 := final (Reshape w h st) in
  nth 3 (shown env st1) EmptyString = drawing_line (draw_mode_text st) w h
  /\ (gArglSettings st <> None ->
      nth 3 (shown env (press "c"%char st1)) EmptyString
      = drawing_line (next_draw_mode_text (draw_mode_text st)) w h).
Proof.
  intros Hw Hh Hmode st1.
  assert (Hshown : forall s, gShowMode s = 1 ->
            nth 3 (shown env s) EmptyString = drawing_text s).
  { intros s Hs. rewrite shown_panels. unfold C.truth. rewrite Hs. reflexivity. }
  split.
  - rewrite Hshown by exact Hmode.
    now rewrite drawing_text_line.
  - intros Hset.
    destruct (press_c_draw_mode st1 Hset) as (Em & Ew & Eh & Es).
    rewrite Hshown by (rewrite Es; exact Hmode).
    rewrite drawing_text_line by (rewrite ?Ew, ?Eh; assumption).
    rewrite Em, Ew, Eh. reflexivity.
Qed.

Lemma X25_drawing_line_on_screen_witness :
  nth 3 (shown sample_hud (final (Reshape 800 600 sample_state))) EmptyString
  = "Drawing using texture mapping into 800x600 window"%string.
Proof.
  destruct (X25_drawing_line_on_screen sample_hud 800 600 sample_state) as (H & _).
  - lia.
  - lia.
  - reflexivity.
  - exact H.
Defined.

(* ================================================================== *)
(** ** The event loop *)
(* ================================================================== *)

(** [Keyboard], [Display] and [Reshape] make none of the calls of a tick
    and leave alone what a tick changes. *)
Lemma Keyboard_no_tick (key : ascii) (x y : Z) (st : State) :
  filter is_tick_call (trace (Keyboard key x y st)) = []
  /\ tick_fields (final (Keyboard key x y st)) = tick_fields st.
Proof.
  destruct st as [ww wh img sp [dbg th tm ip xs ys pf mn mi]
                    cc tr fd pid gs sh sm dr an ob im mp].
  unfold tick_fields.
  destruct key as [[] [] [] [] [] [] [] []]; cbn;
    try (split; reflexivity).
  all: try (destruct (ob =? C.NULL); cbn; split; reflexivity).
  all: try (destruct (C.truth (C.lnot sp)); cbn; split; reflexivity).
  all: try (destruct (arglDrawModeGet gs =? AR_DRAW_BY_GL_DRAW_PIXELS);
            try destruct (arglTexmapModeGet gs =? AR_DRAW_TEXTURE_FULL_IMAGE);
            cbn; split; reflexivity).
Qed.

Lemma Display_no_tick (st : State) :
  filter is_tick_call (trace (Display st)) = []
  /\ tick_fields (final (Display st)) = tick_fields st.
Proof.
  split; [|reflexivity].
  unfold Display.
  cbn [final trace exited returns gPatt_found gPatt_trans gShowMode gShowHelp
       windowWidth windowHeight set_gARTImage].
  rewrite DrawObj_calls.
  destruct (C.truth (gPatt_found st)), (C.truth (gShowMode st)),
    (C.truth (gShowHelp st)), (gShowHelp st =? 1); reflexivity.
Qed.

Lemma deliver_hidden (ev : GlutEvent) (l : Loop) :
  idle l = Idle_NULL -> stays_hidden [ev] = true ->
  idle (fst (deliver ev l)) = Idle_NULL
  /\ filter is_tick_call (snd (deliver ev l)) = []
  /\ tick_fields (globals (fst (deliver ev l))) = tick_fields (globals l).
Proof.
  intros Hidle Hev. unfold deliver.
  destruct (ended l); [cbn; auto|].
  destruct ev as [key x y|env|w h| |v]; cbn [handled fst snd globals idle].
  - destruct (Keyboard_no_tick key x y (globals l)). auto.
  - rewrite Hidle. cbn. auto.
  - cbn. auto.
  - destruct (Display_no_tick (globals l)). auto.
  - repeat apply conj; trivial.
    unfold Visibility. cbn in Hev.
    destruct (v =? GLUT_VISIBLE); [discriminate | reflexivity].
Qed.

Lemma filter_app_nil {A : Type} (f : A -> bool) (l1 l2 : list A) :
  filter f l1 = [] -> filter f l2 = [] -> filter f (l1 ++ l2) = [].
Proof. intros H1 H2. now rewrite filter_app, H1, H2. Qed.

(** X26 (Visibility, main, mainLoop, Keyboard, Display, Reshape).  No
    tick while the window is hidden.  With no idle callback registered, as
    [main] leaves it, and through any events none of which reports the
    window visible, the idle callback stays NULL, none of the calls of
    [mainLoop] is made (clock, frame, detector, solver, capture,
    redisplay), and the gate clock, the rotation angle, found, the pose
    and the capture counter keep their values.  Once [Visibility] is
    given GLUT_VISIBLE, the next idle event runs [mainLoop]. *)
Theorem X26_no_tick_while_hidden (evs : list GlutEvent) (l : Loop) :
  idle l = Idle_NULL -> stays_hidden evs = true ->
  idle (fst (run evs l)) = Idle_NULL
  /\ filter is_tick_call (snd (run evs l)) = []
  /\ tick_fields (globals (fst (run evs l))) = tick_fields (globals l)
  /\ (forall st, idle (enter_loop st) = Idle_NULL)
  /\ (forall env,
        ended (fst (run evs l)) = None ->
        snd (run [Ev_Visibility GLUT_VISIBLE; Ev_Idle env] (fst (run evs l)))
        = trace (mainLoop env (globals (fst (run evs l))))).
Proof.
  intros Hidle Hev.
  assert (H : idle (fst (run evs l)) = Idle_NULL
              /\ filter is_tick_call (snd (run evs l)) = []
              /\ tick_fields (globals (fst (run evs l))) = tick_fields (globals l)).
  { revert l Hidle Hev.
    induction evs as [|ev rest IH]; intros l Hidle Hev; cbn [run].
    - cbn. auto.
    - cbn [stays_hidden forallb] in Hev. apply andb_prop in Hev.
      destruct Hev as [Hev Hrest].
      assert (Hev1 : stays_hidden [ev] = true).
      { cbn [stays_hidden forallb]. now rewrite Hev. }
      destruct (deliver_hidden ev l Hidle Hev1) as (H1 & H2 & H3).
      destruct (deliver ev l) as [l1 tr1]. cbn [fst snd] in H1, H2, H3.
      destruct (IH l1 H1 Hrest) as (H4 & H5 & H6).
      destruct (run rest l1) as [l2 tr2]. cbn [fst snd] in *.
      repeat apply conj; trivial.
      + now apply filter_app_nil.
      + congruence. }
  destruct H as (H1 & H2 & H3).
  repeat apply conj; trivial.
  intros env Hend. cbn [run]. unfold deliver. rewrite Hend.
  cbn [ended idle globals handled fst snd].
  change (Visibility GLUT_VISIBLE) with Idle_mainLoop. cbv iota.
  unfold handled. cbn [fst snd List.app]. now rewrite app_nil_r.
Qed.

Lemma X26_no_tick_while_hidden_witness :
  filter is_tick_call
    (snd (run [Ev_Idle (sample_tick 1000 1 0 0 d_1_0); Ev_Display;
               Ev_Visibility GLUT_NOT_VISIBLE;
               Ev_Idle (sample_tick 2000 1 0 0 d_1_0)]
            (enter_loop sample_state)))
  = [].
Proof.
  destruct (X26_no_tick_while_hidden
              [Ev_Idle (sample_tick 1000 1 0 0 d_1_0); Ev_Display;
               Ev_Visibility GLUT_NOT_VISIBLE;
               Ev_Idle (sample_tick 2000 1 0 0 d_1_0)]
              (enter_loop sample_state)) as (_ & H & _).
  - reflexivity.
  - reflexivity.
  - exact H.
Defined.

(** The exit codes in the trace of a callback are the code it ended the
    process with, if it did. *)
Lemma Keyboard_exit_codes (key : ascii) (x y : Z) (st : State) :
  exit_codes (trace (Keyboard key x y st))
  = match exited (Keyboard key x y st) with Some c => [c] | None => [] end
  /\ (forall c, exited (Keyboard key x y st) = Some c -> c = 0).
Proof.
  destruct st as [ww wh img sp [dbg th tm ip xs ys pf mn mi]
                    cc tr fd pid gs sh sm dr an ob im mp].
  destruct key as [[] [] [] [] [] [] [] []]; cbn;
    try (split; [reflexivity | intros c; discriminate]).
  all: destruct (ob =? C.NULL); cbn;
    (split; [reflexivity | intros c [= <-]; reflexivity]).
Qed.

Lemma mainLoop_exit_codes (env : TickEnv) (st : State) :
  exit_codes (trace (mainLoop env st))
  = match exited (mainLoop env st) with Some c => [c] | None => [] end
  /\ (forall c, exited (mainLoop env st) = Some c -> c = -1).
Proof.
  unfold mainLoop, save_image, find_pose. cbv zeta.
  repeat (match goal with
          | |- context [if ?c then _ else _] => destruct c
          | |- context [pose_solver env ?a ?b] => destruct (pose_solver env a b)
          end; cbv beta iota zeta).
  all: cbn; split;
    [reflexivity | first [discriminate | intros c [= <-]; reflexivity]].
Qed.

Lemma Display_exit_codes (st : State) : exit_codes (trace (Display st)) = [].
Proof.
  unfold Display.
  cbn [final trace exited returns gPatt_found gPatt_trans gShowMode gShowHelp
       windowWidth windowHeight set_gARTImage].
  rewrite DrawObj_calls.
  destruct (C.truth (gPatt_found st)), (C.truth (gShowMode st)),
    (C.truth (gShowHelp st)), (gShowHelp st =? 1); reflexivity.
Qed.

(** One event of the loop. *)
Lemma deliver_step (ev : GlutEvent) (l : Loop) :
  ended l = None -> reachable (globals l) ->
  let r := deliver ev l in
  (ended (fst r) = None -> reachable (globals (fst r)))
  /\ (forall c, ended (fst r) = Some c -> c = 0 \/ c = -1)
  /\ exit_codes (snd r)
     = match ended (fst r) with Some c => [c] | None => [] end.
Proof.
  intros Hend Hr. unfold deliver. rewrite Hend.
  destruct ev as [key x y|env|w h| |v]; cbn [handled fst snd globals idle ended].
  - destruct (Keyboard_exit_codes key x y (globals l)) as [E Hc].
    repeat apply conj; trivial.
    + intros Hn. now apply reach_Keyboard.
    + intros c Hx. left. now apply Hc.
  - destruct (idle l); cbn [handled fst snd globals idle ended].
    + rewrite Hend. repeat apply conj; trivial; discriminate.
    + destruct (mainLoop_exit_codes env (globals l)) as [E Hc].
      repeat apply conj; trivial.
      * intros Hn. now apply reach_mainLoop.
      * intros c Hx. right. now apply Hc.
  - repeat apply conj; try reflexivity; try discriminate.
    intros _. now apply reach_Reshape.
  - rewrite Display_exit_codes.
    repeat apply conj; try reflexivity; try discriminate.
    intros _. now apply reach_Display.
  - repeat apply conj; try reflexivity; try discriminate. trivial.
Qed.

(** X27 (main, Visibility, Keyboard, mainLoop).  The program in its
    event loop, from a state [main] can hand over: while no callback has
    ended the process the globals are a reachable state; the process ends
    with code 0 (a quit key) or -1 (a detector failure) only; exit is
    called at most once, with that code; and no event after it changes
    anything. *)
Theorem X27_event_loop (evs : list GlutEvent) (st : State) :
  reachable st ->
  let r := run evs (enter_loop st) in
  (ended (fst r) = None -> reachable (globals (fst r)))
  /\ (forall c, ended (fst r) = Some c -> c = 0 \/ c = -1)
  /\ exit_codes (snd r)
     = match ended (fst r) with Some c => [c] | None => [] end
  /\ (forall more, ended (fst r) <> None ->
        run (evs ++ more) (enter_loop st) = r).
Proof.
  intros Hr.
  assert (Hgen : forall evs l,
            ended l = None -> reachable (globals l) ->
            (ended (fst (run evs l)) = None -> reachable (globals (fst (run evs l))))
            /\ (forall c, ended (fst (run evs l)) = Some c -> c = 0 \/ c = -1)
            /\ exit_codes (snd (run evs l))
               = match ended (fst (run evs l)) with Some c => [c] | None => [] end).
  { clear evs. induction evs as [|ev rest IH]; intros l Hend Hl; cbn [run].
    - cbn [fst snd]. rewrite Hend. repeat apply conj; trivial; discriminate.
    - destruct (deliver_step ev l Hend Hl) as (H1 & H2 & H3).
      destruct (deliver ev l) as [l1 tr1] eqn:Ed. cbn [fst snd] in H1, H2, H3.
      destruct (ended l1) as [c|] eqn:E1.
      + assert (Hstop : run rest l1 = (l1, [])).
        { clear -E1. revert l1 E1.
          induction rest as [|e r IHr]; intros l1 E1; cbn [run]; trivial.
          unfold deliver. rewrite E1. now rewrite (IHr l1 E1). }
        rewrite Hstop. cbn [fst snd]. rewrite E1, app_nil_r.
        repeat apply conj; trivial; discriminate.
      + destruct (IH l1 E1 (H1 eq_refl)) as (H4 & H5 & H6).
        destruct (run rest l1) as [l2 tr2]. cbn [fst snd] in *.
        repeat apply conj; trivial.
        rewrite exit_codes_app, H3, H6. reflexivity. }
  destruct (Hgen evs (enter_loop st) eq_refl Hr) as (H1 & H2 & H3).
  cbv zeta. repeat apply conj; trivial.
  intros more Hne.
  assert (Hstop : forall evs l, ended l <> None -> run evs l = (l, [])).
  { clear. induction evs as [|e r IHr]; intros l E; cbn [run]; trivial.
    unfold deliver. destruct (ended l) eqn:El; [|now elim E].
    cbv beta iota. rewrite (IHr l); [reflexivity | rewrite El; discriminate]. }
  assert (Happ : forall evs1 evs2 l,
            run (evs1 ++ evs2) l
            = (fst (run evs2 (fst (run evs1 l))),
               snd (run evs1 l) ++ snd (run evs2 (fst (run evs1 l))))).
  { clear. induction evs1 as [|e r IHr]; intros evs2 l; cbn [run List.app].
    - cbn [fst snd List.app]. now destruct (run evs2 l).
    - destruct (deliver e l) as [l1 tr1]. rewrite IHr.
      destruct (run r l1) as [l2 tr2]. cbn [fst snd].
      now rewrite app_assoc. }
  rewrite Happ, (Hstop more _ Hne). cbn [fst snd]. rewrite app_nil_r.
  now destruct (run evs (enter_loop st)).
Qed.

Lemma X27_event_loop_witness :
  ended (fst (run [Ev_Visibility GLUT_VISIBLE;
                   Ev_Idle (sample_tick 1000 1 0 (-1) d_1_0); Ev_Display]
                (enter_loop sample_state)))
  = Some (-1)
  /\ exit_codes (snd (run [Ev_Visibility GLUT_VISIBLE;
                           Ev_Idle (sample_tick 1000 1 0 (-1) d_1_0); Ev_Display]
                        (enter_loop sample_state)))
     = [-1].
Proof.
  destruct (X27_event_loop
              [Ev_Visibility GLUT_VISIBLE;
               Ev_Idle (sample_tick 1000 1 0 (-1) d_1_0); Ev_Display]
              sample_state sample_reachable) as (_ & _ & H & _).
  split; [reflexivity | exact H].
Defined.

(* ================================================================== *)
(** ** The capture name beyond 9999 *)
(* ================================================================== *)

(** A numeral of k digits is below 10^k. *)
Lemma of_uint_acc_bound (d : Decimal.uint) : forall acc,
  Zpos (Pos.of_uint_acc d acc)
  < (Zpos acc + 1) * 10 ^ Z.of_nat (Decimal.nb_digits d).
Proof.
  induction d as [|d IH|d IH|d IH|d IH|d IH|d IH|d IH|d IH|d IH|d IH];
    intros acc; cbn [Pos.of_uint_acc Decimal.nb_digits];
    [ change (10 ^ Z.of_nat 0) with 1; lia | .. ];
    rewrite Nat2Z.inj_succ, Z.pow_succ_r by lia;
    pose proof (Z.pow_pos_nonneg 10 (Z.of_nat (Decimal.nb_digits d))
                  ltac:(lia) ltac:(lia));
    match goal with
    | |- Zpos (Pos.of_uint_acc d ?a) < _ => specialize (IH a)
    end; nia.
Qed.

Lemma of_uint_bound (d : Decimal.uint) :
  Z.of_N (Pos.of_uint d) < 10 ^ Z.of_nat (Decimal.nb_digits d).
Proof.
  induction d as [|d IH|d IH|d IH|d IH|d IH|d IH|d IH|d IH|d IH|d IH];
    cbn [Pos.of_uint Decimal.nb_digits];
    [ change (10 ^ Z.of_nat 0) with 1; lia | .. ];
    rewrite Nat2Z.inj_succ, Z.pow_succ_r by lia;
    pose proof (Z.pow_pos_nonneg 10 (Z.of_nat (Decimal.nb_digits d))
                  ltac:(lia) ltac:(lia));
    [ lia | .. ];
    match goal with
    | |- Z.of_N (Npos (Pos.of_uint_acc d ?a)) < _ =>
        pose proof (of_uint_acc_bound d a)
    end; cbn [Z.of_N]; nia.
Qed.

Lemma string_of_uint_length (d : Decimal.uint) :
  String.length (NilEmpty.string_of_uint d) = Decimal.nb_digits d.
Proof. induction d; cbn; congruence. Qed.

(** [%d] of a number from 10000 on has at least five digits. *)
Lemma decimal_long (n : Z) : 10000 <= n -> (5 <= String.length (decimal n))%nat.
Proof.
  intros Hn. unfold decimal. rewrite string_of_uint_length.
  pose proof (of_uint_bound (N.to_uint (Z.abs_N n))) as Hb.
  change (Pos.of_uint (N.to_uint (Z.abs_N n)))
    with (N.of_uint (N.to_uint (Z.abs_N n))) in Hb.
  rewrite DecimalN.Unsigned.of_to in Hb.
  rewrite N2Z.inj_abs_N, Z.abs_eq in Hb by lia.
  destruct (Nat.lt_ge_cases (Decimal.nb_digits (N.to_uint (Z.abs_N n))) 5)
    as [Hlt|Hge]; [|exact Hge].
  assert (Hp : 10 ^ Z.of_nat (Decimal.nb_digits (N.to_uint (Z.abs_N n)))
               <= 10 ^ 4) by (apply Z.pow_le_mono_r; lia).
  change (10 ^ 4) with 10000 in Hp. lia.
Qed.

Lemma sprintf_image_long (n : Z) :
  10000 <= n -> (15 <= String.length (sprintf_image n))%nat.
Proof.
  intros Hn. pose proof (decimal_long n Hn) as Hd.
  unfold sprintf_image, sprintf_04d.
  destruct (Z.ltb_spec n 0); [lia|].
  replace (4 - String.length (decimal n))%nat with 0%nat by lia.
  cbn [zeros]. rewrite !str_length_append. cbn [String.length]. lia.
Qed.

(** X28 (mainLoop).  The capture name outgrows its buffer.  For a counter
    that is not negative, the text image-NNNN.jpg with its NUL fits
    [char imageNumberText[15]] exactly when the counter is below 10000.
    From 10000 on, a tick that captures hands arVideoSaveImageJPEG a name
    that needs at least 16 bytes: [sprintf] has written past the array. *)
Theorem X28_capture_name_overflows (env : TickEnv) (st : State) :
  0 <= imageNumber st ->
  (fits_imageNumberText (sprintf_image (imageNumber st)) = true
   <-> imageNumber st < 10000)
  /\ (10000 <= imageNumber st ->
      C.truth (gARTImageSavePlease st) = true ->
      gate_rejects (clock_ms env) (ms_prev st) = false ->
      video_image env <> C.NULL ->
      exists name,
        saved_names (trace (mainLoop env st)) = [name]
        /\ (16 <= String.length name + 1)%nat).
Proof.
  intros Hn. split.
  - split.
    + intros Hfit. destruct (Z.lt_ge_cases (imageNumber st) 10000) as [|Hge];
        trivial.
      pose proof (sprintf_image_long _ Hge) as Hl.
      unfold fits_imageNumberText in Hfit. apply Nat.leb_le in Hfit. lia.
    + intros Hlt. apply sprintf_image_fits. lia.
  - intros Hge Hsave Hgate Himg.
    destruct (mainLoop_frame_tick env st Hgate Himg)
      as (_ & _ & _ & _ & Hnames & _).
    rewrite Hsave in Hnames.
    exists (sprintf_image (imageNumber st)). split; [exact Hnames|].
    pose proof (sprintf_image_long _ Hge). lia.
Qed.

Lemma X28_capture_name_overflows_witness :
  fits_imageNumberText (sprintf_image 10000) = true <-> 10000 < 10000.
Proof.
  destruct (X28_capture_name_overflows (sample_tick 1000 1 0 0 d_1_0)
              (set_imageNumber 10000 sample_state)) as (H & _).
  - cbn. lia.
  - exact H.
Defined.

(* ================================================================== *)
(** ** Pausing the rotation *)
(* ================================================================== *)

(** A tick leaves the angle alone while the rotation is off. *)
Lemma mainLoop_paused (env : TickEnv) (st : State) :
  gDrawRotate st = 0 ->
  gDrawRotateAngle (final (mainLoop env st)) = gDrawRotateAngle st
  /\ gDrawRotate (final (mainLoop env st)) = 0.
Proof.
  intros H.
  destruct (mainLoop_input_fields env st) as (_ & _ & Er & _).
  split; [|now rewrite Er].
  unfold mainLoop.
  destruct (F32.lt _ _); [reflexivity|].
  assert (E : forall dt ms, DrawObjUpdate dt (set_ms_prev ms st) = set_ms_prev ms st).
  { intros dt ms. unfold DrawObjUpdate. cbn [gDrawRotate set_ms_prev].
    rewrite H. reflexivity. }
  rewrite E.
  unfold save_image, find_pose. cbv zeta.
  repeat (match goal with
          | |- context [if ?c then _ else _] => destruct c
          | |- context [pose_solver env ?a ?b] => destruct (pose_solver env a b)
          end; cbv beta iota zeta).
  all: reflexivity.
Qed.

(** X29 (Keyboard, mainLoop, DrawObjUpdate).  Space pauses the rotation.
    While the rotation is off, no tick, redraw, resize or visibility event
    changes the angle or turns the rotation on: only a key does.  Space
    turns a rotation that is on off, and one that is off on. *)
Theorem X29_rotation_pauses (evs : list GlutEvent) (st : State) :
  gDrawRotate st = 0 -> no_keys evs = true ->
  gDrawRotateAngle (globals (fst (run evs (shown_loop st)))) = gDrawRotateAngle st
  /\ gDrawRotate (globals (fst (run evs (shown_loop st)))) = 0
  /\ (forall s, gDrawRotate s <> 0 -> gDrawRotate (press " "%char s) = 0)
  /\ (forall s, gDrawRotate s = 0 -> gDrawRotate (press " "%char s) = 1).
Proof.
  intros Hoff Hev.
  assert (Hgen : forall evs l,
            gDrawRotate (globals l) = 0 -> no_keys evs = true ->
            gDrawRotateAngle (globals (fst (run evs l)))
            = gDrawRotateAngle (globals l)
            /\ gDrawRotate (globals (fst (run evs l))) = 0).
  { clear. induction evs as [|ev rest IH]; intros l Hoff Hev; cbn [run].
    - cbn [fst]. auto.
    - cbn [no_keys forallb] in Hev. apply andb_prop in Hev.
      destruct Hev as [Hev Hrest].
      assert (Hstep : gDrawRotateAngle (globals (fst (deliver ev l)))
                      = gDrawRotateAngle (globals l)
                      /\ gDrawRotate (globals (fst (deliver ev l))) = 0).
      { unfold deliver. destruct (ended l); [auto|].
        destruct ev as [key x y|env|w h| |v]; try discriminate;
          cbn [handled fst globals]; auto.
        destruct (idle l); cbn [handled fst globals]; auto.
        now apply mainLoop_paused. }
      destruct (deliver ev l) as [l1 tr1]. cbn [fst] in Hstep.
      destruct Hstep as [Ha Hr].
      destruct (IH l1 Hr Hrest) as [Ha2 Hr2].
      destruct (run rest l1) as [l2 tr2]. cbn [fst] in *.
      split; congruence. }
  destruct (Hgen evs (shown_loop st) Hoff Hev) as [Ha Hr].
  repeat apply conj; trivial.
  - intros s Hs. unfold press, Keyboard. cbn. unfold C.lnot.
    destruct (Z.eqb_spec (gDrawRotate s) 0); [contradiction | reflexivity].
  - intros s Hs. unfold press, Keyboard. cbn. unfold C.lnot. now rewrite Hs.
Qed.

Lemma X29_rotation_pauses_witness :
  gDrawRotateAngle
    (globals (fst (run [Ev_Idle (sample_tick 1000 C.NULL 0 0 d_1_0);
                        Ev_Idle (sample_tick 2000 C.NULL 0 0 d_1_0)]
                     (shown_loop (press " "%char sample_state)))))
  = f_zero.
Proof.
  destruct (X29_rotation_pauses
              [Ev_Idle (sample_tick 1000 C.NULL 0 0 d_1_0);
               Ev_Idle (sample_tick 2000 C.NULL 0 0 d_1_0)]
              (press " "%char sample_state)) as (H & _).
  - reflexivity.
  - reflexivity.
  - exact H.
Defined.

(* ================================================================== *)
(** ** The capture at counter 10000 *)
(* ================================================================== *)

(** The key s requests a capture and changes nothing a tick counts with. *)
Lemma press_s_requests (st : State) :
  C.truth (gARTImageSavePlease (press "s"%char st)) = true
  /\ imageNumber (press "s"%char st) = imageNumber st
  /\ ms_prev (press "s"%char st) = ms_prev st
  /\ exited (Keyboard "s"%char 0 0 st) = None.
Proof.
  unfold press, Keyboard. cbn. unfold C.truth, C.lnot.
  destruct (Z.eqb_spec (gARTImageSavePlease st) 0) as [E|E]; cbn.
  - repeat apply conj; reflexivity.
  - destruct (Z.eqb_spec (gARTImageSavePlease st) 0); [contradiction|].
    repeat apply conj; reflexivity.
Qed.

(** A tick 10 ms after the last accepted one passes the gate. *)
Lemma gate_after_10 (m : Z) : gate_rejects (m + 10) m = false.
Proof.
  rewrite gate_exact. unfold C.int_sub. rewrite Z.add_simpl_l. reflexivity.
Qed.

(** [n] captures from a counter that stays within 10000 are [n] steps of
    the running program and raise the counter by [n]. *)
Lemma captures_counter (n : nat) : forall st,
  reachable st -> 0 <= imageNumber st ->
  imageNumber st + Z.of_nat n <= 10000 ->
  reachable (captures n st)
  /\ imageNumber (captures n st) = imageNumber st + Z.of_nat n.
Proof.
  induction n as [|n IH]; intros st Hr H0 Hn; cbn [captures].
  - split; [exact Hr | lia].
  - destruct (press_s_requests st) as (Hflag & Hnum & Hms & Hret).
    set (env := sample_tick (ms_prev st + 10) 1 0 0 d_1_0).
    assert (Hgate : gate_rejects (clock_ms env) (ms_prev (press "s"%char st)) = false).
    { rewrite Hms. apply gate_after_10. }
    assert (Himg : video_image env <> C.NULL) by (intros E; discriminate E).
    destruct (capture_below_10000 env (press "s"%char st) Hgate Himg Hflag
                ltac:(lia))
      as (_ & _ & _ & _ & Hinc & Hback & _).
    assert (Hr1 : reachable (final (mainLoop env (press "s"%char st)))).
    { apply reach_mainLoop.
      - apply (reach_Keyboard "s"%char 0 0); assumption.
      - apply Hback. cbn. lia. }
    destruct (IH _ Hr1 ltac:(lia) ltac:(lia)) as [Hr2 Hn2].
    split; [exact Hr2 | lia].
Qed.

(** C7.  The capture keeps to the name image-NNNN.jpg only while the
    counter is below 10000.  After 10000 captures and one more request the
    program is in a state it can reach, with the counter at 10000; the next
    tick that passes the gate and gets a frame gives the JPEG writer the
    name image-10000.jpg: five digits, not the four of NNNN, and with its
    NUL 16 bytes, one more than [char imageNumberText[15]] holds.  Below
    10000 the tick does what is claimed: it calls the writer on the frame
    with quality 75 and a name whose four digits spell the counter, logs a
    failure of the writer, calls the detector next either way, clears the
    request and raises the counter by one; no tick lowers the counter, and
    [main] starts it at 0. *)
Theorem C7_capture_name_outgrows_buffer :
  let st := press "s"%char (captures (Z.to_nat 10000) sample_state) in
  (reachable st
   /\ imageNumber st = 10000
   /\ C.truth (gARTImageSavePlease st) = true)
  /\ (forall env : TickEnv,
        gate_rejects (clock_ms env) (ms_prev st) = false ->
        video_image env <> C.NULL ->
        saved_names (trace (mainLoop env st)) = ["image-10000.jpg"%string]
        /\ gARTImageSavePlease (final (mainLoop env st)) = C.FALSE)
  /\ sprintf_image 10000 = "image-10000.jpg"%string
  /\ String.length (sprintf_04d 10000) = 5%nat
  /\ field_value (sprintf_04d 10000) = None
  /\ fits_imageNumberText (sprintf_image 10000) = false
  /\ (String.length (sprintf_image 10000) + 1 = 16)%nat
  /\ (forall (env : TickEnv) (st : State),
        gate_rejects (clock_ms env) (ms_prev st) = false ->
        video_image env <> C.NULL ->
        C.truth (gARTImageSavePlease st) = true ->
        0 <= imageNumber st < 10000 ->
        let r := mainLoop env st in
        let h := gARHandle st in
        (exists field,
            sprintf_image (imageNumber st)
            = String.append "image-" (String.append field ".jpg")
            /\ field_value field = Some (imageNumber st))
        /\ fits_imageNumberText (sprintf_image (imageNumber st)) = true
        /\ (exists rest,
              trace r
              = [E_glutGet_ELAPSED_TIME; E_arVideoGetImage;
                 E_arVideoSaveImageJPEG (xsize h) (ysize h) (arPixelFormat h)
                   (video_image env) (sprintf_image (imageNumber st)) 75 0]
                ++ (if save_result env <? 0
                    then [E_ARLOGe "Error saving video image."] else [])
                ++ [E_arDetectMarker (video_image env)] ++ rest)
        /\ gARTImageSavePlease (final r) = C.FALSE
        /\ imageNumber (final r) = imageNumber st + 1
        /\ (0 <= detect_result env -> exited r = None)
        /\ (forall env' st',
              0 <= imageNumber st' < 10000 ->
              imageNumber st' <= imageNumber (final (mainLoop env' st')))
        /\ (forall senv tr0 st0,
              main senv = (tr0, Running st0) -> imageNumber st0 = 0)).
Proof.
  intros st.
  destruct (captures_counter (Z.to_nat 10000) sample_state sample_reachable
              ltac:(cbn; lia) ltac:(cbn; lia)) as [Hr Hn].
  change (imageNumber sample_state) with 0 in Hn.
  rewrite Z2Nat.id in Hn by lia.
  destruct (press_s_requests (captures (Z.to_nat 10000) sample_state))
    as (Hflag & Hnum & _ & Hret).
  fold st in Hflag, Hnum.
  assert (Hst : imageNumber st = 10000) by lia.
  assert (Hreach : reachable st).
  { subst st. now apply (reach_Keyboard "s"%char 0 0). }
  clearbody st.
  split; [repeat split; assumption|].
  split.
  { intros env Hgate Himg.
    destruct (mainLoop_frame_tick env st Hgate Himg)
      as (_ & _ & _ & _ & Hnames & Hclear & _).
    rewrite Hflag in Hnames, Hclear. rewrite Hst in Hnames.
    split; [exact Hnames | exact Hclear]. }
  do 5 (split; [vm_compute; reflexivity|]).
  exact capture_below_10000.
Qed.
